(** * Knowledge-graph fusion: a shallow embedding of the Python sources

    The development follows the layout of the repository:

    - [SimilarityCalculator]  kg_core/knowledge_mapping/similarity_calculator.py
    - [EntityFusion]          kg_demo/knowledge_fusion/entity_fusion.py
    - [RelationFusion]        kg_core/knowledge_fusion/relation_fusion.py
    - [ConflictResolver]      kg_demo/knowledge_fusion/conflict_resolution.py
    - [Ontology]              kg_demo/entity_definition/ontology.py
    - [KnowledgeGraph]        kg_demo/knowledge_fusion/knowledge_graph.py

    Conventions of the embedding.

    - A Python [float] is an IEEE-754 binary64 number: Rocq's primitive
      [float], whose operations round exactly as CPython's do.  Python
      [int]s that count things are [nat]; [int / int] and [int * float]
      convert the integer first ([float_of_nat]).
    - A Python [str] is a [string]; its characters are the code points
      below 256.
    - A Python [dict] is an insertion-ordered association list ([pydict]),
      a [set] of strings or integers a [gset], a [defaultdict(set)] a
      [gmap] into [gset]s.
    - A call that may raise returns a [result]; a method that mutates
      [self] takes the object and returns the new one.
    - String literals of the sources outside that alphabet (the Chinese
      descriptions of conflicts) appear as their UTF-8 bytes.

    The file has three parts: the embedding of the sources, the vocabulary
    in which the properties are stated, and the properties with their
    proofs. *)

From Stdlib Require Import ZArith List String Ascii Bool Lia Permutation.
From Stdlib Require Import Uint63 Floats.
From Stdlib Require Import DecimalString.
From stdpp Require Import base decidable option list gmap strings.

Set Warnings "-inexact-float,-register-all".
Set Warnings "-clear-no-such-hyp".

Local Open Scope string_scope.
Local Open Scope list_scope.
Local Open Scope nat_scope.

(** ** Python exceptions and fallible results *)

Inductive PyExn : Type :=
| ValueError
| IndexError
| TypeError
| ZeroDivisionError
| RecursionError
| OverflowError.

Inductive result (A : Type) : Type :=
| Ok (a : A)
| Raise (e : PyExn).

Arguments Ok {A} a.
Arguments Raise {A} e.

(** Sequencing: an exception raised by the first call propagates.  The
    notation [x ← r; k] is stdpp's. *)
#[export] Instance result_bind : MBind result :=
  fun A B (k : A -> result B) (r : result A) =>
    match r with
    | Ok a => k a
    | Raise e => Raise e
    end.

#[export] Instance result_ret : MRet result := fun A a => Ok a.

(** ** Floating point *)

Definition float_of_nat (n : nat) : float :=
  PrimFloat.of_uint63 (Uint63.of_Z (Z.of_nat n)).

(** [min(a, b)] and [max(a, b)] on two floats: Python keeps the first
    argument unless the second is strictly better. *)
Definition py_min (a b : float) : float := if (b <? a)%float then b else a.
Definition py_max (a b : float) : float := if (a <? b)%float then b else a.

(** [sum(xs)] over floats, starting from the integer [0], one addition per
    item from left to right.  (CPython 3.12 and later carry a compensation
    term along; it leaves a sum of two items as it is.) *)
Definition py_sum (xs : list float) : float := fold_left PrimFloat.add xs 0%float.

(** [max(xs)] over a list; [ValueError] on the empty list. *)
Definition py_max_list (xs : list float) : result float :=
  match xs with
  | [] => Raise ValueError
  | x :: t => Ok (fold_left py_max t x)
  end.

(** [b >= a]. *)
Definition fle (a b : float) : bool := (a <=? b)%float.

(** ** Insertion-ordered dictionaries *)

Section PyDict.
Context {K V : Type} `{EqDecision K}.

Definition pydict : Type := list (K * V).

Fixpoint dict_get (d : pydict) (k : K) : option V :=
  match d with
  | [] => None
  | (k', v) :: t => if decide (k' = k) then Some v else dict_get t k
  end.

(** [d[k] = v]: an existing key keeps its position, a new key goes last. *)
Fixpoint dict_set (d : pydict) (k : K) (v : V) : pydict :=
  match d with
  | [] => [(k, v)]
  | (k', v') :: t =>
      if decide (k' = k) then (k', v) :: t else (k', v') :: dict_set t k v
  end.

Definition dict_mem (d : pydict) (k : K) : bool :=
  match dict_get d k with Some _ => true | None => false end.

Definition dict_keys (d : pydict) : list K := map fst d.
Definition dict_values (d : pydict) : list V := map snd d.

End PyDict.

Arguments pydict : clear implicits.

(** [groups[key].append(x)] on a [defaultdict(list)], and [counts[key] += 1]
    on a [defaultdict(int)]. *)
Definition dict_append {K V : Type} `{EqDecision K} (groups : pydict K (list V))
  (key : K) (x : V) : pydict K (list V) :=
  dict_set groups key (default [] (dict_get groups key) ++ [x]).

Definition dict_incr {K : Type} `{EqDecision K} (counts : pydict K nat) (key : K)
  : pydict K nat :=
  dict_set counts key (default 0 (dict_get counts key) + 1).

(** ** similarity_calculator.py *)

Module SimilarityCalculator.

(** [str.lower()], character by character on the code points below 256. *)
Definition lower_char (c : ascii) : ascii :=
  let n := nat_of_ascii c in
  if ((65 <=? n) && (n <=? 90))
     || ((192 <=? n) && (n <=? 222) && negb (n =? 215))
  then ascii_of_nat (n + 32) else c.

Fixpoint lower (s : string) : string :=
  match s with
  | EmptyString => EmptyString
  | String c s' => String (lower_char c) (lower s')
  end.

(** The edit distance of the [Levenshtein] package (insertion, deletion
    and substitution, each of cost one). *)
Fixpoint levenshtein_distance (s1 : string) : string -> nat :=
  fix inner (s2 : string) : nat :=
    match s1, s2 with
    | EmptyString, _ => String.length s2
    | _, EmptyString => String.length s1
    | String c1 t1, String c2 t2 =>
        Nat.min (Nat.min (levenshtein_distance t1 s2 + 1) (inner t2 + 1))
                (levenshtein_distance t1 t2 + (if Ascii.eqb c1 c2 then 0 else 1))
    end.

Definition _levenshtein_similarity (str1 str2 : string) : float :=
  let max_len := Nat.max (String.length str1) (String.length str2) in
  if max_len =? 0 then 1%float
  else
    let distance := levenshtein_distance str1 str2 in
    (1 - float_of_nat distance / float_of_nat max_len)%float.

Definition get_ngrams (text : string) (n : nat) : gset string :=
  if String.length text <? n then {[ text ]}
  else list_to_set
         (map (fun i => substring i n text) (seq 0 (String.length text - n + 1))).

Definition _jaccard_similarity (str1 str2 : string) (n_gram : nat) : float :=
  let ngrams1 := get_ngrams (lower str1) n_gram in
  let ngrams2 := get_ngrams (lower str2) n_gram in
  let intersection := size (ngrams1 ∩ ngrams2) in
  let union := size (ngrams1 ∪ ngrams2) in
  if 0 <? union then (float_of_nat intersection / float_of_nat union)%float
  else 0%float.

(** [Counter(text)]: one entry per character, in order of first occurrence. *)
Definition counter_get (freq : pydict ascii nat) (c : ascii) : nat :=
  default 0 (dict_get freq c).

Definition Counter (text : string) : pydict ascii nat :=
  fold_left (fun freq c => dict_set freq c (counter_get freq c + 1))
            (list_ascii_of_string text) [].

Definition get_char_freq (text : string) : pydict ascii nat :=
  Counter (lower text).

Definition dot_product (freq1 freq2 : pydict ascii nat) : nat :=
  list_sum (map (fun c => counter_get freq1 c * counter_get freq2 c)
                (filter (fun c => dict_mem freq2 c) (dict_keys freq1))).

Definition norm (freq : pydict ascii nat) : float :=
  PrimFloat.sqrt (float_of_nat (list_sum (map (fun f => f * f) (dict_values freq)))).

Definition _cosine_similarity (str1 str2 : string) : float :=
  let freq1 := get_char_freq str1 in
  let freq2 := get_char_freq str2 in
  let dot := dot_product freq1 freq2 in
  let norm1 := norm freq1 in
  let norm2 := norm freq2 in
  if (norm1 =? 0)%float || (norm2 =? 0)%float then 0%float
  else (float_of_nat dot / (norm1 * norm2))%float.

(** [dp[i][j]] of [lcs_length]: the table is filled by this recurrence. *)
Fixpoint lcs_dp (s1 s2 : string) (i : nat) : nat -> nat :=
  fix inner (j : nat) : nat :=
    match i, j with
    | 0, _ => 0
    | _, 0 => 0
    | S i', S j' =>
        if decide (String.get i' s1 = String.get j' s2)
        then lcs_dp s1 s2 i' j' + 1
        else Nat.max (lcs_dp s1 s2 i' j) (inner j')
    end.

Definition lcs_length (s1 s2 : string) : nat :=
  lcs_dp s1 s2 (String.length s1) (String.length s2).

Definition _lcs_similarity (str1 str2 : string) : float :=
  let lcs_len := lcs_length str1 str2 in
  if 0 <? String.length str1 + String.length str2
  then (2 * float_of_nat lcs_len
        / float_of_nat (String.length str1 + String.length str2))%float
  else 0%float.

Definition _combined_string_similarity (str1 str2 : string) : float :=
  let lev_sim := _levenshtein_similarity str1 str2 in
  let jaccard_sim := _jaccard_similarity str1 str2 2 in
  let cosine_sim := _cosine_similarity str1 str2 in
  let lcs_sim := _lcs_similarity str1 str2 in
  (lev_sim * 0.3 + jaccard_sim * 0.3 + cosine_sim * 0.2 + lcs_sim * 0.2)%float.

Definition is_empty (s : string) : bool :=
  match s with EmptyString => true | _ => false end.

Definition string_similarity (str1 str2 : string) (method : string) : result float :=
  if is_empty str1 || is_empty str2 then Ok 0%float
  else if String.eqb str1 str2 then Ok 1%float
  else if String.eqb method "levenshtein" then Ok (_levenshtein_similarity str1 str2)
  else if String.eqb method "jaccard" then Ok (_jaccard_similarity str1 str2 2)
  else if String.eqb method "cosine" then Ok (_cosine_similarity str1 str2)
  else if String.eqb method "lcs" then Ok (_lcs_similarity str1 str2)
  else if String.eqb method "combined" then Ok (_combined_string_similarity str1 str2)
  else Raise ValueError.

(** [batch_similarity_matrix(items)] with the default method: the entry
    written at [matrix[i][j]] (and mirrored at [matrix[j][i]]) for [i <= j]. *)
Definition matrix_entry (items : list string) (method : string) (i j : nat)
  : result float :=
  if i =? j then Ok 1%float
  else
    match items !! Nat.min i j, items !! Nat.max i j with
    | Some a, Some b => string_similarity a b method
    | _, _ => Raise IndexError
    end.

Definition batch_similarity_matrix (items : list string) (method : string)
  : result (list (list float)) :=
  let n := length items in
  mapM (fun i => mapM (fun j => matrix_entry items method i j) (seq 0 n)) (seq 0 n).

Definition matrix_get (matrix : list (list float)) (i j : nat) : float :=
  default 0%float (row ← matrix !! i; row !! j).

(** The nested [dfs] of [clustering_by_similarity].  [visited] and
    [cluster] are shared by all calls, so they are threaded through.
    [depth] is the number of nested calls of [dfs] the interpreter still
    allows, its recursion limit less the frames in use: a call beyond it
    raises [RecursionError], which nothing here catches. *)
Fixpoint dfs (depth : nat) (matrix : list (list float)) (threshold : float)
  (n : nat) (node : nat) (st : gset nat * list nat) : result (gset nat * list nat) :=
  match depth with
  | 0 => Raise RecursionError
  | S depth' =>
      fold_left
        (fun acc neighbor =>
           st' ← acc;
           if negb (bool_decide (neighbor ∈ fst st'))
              && fle threshold (matrix_get matrix node neighbor)
           then dfs depth' matrix threshold n neighbor st'
           else Ok st')
        (seq 0 n)
        (Ok ({[ node ]} ∪ fst st, snd st ++ [node]))
  end.

Definition clustering_loop (depth : nat) (matrix : list (list float))
  (threshold : float) (n : nat) : result (list (list nat)) :=
  st ← fold_left
         (fun acc i =>
            st ← acc;
            if bool_decide (i ∈ fst st) then Ok st
            else
              st' ← dfs depth matrix threshold n i (fst st, []);
              Ok (fst st', snd st ++ [snd st']))
         (seq 0 n) (Ok (∅, []));
  Ok (snd st).

(** [clustering_by_similarity(items, threshold)], called where the
    interpreter allows [depth] more nested calls. *)
Definition clustering_by_similarity (depth : nat) (items : list string)
  (threshold : float) : result (list (list nat)) :=
  similarity_matrix ← batch_similarity_matrix items "combined";
  clustering_loop depth similarity_matrix threshold (length items).

(** [find_duplicates(items, threshold)].  The inner loop tests the
    similarity only: unlike the dedup pass of the fusion engines it does not
    skip an index that an earlier group has already taken. *)
Definition find_duplicates_scan (matrix : list (list float)) (threshold : float)
  (i : nat) (st : list nat * gset nat) (j : nat) : list nat * gset nat :=
  let '(duplicate_group, visited) := st in
  if fle threshold (matrix_get matrix i j)
  then (duplicate_group ++ [j], {[ j ]} ∪ visited)
  else st.

Definition find_duplicates_step (matrix : list (list float)) (threshold : float)
  (n : nat) (st : list (list nat) * gset nat) (i : nat) : list (list nat) * gset nat :=
  let '(duplicates, visited) := st in
  if bool_decide (i ∈ visited) then st
  else
    let '(duplicate_group, visited) :=
      fold_left (find_duplicates_scan matrix threshold i)
                (seq (i + 1) (n - (i + 1))) ([i], visited) in
    let duplicates :=
      if 1 <? length duplicate_group then duplicates ++ [duplicate_group]
      else duplicates in
    (duplicates, {[ i ]} ∪ visited).

Definition find_duplicates (items : list string) (threshold : float)
  : result (list (list nat)) :=
  similarity_matrix ← batch_similarity_matrix items "combined";
  let n := length items in
  Ok (fst (fold_left (find_duplicates_step similarity_matrix threshold n)
                     (seq 0 n) ([], ∅))).

(** [_list_similarity(list1, list2)] on lists of strings. *)
Definition _list_similarity (list1 list2 : list string) : float :=
  match list1, list2 with
  | [], [] => 1%float
  | [], _ :: _ | _ :: _, [] => 0%float
  | _ :: _, _ :: _ =>
      let set1 : gset string := list_to_set list1 in
      let set2 : gset string := list_to_set list2 in
      let intersection := size (set1 ∩ set2) in
      let union := size (set1 ∪ set2) in
      if 0 <? union then (float_of_nat intersection / float_of_nat union)%float
      else 0%float
  end.

(** [d.get(key, '')] on a dictionary whose values are strings. *)
Definition get_str (d : pydict string string) (key : string) : string :=
  default "" (dict_get d key).

(** [relation_similarity(relation1, relation2)] on two relation
    dictionaries: the three similarities with their weights, summed from
    [0] in the order of the list. *)
Definition relation_similarity (relation1 relation2 : pydict string string)
  : result float :=
  type_sim ← string_similarity (get_str relation1 "type") (get_str relation2 "type")
                               "combined";
  head_sim ← string_similarity (get_str relation1 "head_entity")
                               (get_str relation2 "head_entity") "combined";
  tail_sim ← string_similarity (get_str relation1 "tail_entity")
                               (get_str relation2 "tail_entity") "combined";
  Ok (0 + type_sim * 0.5 + head_sim * 0.25 + tail_sim * 0.25)%float.

(** [scores.sort(key=lambda x: x[1], reverse=True)]: Python's sort is
    stable, also in reverse, so on scores that are numbers the result is the
    one list in which a pair stands before every pair of smaller score and
    behind the earlier pairs of the same score.  The pairs are inserted from
    the last one to the first. *)
Fixpoint insert_by_score (x : string * float) (sorted : list (string * float))
  : list (string * float) :=
  match sorted with
  | [] => [x]
  | y :: rest =>
      if (snd x <? snd y)%float then y :: insert_by_score x rest
      else x :: y :: rest
  end.

Definition sort_by_score (scores : list (string * float)) : list (string * float) :=
  fold_right insert_by_score [] scores.

(** [fuzzy_match_score(query, candidates, top_k)] for [top_k >= 0]. *)
Definition fuzzy_match_score (query : string) (candidates : list string) (top_k : nat)
  : result (list (string * float)) :=
  scores ← mapM (fun candidate =>
                   similarity ← string_similarity query candidate "combined";
                   Ok (candidate, similarity)) candidates;
  Ok (take top_k (sort_by_score scores)).

End SimilarityCalculator.

(** ** The data model: entity_types.py and relation_types.py *)

(** A property value ([Dict[str, Any]]). *)
Inductive PyValue : Type :=
| VNone
| VBool (b : bool)
| VInt (n : Z)
| VFloat (x : float)
| VStr (s : string)
| VList (l : list PyValue)
| VDict (d : list (string * PyValue)).

Record Entity : Type := mkEntity {
  entity_id : string;
  entity_name : string;
  entity_type : string;
  entity_properties : pydict string PyValue;
  entity_aliases : list string
}.

Record Relation : Type := mkRelation {
  relation_id : string;
  relation_type : string;
  head_entity_id : string;
  tail_entity_id : string;
  relation_properties : pydict string PyValue;
  confidence : float
}.

(** [float(n)] of an [int]: the nearest float, ties to even, and
    [OverflowError] where that is not finite. *)
Definition float_of_Z (z : Z) : result float :=
  match binary_normalize prec emax z 0 false with
  | S754_infinity _ => Raise OverflowError
  | x => Ok (SF2Prim x)
  end.

(** [v * x] for a float [x]: defined on numbers, [TypeError] otherwise. *)
Definition py_mul_float (v : PyValue) (x : float) : result float :=
  match v with
  | VBool b => Ok ((if b then 1 else 0) * x)%float
  | VInt n => y ← float_of_Z n; Ok (y * x)%float
  | VFloat y => Ok (y * x)%float
  | _ => Raise TypeError
  end.

(** ** The dedup pass shared by both fusion engines

    [identify_duplicate_entities] and [identify_duplicate_relations] run the
    same two loops over indices; only the test on a pair differs. *)

Section SeedScan.
Variable is_duplicate : nat -> nat -> bool.

(** One turn of [for j in range(i + 1, n)]. *)
Definition scan_step (i : nat) (st : list nat * gset nat) (j : nat)
  : list nat * gset nat :=
  let '(duplicate_group, visited) := st in
  if bool_decide (j ∈ visited) then st
  else if is_duplicate i j then (duplicate_group ++ [j], {[ j ]} ∪ visited)
  else st.

(** One turn of [for i in range(n)]. *)
Definition seed_step (n : nat) (st : list (list nat) * gset nat) (i : nat)
  : list (list nat) * gset nat :=
  let '(duplicates, visited) := st in
  if bool_decide (i ∈ visited) then st
  else
    let '(duplicate_group, visited) :=
      fold_left (scan_step i) (seq (i + 1) (n - (i + 1))) ([i], visited) in
    let duplicates :=
      if 1 <? length duplicate_group then duplicates ++ [duplicate_group]
      else duplicates in
    (duplicates, {[ i ]} ∪ visited).

Definition seed_scan (n : nat) : list (list nat) :=
  fst (fold_left (seed_step n) (seq 0 n) ([], ∅)).

End SeedScan.

(** A run of code that draws identifiers and may raise.  [uuid.uuid4()]
    draws from a source of identifiers: the [k]-th draw of a run is [uuid k],
    and the number of draws made so far is threaded. *)
Definition M (A : Type) : Type := nat -> result (A * nat).

#[export] Instance M_ret : MRet M := fun A a k => Ok (a, k).

#[export] Instance M_bind : MBind M :=
  fun A B (f : A -> M B) (m : M A) k =>
    match m k with
    | Ok (a, k') => f a k'
    | Raise e => Raise e
    end.

Definition draw_uuid (uuid : nat -> string) : M string := fun k => Ok (uuid k, S k).

Definition lift {A : Type} (r : result A) : M A :=
  fun k => match r with Ok a => Ok (a, k) | Raise e => Raise e end.

Fixpoint forM {A B : Type} (l : list A) (f : A -> M B) : M (list B) :=
  match l with
  | [] => mret []
  | a :: t => b ← f a; bs ← forM t f; mret (b :: bs)
  end.

(** [(x, y)] for every [i < j] of a list, in the order of the two nested
    [range] loops. *)
Fixpoint pairs_in_order {A : Type} (l : list A) : list (A * A) :=
  match l with
  | [] => []
  | x :: t => map (fun y => (x, y)) t ++ pairs_in_order t
  end.

(** [max(scores, key=lambda x: x[1])[0]]: the first item of highest score. *)
Definition first_max {A : Type} (scores : list (A * float)) : result A :=
  match scores with
  | [] => Raise ValueError
  | s :: t =>
      Ok (fst (fold_left (fun best x => if (snd best <? snd x)%float then x else best) t s))
  end.

(** [max(items, key=...)] with a key that is a count or a length: the first
    item of greatest key; [ValueError] on no items. *)
Definition py_max_by {A : Type} (key : A -> nat) (items : list A) : result A :=
  match items with
  | [] => Raise ValueError
  | x :: t => Ok (fold_left (fun best y => if key best <? key y then y else best) t x)
  end.

(** [str(n)] of a number that counts things. *)
Definition str_of_nat (n : nat) : string := NilEmpty.string_of_uint (Nat.to_uint n).

(** ** entity_fusion.py *)

Module EntityFusion.

Record EntityDict : Type := mkEntityDict {
  d_name : string;
  d_type : string;
  d_properties : pydict string PyValue;
  d_aliases : list string
}.

Record EntityCluster : Type := mkEntityCluster {
  cluster_id : string;
  entities : list Entity;
  representative_entity : option Entity;
  cluster_confidence : float;
  fusion_method : string
}.

Record FusionResult : Type := mkFusionResult {
  fused_entity : Entity;
  source_entities : list Entity;
  result_confidence : float;
  fusion_evidence : pydict string PyValue
}.

(** The default of [EntityFusion(similarity_threshold=0.8)]. *)
Definition default_similarity_threshold : float := 0.8.

(** The dictionary built for every entity before the comparison. *)
Definition entity_dict (entity : Entity) : EntityDict :=
  {| d_name := entity_name entity;
     d_type := entity_type entity;
     d_properties := entity_properties entity;
     d_aliases := entity_aliases entity |}.

Section WithSelf.

(** [self.similarity_threshold]; the constructor's default is [0.8]. *)
Variable similarity_threshold : float.

(** [self.similarity_calculator.entity_similarity]: the calculator this
    module imports (kg_demo/knowledge_mapping/similarity_calculator.py) is
    not among the sources, so the similarity of two entity dictionaries is a
    parameter. *)
Variable entity_similarity : EntityDict -> EntityDict -> float.

(** The identifiers [uuid.uuid4()] returns, in the order they are drawn. *)
Variable uuid : nat -> string.

(** The builtin [float(v)]. *)
Variable py_float : PyValue -> result float.

(** [_create_fused_entity] merges names, types and properties by iterating
    over Python sets, whose order the language leaves open: the merged entity
    of a cluster of several members is a parameter. *)
Variable _create_fused_entity : list Entity -> M Entity.

Definition similar (entity_dicts : list EntityDict) (i j : nat) : bool :=
  match entity_dicts !! i, entity_dicts !! j with
  | Some di, Some dj => fle similarity_threshold (entity_similarity di dj)
  | _, _ => false
  end.

Definition identify_duplicate_entities (entities : list Entity) : list (list nat) :=
  if length entities <=? 1 then []
  else
    let entity_dicts := map entity_dict entities in
    seed_scan (similar entity_dicts) (length entities).

Definition _calculate_cluster_confidence (entities : list Entity) : float :=
  if length entities =? 1 then 1%float
  else
    let sims :=
      map (fun '(e1, e2) => entity_similarity (entity_dict e1) (entity_dict e2))
          (pairs_in_order entities) in
    let total_similarity := fold_left PrimFloat.add sims 0%float in
    let comparisons := length sims in
    if 0 <? comparisons then (total_similarity / float_of_nat comparisons)%float
    else 0%float.

Definition entity_score (entity : Entity) : result float :=
  let score := 0%float in
  let score := (score + float_of_nat (String.length (entity_name entity)) * 0.1)%float in
  let score :=
    match entity_properties entity with
    | [] => score
    | _ => (score + float_of_nat (length (entity_properties entity)) * 0.2)%float
    end in
  let score :=
    match entity_aliases entity with
    | [] => score
    | _ => (score + float_of_nat (length (entity_aliases entity)) * 0.1)%float
    end in
  match dict_get (entity_properties entity) "confidence" with
  | Some v => c ← py_float v; Ok (score + c * 0.5)%float
  | None => Ok score
  end.

Definition _select_representative_entity (entities : list Entity) : result Entity :=
  match entities with
  | [entity] => Ok entity
  | _ =>
      scores ← mapM (fun entity => score ← entity_score entity; Ok (entity, score)) entities;
      first_max scores
  end.

Definition group_entities (entities : list Entity) (group_indices : list nat)
  : list Entity :=
  omap (fun i => entities !! i) group_indices.

Definition clustered_indices (duplicate_groups : list (list nat)) : gset nat :=
  list_to_set (concat duplicate_groups).

(** The indices that get a cluster of their own, in input order. *)
Definition unclustered (n : nat) (duplicate_groups : list (list nat)) : list nat :=
  List.filter (fun i => negb (bool_decide (i ∈ clustered_indices duplicate_groups)))
              (seq 0 n).

Definition cluster_entities (entities : list Entity) : M (list EntityCluster) :=
  let duplicate_groups := identify_duplicate_entities entities in
  clusters ← forM duplicate_groups (fun group_indices =>
    let group := group_entities entities group_indices in
    cid ← draw_uuid uuid;
    representative ← lift (_select_representative_entity group);
    mret {| cluster_id := cid;
            entities := group;
            representative_entity := Some representative;
            cluster_confidence := _calculate_cluster_confidence group;
            fusion_method := "similarity_based" |});
  singles ← forM (group_entities entities (unclustered (length entities) duplicate_groups))
    (fun entity =>
       cid ← draw_uuid uuid;
       mret {| cluster_id := cid;
               entities := [entity];
               representative_entity := Some entity;
               cluster_confidence := 1%float;
               fusion_method := "single_entity" |});
  mret (clusters ++ singles).

Definition _calculate_fusion_confidence (source_entities : list Entity)
  (fused_entity : Entity) : float :=
  if length source_entities =? 1 then 1%float
  else
    let source_factor := py_min 1 (float_of_nat (length source_entities) / 5)%float in
    let total_props :=
      list_sum (map (fun entity => length (entity_properties entity)) source_entities) in
    let fused_props := length (entity_properties fused_entity) in
    let completeness_factor :=
      if 0 <? total_props then (float_of_nat fused_props / float_of_nat total_props)%float
      else 0.5%float in
    let name_consistency :=
      size (list_to_set (map entity_name source_entities) : gset string) =? 1 in
    let type_consistency :=
      size (list_to_set (map entity_type source_entities) : gset string) =? 1 in
    let consistency_factor :=
      (float_of_nat (Nat.b2n name_consistency + Nat.b2n type_consistency) / 2)%float in
    let weighted_sum :=
      (0 + source_factor * 0.3 + completeness_factor * 0.4 + consistency_factor * 0.3)%float in
    py_min weighted_sum 1.

Definition fuse_entity_cluster (cluster : EntityCluster) : M FusionResult :=
  match entities cluster with
  | [entity] =>
      mret {| fused_entity := entity;
              source_entities := entities cluster;
              result_confidence := 1%float;
              fusion_evidence := [("method", VStr "no_fusion_needed")] |}
  | _ =>
      fused ← _create_fused_entity (entities cluster);
      let fusion_confidence := _calculate_fusion_confidence (entities cluster) fused in
      mret {| fused_entity := fused;
              source_entities := entities cluster;
              result_confidence := fusion_confidence;
              fusion_evidence :=
                [("method", VStr "multi_entity_fusion");
                 ("source_count", VInt (Z.of_nat (length (entities cluster))));
                 ("cluster_confidence", VFloat (cluster_confidence cluster))] |}
  end.

Definition batch_fuse_entities (entities : list Entity) : M (list FusionResult) :=
  clusters ← cluster_entities entities;
  forM clusters fuse_entity_cluster.

End WithSelf.

(** [self.fusion_rules['type_resolution']['strategy']] as
    [_build_fusion_rules] sets it. *)
Definition type_resolution_strategy : string := "most_specific".

(** [_fuse_types(types)]: the types are counted in order of first
    occurrence; [most_specific] takes the longest type name, every other
    strategy the most frequent one. *)
Definition _fuse_types (strategy : string) (types : list string) : result string :=
  match types with
  | [] => Ok "Unknown"
  | _ =>
      let type_counts := fold_left dict_incr types [] in
      if String.eqb strategy "vote" then
        item ← py_max_by snd type_counts; Ok (fst item)
      else if String.eqb strategy "most_specific" then
        py_max_by String.length (dict_keys type_counts)
      else
        item ← py_max_by snd type_counts; Ok (fst item)
  end.

(** The dictionary [get_fusion_statistics] returns. *)
Record FusionStatistics : Type := mkFusionStatistics {
  total_fusions : nat;
  single_entity_count : nat;
  multi_entity_count : nat;
  average_confidence : float;
  high_confidence_count : nat;
  source_distribution : pydict nat nat
}.

(** One turn of the loop of [get_fusion_statistics], with the running
    [total_confidence]. *)
Definition count_result (st : FusionStatistics * float) (result : FusionResult)
  : FusionStatistics * float :=
  let '(stats, total_confidence) := st in
  let source_count := length (source_entities result) in
  ({| total_fusions := total_fusions stats;
      single_entity_count :=
        if source_count =? 1 then single_entity_count stats + 1
        else single_entity_count stats;
      multi_entity_count :=
        if source_count =? 1 then multi_entity_count stats
        else multi_entity_count stats + 1;
      average_confidence := average_confidence stats;
      high_confidence_count :=
        if (0.8 <? result_confidence result)%float then high_confidence_count stats + 1
        else high_confidence_count stats;
      source_distribution := dict_incr (source_distribution stats) source_count |},
   (total_confidence + result_confidence result)%float).

Definition get_fusion_statistics (fusion_results : list FusionResult)
  : FusionStatistics :=
  let stats :=
    {| total_fusions := length fusion_results;
       single_entity_count := 0;
       multi_entity_count := 0;
       average_confidence := 0;
       high_confidence_count := 0;
       source_distribution := [] |} in
  let '(stats, total_confidence) := fold_left count_result fusion_results (stats, 0%float) in
  match fusion_results with
  | [] => stats
  | _ =>
      {| total_fusions := total_fusions stats;
         single_entity_count := single_entity_count stats;
         multi_entity_count := multi_entity_count stats;
         average_confidence :=
           (total_confidence / float_of_nat (length fusion_results))%float;
         high_confidence_count := high_confidence_count stats;
         source_distribution := source_distribution stats |}
  end.

End EntityFusion.

(** ** relation_fusion.py *)

Module RelationFusion.

Record RelationCluster : Type := mkRelationCluster {
  cluster_id : string;
  relations : list Relation;
  representative_relation : option Relation;
  cluster_confidence : float;
  fusion_method : string
}.

Record RelationFusionResult : Type := mkRelationFusionResult {
  fused_relation : Relation;
  source_relations : list Relation;
  result_confidence : float;
  fusion_evidence : pydict string PyValue
}.

(** The entries of [self.fusion_rules] the code reads. *)
Record FusionRules : Type := mkFusionRules {
  type_match_weight : float;
  entity_match_weight : float;
  context_match_weight : float;
  confidence_fusion_strategy : string;
  merge_strategy : string
}.

(** The default of [RelationFusion(similarity_threshold=0.8)]. *)
Definition default_similarity_threshold : float := 0.8.

(** [_build_fusion_rules]. *)
Definition _build_fusion_rules : FusionRules :=
  {| type_match_weight := 0.6;
     entity_match_weight := 0.8;
     context_match_weight := 0.4;
     confidence_fusion_strategy := "weighted_average";
     merge_strategy := "union" |}.

Section WithSelf.

(** [self.similarity_threshold] (default [0.8]) and [self.fusion_rules]. *)
Variable similarity_threshold : float.
Variable fusion_rules : FusionRules.

(** [self.similarity_calculator.context_similarity] tokenises both texts
    with the external package [jieba]: a parameter, applied to whatever the
    two [context] properties hold. *)
Variable context_similarity : PyValue -> PyValue -> float.

Variable uuid : nat -> string.

(** The merge of one or more property dictionaries iterates over Python
    sets, whose order the language leaves open: a parameter. *)
Variable merge_properties :
  list (pydict string PyValue) -> result (pydict string PyValue).

Definition _fuse_relation_properties (property_lists : list (pydict string PyValue))
  : result (pydict string PyValue) :=
  match property_lists with
  | [] => Ok []
  | _ => merge_properties property_lists
  end.

Definition nonempty {A : Type} (l : list A) : bool :=
  match l with [] => false | _ => true end.

Definition _calculate_relation_similarity (relation1 relation2 : Relation) : float :=
  let type_sim :=
    if String.eqb (relation_type relation1) (relation_type relation2)
    then 1%float else 0%float in
  let entity_sim :=
    if String.eqb (head_entity_id relation1) (head_entity_id relation2)
       && String.eqb (tail_entity_id relation1) (tail_entity_id relation2)
    then 1%float
    else if String.eqb (head_entity_id relation1) (tail_entity_id relation2)
            && String.eqb (tail_entity_id relation1) (head_entity_id relation2)
    then 0.8%float
    else 0%float in
  let context_sim :=
    if nonempty (relation_properties relation1) && nonempty (relation_properties relation2)
    then
      match dict_get (relation_properties relation1) "context",
            dict_get (relation_properties relation2) "context" with
      | Some c1, Some c2 => context_similarity c1 c2
      | _, _ => 0%float
      end
    else 0%float in
  let total_weight :=
    (0 + type_match_weight fusion_rules + entity_match_weight fusion_rules
       + context_match_weight fusion_rules)%float in
  let weighted_sum :=
    (0 + type_sim * type_match_weight fusion_rules
       + entity_sim * entity_match_weight fusion_rules
       + context_sim * context_match_weight fusion_rules)%float in
  if (0 <? total_weight)%float then (weighted_sum / total_weight)%float else 0%float.

Definition _are_duplicate_relations (relation1 relation2 : Relation) : bool :=
  if String.eqb (relation_type relation1) (relation_type relation2)
     && String.eqb (head_entity_id relation1) (head_entity_id relation2)
     && String.eqb (tail_entity_id relation1) (tail_entity_id relation2)
  then true
  else fle similarity_threshold (_calculate_relation_similarity relation1 relation2).

Definition duplicate_at (relations : list Relation) (i j : nat) : bool :=
  match relations !! i, relations !! j with
  | Some ri, Some rj => _are_duplicate_relations ri rj
  | _, _ => false
  end.

Definition identify_duplicate_relations (relations : list Relation) : list (list nat) :=
  if length relations <=? 1 then []
  else seed_scan (duplicate_at relations) (length relations).

Definition _calculate_cluster_confidence (relations : list Relation) : result float :=
  match relations with
  | [relation] => Ok (confidence relation)
  | [] => Raise ZeroDivisionError
  | _ =>
      let sims :=
        map (fun '(r1, r2) => _calculate_relation_similarity r1 r2)
            (pairs_in_order relations) in
      let total_similarity := fold_left PrimFloat.add sims 0%float in
      let comparisons := length sims in
      let avg_similarity :=
        if 0 <? comparisons then (total_similarity / float_of_nat comparisons)%float
        else 0%float in
      let individual_confidences := map confidence relations in
      let avg_individual_confidence :=
        (py_sum individual_confidences / float_of_nat (length individual_confidences))%float in
      Ok (avg_similarity * 0.6 + avg_individual_confidence * 0.4)%float
  end.

Definition relation_score (relation : Relation) : result float :=
  let score := 0%float in
  let score := (score + confidence relation * 0.5)%float in
  let score :=
    if nonempty (relation_properties relation)
    then (score + float_of_nat (length (relation_properties relation)) * 0.1)%float
    else score in
  score ←
    match dict_get (relation_properties relation) "source_quality" with
    | Some q => x ← py_mul_float q 0.3; Ok (score + x)%float
    | None => Ok score
    end;
  Ok (if dict_mem (relation_properties relation) "timestamp"
      then (score + 0.1)%float else score).

Definition _select_representative_relation (relations : list Relation)
  : result Relation :=
  match relations with
  | [relation] => Ok relation
  | _ =>
      scores ← mapM (fun relation => score ← relation_score relation;
                                     Ok (relation, score)) relations;
      first_max scores
  end.

Definition _calculate_fusion_confidence (relations : list Relation) : result float :=
  let strategy := confidence_fusion_strategy fusion_rules in
  let confidences := map confidence relations in
  let average :=
    match confidences with
    | [] => Raise ZeroDivisionError
    | _ => Ok (py_sum confidences / float_of_nat (length confidences))%float
    end in
  if String.eqb strategy "max" then py_max_list confidences
  else if String.eqb strategy "average" then average
  else if String.eqb strategy "weighted_average" then
    let source_weight := py_min 1 (float_of_nat (length relations) / 5)%float in
    avg_confidence ← average;
    Ok (py_min 1 (avg_confidence * (1 + source_weight * 0.2)))%float
  else average.

Definition _create_fused_relation (relations : list Relation) : M Relation :=
  representative ← lift (_select_representative_relation relations);
  fused_confidence ← lift (_calculate_fusion_confidence relations);
  fused_properties ← lift (_fuse_relation_properties
                             (List.filter (fun p => nonempty p)
                                          (map relation_properties relations)));
  fusion_timestamp ← draw_uuid uuid;
  let fused_properties :=
    dict_set fused_properties "fusion_info"
      (VDict [("source_count", VInt (Z.of_nat (length relations)));
              ("source_ids", VList (map (fun rel => VStr (relation_id rel)) relations));
              ("fusion_timestamp", VStr fusion_timestamp)]) in
  fused_id ← draw_uuid uuid;
  mret {| relation_id := fused_id;
          relation_type := relation_type representative;
          head_entity_id := head_entity_id representative;
          tail_entity_id := tail_entity_id representative;
          relation_properties := fused_properties;
          confidence := fused_confidence |}.

Definition fuse_relation_cluster (cluster : RelationCluster) : M RelationFusionResult :=
  match relations cluster with
  | [relation] =>
      mret {| fused_relation := relation;
              source_relations := relations cluster;
              result_confidence := cluster_confidence cluster;
              fusion_evidence := [("method", VStr "no_fusion_needed")] |}
  | _ =>
      fused ← _create_fused_relation (relations cluster);
      fusion_confidence ← lift (_calculate_fusion_confidence (relations cluster));
      mret {| fused_relation := fused;
              source_relations := relations cluster;
              result_confidence := fusion_confidence;
              fusion_evidence :=
                [("method", VStr "multi_relation_fusion");
                 ("source_count", VInt (Z.of_nat (length (relations cluster))));
                 ("cluster_confidence", VFloat (cluster_confidence cluster))] |}
  end.

Definition group_relations (relations : list Relation) (group_indices : list nat)
  : list Relation :=
  omap (fun i => relations !! i) group_indices.

Definition unclustered (n : nat) (duplicate_groups : list (list nat)) : list nat :=
  List.filter
    (fun i => negb (bool_decide (i ∈ (list_to_set (concat duplicate_groups) : gset nat))))
    (seq 0 n).

Definition cluster_relations (relations : list Relation) : M (list RelationCluster) :=
  let duplicate_groups := identify_duplicate_relations relations in
  clusters ← forM duplicate_groups (fun group_indices =>
    let group := group_relations relations group_indices in
    cid ← draw_uuid uuid;
    group_confidence ← lift (_calculate_cluster_confidence group);
    representative ← lift (_select_representative_relation group);
    mret {| cluster_id := cid;
            relations := group;
            representative_relation := Some representative;
            cluster_confidence := group_confidence;
            fusion_method := "similarity_based" |});
  singles ← forM (group_relations relations (unclustered (length relations) duplicate_groups))
    (fun relation =>
       cid ← draw_uuid uuid;
       mret {| cluster_id := cid;
               relations := [relation];
               representative_relation := Some relation;
               cluster_confidence := 1%float;
               fusion_method := "single_relation" |});
  mret (clusters ++ singles).

Definition batch_fuse_relations (relations : list Relation)
  : M (list RelationFusionResult) :=
  clusters ← cluster_relations relations;
  forM clusters fuse_relation_cluster.

End WithSelf.

(** [_merge_property_values_vote(values)]: the strings of the values are
    counted in order of first occurrence, and the first value with the most
    frequent string is returned.  [py_str] is the builtin [str]. *)
Definition _merge_property_values_vote (py_str : PyValue -> string)
  (values : list PyValue) : result PyValue :=
  let value_counts := fold_left (fun counts value => dict_incr counts (py_str value))
                                values [] in
  item ← py_max_by snd value_counts;
  let most_common_str := fst item in
  match find (fun value => String.eqb (py_str value) most_common_str) values with
  | Some value => Ok value
  | None =>
      match values with
      | value :: _ => Ok value
      | [] => Raise IndexError
      end
  end.

(** [remove_redundant_relations]: the relations are grouped by (head, tail)
    in order of first occurrence; a group of one is kept, a larger group is
    grouped again by type and the first relation of highest confidence is
    kept of each type. *)
Definition best_of_each_type (group : list Relation) : result (list Relation) :=
  let type_groups :=
    fold_left (fun groups rel => dict_append groups (relation_type rel) rel) group [] in
  mapM (fun type_group => first_max (map (fun x => (x, confidence x)) type_group))
       (dict_values type_groups).

Definition remove_redundant_relations (relations : list Relation)
  : result (list Relation) :=
  if length relations <=? 1 then Ok relations
  else
    let entity_pair_groups :=
      fold_left (fun groups relation =>
                   dict_append groups
                     (head_entity_id relation, tail_entity_id relation) relation)
                relations [] in
    kept ← mapM (fun group =>
                   match group with
                   | [_] => Ok group
                   | _ => best_of_each_type group
                   end)
                (dict_values entity_pair_groups);
    Ok (concat kept).

(** The dictionary [get_fusion_statistics] returns. *)
Record FusionStatistics : Type := mkFusionStatistics {
  total_fusions : nat;
  single_relation_count : nat;
  multi_relation_count : nat;
  average_confidence : float;
  high_confidence_count : nat;
  source_distribution : pydict nat nat;
  relation_type_distribution : pydict string nat
}.

(** One turn of the loop of [get_fusion_statistics], with the running
    [total_confidence]. *)
Definition count_result (st : FusionStatistics * float) (result : RelationFusionResult)
  : FusionStatistics * float :=
  let '(stats, total_confidence) := st in
  let source_count := length (source_relations result) in
  ({| total_fusions := total_fusions stats;
      single_relation_count :=
        if source_count =? 1 then single_relation_count stats + 1
        else single_relation_count stats;
      multi_relation_count :=
        if source_count =? 1 then multi_relation_count stats
        else multi_relation_count stats + 1;
      average_confidence := average_confidence stats;
      high_confidence_count :=
        if (0.8 <? result_confidence result)%float then high_confidence_count stats + 1
        else high_confidence_count stats;
      source_distribution := dict_incr (source_distribution stats) source_count;
      relation_type_distribution :=
        dict_incr (relation_type_distribution stats)
                  (relation_type (fused_relation result)) |},
   (total_confidence + result_confidence result)%float).

Definition get_fusion_statistics (fusion_results : list RelationFusionResult)
  : FusionStatistics :=
  let stats :=
    {| total_fusions := length fusion_results;
       single_relation_count := 0;
       multi_relation_count := 0;
       average_confidence := 0;
       high_confidence_count := 0;
       source_distribution := [];
       relation_type_distribution := [] |} in
  let '(stats, total_confidence) := fold_left count_result fusion_results (stats, 0%float) in
  match fusion_results with
  | [] => stats
  | _ =>
      {| total_fusions := total_fusions stats;
         single_relation_count := single_relation_count stats;
         multi_relation_count := multi_relation_count stats;
         average_confidence :=
           (total_confidence / float_of_nat (length fusion_results))%float;
         high_confidence_count := high_confidence_count stats;
         source_distribution := source_distribution stats;
         relation_type_distribution := relation_type_distribution stats |}
  end.

End RelationFusion.

(** ** conflict_resolution.py *)

Module ConflictResolver.

Inductive ConflictType : Type :=
| ENTITY_NAME_CONFLICT
| ENTITY_TYPE_CONFLICT
| PROPERTY_VALUE_CONFLICT
| RELATION_TYPE_CONFLICT
| TEMPORAL_CONFLICT
| CONTRADICTORY_RELATIONS.

#[export] Instance ConflictType_eq_dec : EqDecision ConflictType.
Proof. solve_decision. Defined.

(** What [conflicting_items : List[Any]] holds: names, types and property
    values, or the relations of a contradictory group. *)
Inductive Item : Type :=
| IValue (v : PyValue)
| IRelation (r : Relation).

Record Conflict : Type := mkConflict {
  conflict_id : string;
  conflict_type : ConflictType;
  description : string;
  conflicting_items : list Item;
  confidence_scores : list float;
  resolution_strategy : option string;
  resolved_value : option Item;
  resolution_confidence : float
}.

(** The dataclass defaults: no strategy, no resolved value, confidence 0.0. *)
Definition new_conflict (cid : string) (ty : ConflictType) (descr : string)
  (items : list Item) (scores : list float) : Conflict :=
  mkConflict cid ty descr items scores None None 0%float.

Definition set_strategy (conflict : Conflict) (strategy : string) : Conflict :=
  mkConflict (conflict_id conflict) (conflict_type conflict) (description conflict)
             (conflicting_items conflict) (confidence_scores conflict)
             (Some strategy) (resolved_value conflict) (resolution_confidence conflict).

(** The two assignments every strategy ends with. *)
Definition set_resolution (conflict : Conflict) (value : option Item) (conf : float)
  : Conflict :=
  mkConflict (conflict_id conflict) (conflict_type conflict) (description conflict)
             (conflicting_items conflict) (confidence_scores conflict)
             (resolution_strategy conflict) value conf.

Record ConflictResolver : Type := mkConflictResolver {
  resolution_strategies : ConflictType -> list string;
  conflict_history : list Conflict
}.

Definition _build_resolution_strategies (ty : ConflictType) : list string :=
  match ty with
  | ENTITY_NAME_CONFLICT =>
      ["highest_confidence"; "most_frequent"; "longest_name"; "manual_review"]
  | ENTITY_TYPE_CONFLICT =>
      ["most_specific_type"; "highest_confidence"; "vote"; "hierarchy_based"]
  | PROPERTY_VALUE_CONFLICT =>
      ["highest_confidence"; "most_recent"; "vote"; "average_numeric"; "union_lists"]
  | RELATION_TYPE_CONFLICT =>
      ["highest_confidence"; "most_frequent"; "semantic_similarity"; "manual_review"]
  | TEMPORAL_CONFLICT =>
      ["most_recent"; "longest_duration"; "highest_confidence"]
  | CONTRADICTORY_RELATIONS =>
      ["highest_confidence"; "source_authority"; "temporal_precedence"; "manual_review"]
  end.

(** [ConflictResolver()]. *)
Definition init : ConflictResolver :=
  {| resolution_strategies := _build_resolution_strategies; conflict_history := [] |}.

(** *** Detection of relation conflicts *)

(** [relation_groups[key].append(relation)] on a [defaultdict(list)]. *)
Definition group_append (groups : pydict (string * string) (list Relation))
  (relation : Relation) : pydict (string * string) (list Relation) :=
  let key := (head_entity_id relation, tail_entity_id relation) in
  dict_set groups key (default [] (dict_get groups key) ++ [relation]).

Definition contradictory_pairs : list (string * string) :=
  [("parent_of", "child_of"); ("spouse_of", "sibling_of");
   ("works_for", "competes_with"); ("located_in", "not_located_in")].

Definition _are_contradictory_relations (relation_types : list string) : bool :=
  let type_set : gset string := list_to_set relation_types in
  existsb (fun pair =>
             (bool_decide (fst pair ∈ type_set) && bool_decide (snd pair ∈ type_set))
             || (bool_decide (snd pair ∈ type_set) && bool_decide (fst pair ∈ type_set)))
          contradictory_pairs.

(** The body of the loop over [relation_groups.items()]: the conflicts one
    group appends. *)
Definition group_conflicts (key : string * string) (group : list Relation)
  : list Conflict :=
  let '(head_id, tail_id) := key in
  if length group <=? 1 then []
  else
    let types := map relation_type group in
    if 1 <? size (list_to_set types : gset string) then
      if _are_contradictory_relations types then
        [new_conflict
           ("contradictory_relations_" ++ head_id ++ "_" ++ tail_id)
           CONTRADICTORY_RELATIONS
           ("实体 " ++ head_id ++ " 和 " ++ tail_id ++ " 之间存在矛盾关系")
           (map IRelation group)
           (map confidence group)]
      else
        [new_conflict
           ("relation_type_conflict_" ++ head_id ++ "_" ++ tail_id)
           RELATION_TYPE_CONFLICT
           ("实体 " ++ head_id ++ " 和 " ++ tail_id ++ " 之间有多种关系类型")
           (map (fun ty => IValue (VStr ty)) types)
           (map confidence group)]
    else [].

Definition detect_relation_conflicts (relations : list Relation) : list Conflict :=
  let relation_groups := fold_left group_append relations [] in
  flat_map (fun '(key, group) => group_conflicts key group) relation_groups.

(** *** Detection of entity conflicts *)

Section Detection.

(** The builtin [str(v)] on a property value. *)
Variable py_str : PyValue -> string.

(** [[1.0] * len(items)]. *)
Definition full_confidence {A : Type} (items : list A) : list float :=
  repeat 1%float (length items).

Definition _detect_property_conflicts (entities : list Entity) (entity_id : string)
  : list Conflict :=
  let all_properties :=
    fold_left (fun all_properties entity =>
                 fold_left (fun all_properties kv =>
                              dict_append all_properties (fst kv) (snd kv))
                           (entity_properties entity) all_properties)
              entities [] in
  flat_map (fun '(prop_key, values) =>
              if 1 <? size (list_to_set (map py_str values) : gset string) then
                [new_conflict
                   ("property_conflict_" ++ entity_id ++ "_" ++ prop_key)
                   PROPERTY_VALUE_CONFLICT
                   ("实体 " ++ entity_id ++ " 的属性 " ++ prop_key ++ " 有冲突值")
                   (map IValue values)
                   (full_confidence values)]
              else [])
           all_properties.

(** The body of the loop over [entity_groups.items()]. *)
Definition entity_group_conflicts (entity_id : string) (group : list Entity)
  : list Conflict :=
  if length group <=? 1 then []
  else
    let names := map entity_name group in
    let name_conflicts :=
      if 1 <? size (list_to_set names : gset string) then
        [new_conflict ("name_conflict_" ++ entity_id) ENTITY_NAME_CONFLICT
           ("实体 " ++ entity_id ++ " 有多个不同的名称")
           (map (fun name => IValue (VStr name)) names)
           (full_confidence names)]
      else [] in
    let types := map entity_type group in
    let type_conflicts :=
      if 1 <? size (list_to_set types : gset string) then
        [new_conflict ("type_conflict_" ++ entity_id) ENTITY_TYPE_CONFLICT
           ("实体 " ++ entity_id ++ " 有多个不同的类型")
           (map (fun ty => IValue (VStr ty)) types)
           (full_confidence types)]
      else [] in
    name_conflicts ++ type_conflicts ++ _detect_property_conflicts group entity_id.

Definition detect_entity_conflicts (entities : list Entity) : list Conflict :=
  let entity_groups :=
    fold_left (fun groups entity => dict_append groups (entity_id entity) entity)
              entities [] in
  flat_map (fun '(entity_id, group) => entity_group_conflicts entity_id group)
           entity_groups.

End Detection.

(** *** Resolution *)

Section Strategies.

(** The builtins [str(v)] and [float(v)], and [list(set(xs))], whose order
    Python leaves open and which raises on unhashable elements. *)
Variable py_str : Item -> string.
Variable py_float : Item -> result float.
Variable list_of_set : list PyValue -> result (list PyValue).

Definition lookup_or_raise {A : Type} (l : list A) (i : nat) : result A :=
  match l !! i with
  | Some a => Ok a
  | None => Raise IndexError
  end.

(** [confidences.index(max(confidences))]. *)
Definition index_of_max (confidences : list float) : result nat :=
  match confidences with
  | [] => Raise ValueError
  | x :: t =>
      Ok (fst (fst (fold_left
                      (fun '(best_i, best, i) y =>
                         if (best <? y)%float then (i, y, S i) else (best_i, best, S i))
                      t (0, x, 1))))
  end.

(** The branch every resolver has for ['highest_confidence']. *)
Definition highest_confidence (conflict : Conflict) : result Conflict :=
  max_idx ← index_of_max (confidence_scores conflict);
  item ← lookup_or_raise (conflicting_items conflict) max_idx;
  conf ← lookup_or_raise (confidence_scores conflict) max_idx;
  Ok (set_resolution conflict (Some item) conf).

(** The default branch: the first item, with a fixed confidence. *)
Definition first_item (conflict : Conflict) (conf : float) : result Conflict :=
  item ← lookup_or_raise (conflicting_items conflict) 0;
  Ok (set_resolution conflict (Some item) conf).

(** Equality of hashable values, as [Counter] sees its keys.  Numbers are
    compared by value, whatever their type: an [int] equals a [float] that
    is the same integer, and a [bool] is the [int] 0 or 1.  Two NaNs are two
    keys, as two NaN objects are. *)
Inductive Num : Type :=
| NumZ (z : Z)
| NumF (x : float).

Definition num_of (v : PyValue) : option Num :=
  match v with
  | VBool b => Some (NumZ (if b then 1 else 0))
  | VInt n => Some (NumZ n)
  | VFloat x => Some (NumF x)
  | _ => None
  end.

(** The integer a float is, when it is one. *)
Definition Z_of_float (x : float) : option Z :=
  match Prim2SF x with
  | S754_zero _ => Some 0%Z
  | S754_finite s m e =>
      let magnitude :=
        if (0 <=? e)%Z then Some (Zpos m * 2 ^ e)%Z
        else if (Zpos m mod 2 ^ (- e) =? 0)%Z then Some (Zpos m / 2 ^ (- e))%Z
        else None in
      option_map (fun z => if s then (- z)%Z else z) magnitude
  | _ => None
  end.

Definition num_eqb (p q : Num) : bool :=
  match p, q with
  | NumZ a, NumZ b => (a =? b)%Z
  | NumZ a, NumF x | NumF x, NumZ a =>
      match Z_of_float x with
      | Some z => (a =? z)%Z
      | None => false
      end
  | NumF x, NumF y => (x =? y)%float
  end.

Definition key_eqb (a b : Item) : bool :=
  match a, b with
  | IValue VNone, IValue VNone => true
  | IValue (VStr s), IValue (VStr t) => String.eqb s t
  | IValue x, IValue y =>
      match num_of x, num_of y with
      | Some p, Some q => num_eqb p q
      | _, _ => false
      end
  | _, _ => false
  end.

Definition hashable (a : Item) : bool :=
  match a with
  | IValue (VList _) | IValue (VDict _) | IRelation _ => false
  | _ => true
  end.

Fixpoint count_key (counts : list (Item * nat)) (a : Item) : list (Item * nat) :=
  match counts with
  | [] => [(a, 1)]
  | (k, c) :: t => if key_eqb k a then (k, S c) :: t else (k, c) :: count_key t a
  end.

(** [Counter(items).most_common(1)[0]]: the most frequent key and its
    count, the earliest key among equals. *)
Definition most_common (items : list Item) : result (Item * nat) :=
  if forallb hashable items then
    match fold_left count_key items [] with
    | [] => Raise IndexError
    | c :: t =>
        Ok (fold_left (fun best x => if snd best <? snd x then x else best) t c)
    end
  else Raise TypeError.

Definition most_frequent (conflict : Conflict) : result Conflict :=
  common ← most_common (conflicting_items conflict);
  Ok (set_resolution conflict (Some (fst common))
        (float_of_nat (snd common)
         / float_of_nat (length (conflicting_items conflict)))%float).

(** [len(x)] as the key of [max(items, key=len)]. *)
Definition py_len (a : Item) : result nat :=
  match a with
  | IValue (VStr s) => Ok (String.length s)
  | IValue (VList l) => Ok (length l)
  | IValue (VDict d) => Ok (length d)
  | _ => Raise TypeError
  end.

Definition longest (conflict : Conflict) (conf : float) : result Conflict :=
  match conflicting_items conflict with
  | [] => Raise ValueError
  | items =>
      keyed ← mapM (fun a => n ← py_len a; Ok (a, n)) items;
      match keyed with
      | [] => Raise ValueError
      | k :: t =>
          let best := fold_left (fun best x => if snd best <? snd x then x else best) t k in
          Ok (set_resolution conflict (Some (fst best)) conf)
      end
  end.

Definition _resolve_name_conflict (conflict : Conflict) (strategy : string)
  : result Conflict :=
  if String.eqb strategy "highest_confidence" then highest_confidence conflict
  else if String.eqb strategy "most_frequent" then most_frequent conflict
  else if String.eqb strategy "longest_name" then longest conflict 0.7
  else first_item conflict 0.5.

Definition _resolve_type_conflict (conflict : Conflict) (strategy : string)
  : result Conflict :=
  if String.eqb strategy "highest_confidence" then highest_confidence conflict
  else if String.eqb strategy "most_specific_type" then longest conflict 0.8
  else if String.eqb strategy "vote" then most_frequent conflict
  else first_item conflict 0.5.

(** The ['vote'] branch of [_resolve_property_conflict]. *)
Definition vote (conflict : Conflict) : result Conflict :=
  let values := conflicting_items conflict in
  common ← most_common (map (fun v => IValue (VStr (py_str v))) values);
  let conflict :=
    match find (fun v => key_eqb (IValue (VStr (py_str v))) (fst common)) values with
    | Some value =>
        set_resolution conflict (Some value) (resolution_confidence conflict)
    | None => conflict
    end in
  Ok (set_resolution conflict (resolved_value conflict)
        (float_of_nat (snd common) / float_of_nat (length values))%float).

Definition as_list (a : Item) : option (list PyValue) :=
  match a with
  | IValue (VList l) => Some l
  | _ => None
  end.

Definition _resolve_property_conflict (conflict : Conflict) (strategy : string)
  : result Conflict :=
  let values := conflicting_items conflict in
  if String.eqb strategy "highest_confidence" then highest_confidence conflict
  else if String.eqb strategy "vote" then vote conflict
  else if String.eqb strategy "average_numeric" then
    match mapM py_float values with
    | Ok numeric_values =>
        match numeric_values with
        | [] => Raise ZeroDivisionError
        | _ =>
            Ok (set_resolution conflict
                  (Some (IValue (VFloat (py_sum numeric_values
                                         / float_of_nat (length numeric_values))%float)))
                  0.8)
        end
    | Raise ValueError | Raise TypeError => vote conflict
    | Raise e => Raise e
    end
  else if String.eqb strategy "union_lists" then
    match mapM as_list values with
    | Some lists =>
        merged ← list_of_set (concat lists);
        Ok (set_resolution conflict (Some (IValue (VList merged))) 0.9)
    | None => vote conflict
    end
  else first_item conflict 0.5.

Definition _resolve_relation_type_conflict (conflict : Conflict) (strategy : string)
  : result Conflict :=
  if String.eqb strategy "highest_confidence" then highest_confidence conflict
  else if String.eqb strategy "most_frequent" then most_frequent conflict
  else first_item conflict 0.5.

Definition _resolve_contradictory_relations (conflict : Conflict) (strategy : string)
  : result Conflict :=
  if String.eqb strategy "highest_confidence" then highest_confidence conflict
  else if String.eqb strategy "source_authority" then first_item conflict 0.6
  else first_item conflict 0.5.

Definition _resolve_by_highest_confidence (conflict : Conflict) : result Conflict :=
  match confidence_scores conflict with
  | [] => Ok (set_resolution conflict (head (conflicting_items conflict)) 0.5)
  | _ => highest_confidence conflict
  end.

(** The statements inside [try:], up to the append to the history. *)
Definition dispatch (conflict : Conflict) (strategy : string) : result Conflict :=
  match conflict_type conflict with
  | ENTITY_NAME_CONFLICT => _resolve_name_conflict conflict strategy
  | ENTITY_TYPE_CONFLICT => _resolve_type_conflict conflict strategy
  | PROPERTY_VALUE_CONFLICT => _resolve_property_conflict conflict strategy
  | RELATION_TYPE_CONFLICT => _resolve_relation_type_conflict conflict strategy
  | CONTRADICTORY_RELATIONS => _resolve_contradictory_relations conflict strategy
  | TEMPORAL_CONFLICT => _resolve_by_highest_confidence conflict
  end.

Definition choose_strategy (self : ConflictResolver) (conflict : Conflict)
  (strategy : option string) : string :=
  match strategy with
  | Some s => if negb (SimilarityCalculator.is_empty s) then s
              else default "highest_confidence"
                     (head (resolution_strategies self (conflict_type conflict)))
  | None => default "highest_confidence"
              (head (resolution_strategies self (conflict_type conflict)))
  end.

Definition resolve_conflict (self : ConflictResolver) (conflict : Conflict)
  (strategy : option string) : result (ConflictResolver * Conflict) :=
  let strategy := choose_strategy self conflict strategy in
  let conflict := set_strategy conflict strategy in
  match dispatch conflict strategy with
  | Ok resolved =>
      Ok ({| resolution_strategies := resolution_strategies self;
             conflict_history := conflict_history self ++ [resolved] |},
          resolved)
  | Raise _ =>
      (* except Exception: *)
      first ← lookup_or_raise (conflicting_items conflict) 0;
      Ok (self, set_resolution conflict (Some first) 0.1)
  end.

Fixpoint batch_loop (self : ConflictResolver) (conflicts : list Conflict)
  (strategy_mapping : option (pydict ConflictType string))
  (resolved_conflicts : list Conflict)
  : result (ConflictResolver * list Conflict) :=
  match conflicts with
  | [] => Ok (self, resolved_conflicts)
  | conflict :: rest =>
      let strategy :=
        match strategy_mapping with
        | Some (_ :: _ as mapping) => dict_get mapping (conflict_type conflict)
        | _ => None
        end in
      '(self, resolved_conflict) ← resolve_conflict self conflict strategy;
      batch_loop self rest strategy_mapping (resolved_conflicts ++ [resolved_conflict])
  end.

Definition batch_resolve_conflicts (self : ConflictResolver) (conflicts : list Conflict)
  (strategy_mapping : option (pydict ConflictType string))
  : result (ConflictResolver * list Conflict) :=
  batch_loop self conflicts strategy_mapping [].

End Strategies.

(** *** Statistics *)

(** [conflict_type.value]. *)
Definition value (ty : ConflictType) : string :=
  match ty with
  | ENTITY_NAME_CONFLICT => "entity_name_conflict"
  | ENTITY_TYPE_CONFLICT => "entity_type_conflict"
  | PROPERTY_VALUE_CONFLICT => "property_value_conflict"
  | RELATION_TYPE_CONFLICT => "relation_type_conflict"
  | TEMPORAL_CONFLICT => "temporal_conflict"
  | CONTRADICTORY_RELATIONS => "contradictory_relations"
  end.

(** [conflict.resolved_value is not None]: a conflict without a resolved
    value, or resolved to the value [None], does not count. *)
Definition is_resolved (conflict : Conflict) : bool :=
  match resolved_value conflict with
  | None | Some (IValue VNone) => false
  | Some _ => true
  end.

Record ConflictStatistics : Type := mkConflictStatistics {
  total_conflicts : nat;
  by_type : pydict string nat;
  resolved_count : nat;
  high_confidence_resolutions : nat;
  average_resolution_confidence : float
}.

(** One turn of the loop of [get_conflict_statistics], with the running
    [total_confidence]. *)
Definition count_conflict (st : ConflictStatistics * float) (conflict : Conflict)
  : ConflictStatistics * float :=
  let '(stats, total_confidence) := st in
  let resolved := is_resolved conflict in
  ({| total_conflicts := total_conflicts stats;
      by_type := dict_incr (by_type stats) (value (conflict_type conflict));
      resolved_count :=
        if resolved then resolved_count stats + 1 else resolved_count stats;
      high_confidence_resolutions :=
        if resolved && (0.8 <? resolution_confidence conflict)%float
        then high_confidence_resolutions stats + 1
        else high_confidence_resolutions stats;
      average_resolution_confidence := average_resolution_confidence stats |},
   if resolved then (total_confidence + resolution_confidence conflict)%float
   else total_confidence).

Definition get_conflict_statistics (conflicts : list Conflict) : ConflictStatistics :=
  let stats :=
    {| total_conflicts := length conflicts;
       by_type := [];
       resolved_count := 0;
       high_confidence_resolutions := 0;
       average_resolution_confidence := 0 |} in
  let '(stats, total_confidence) := fold_left count_conflict conflicts (stats, 0%float) in
  if 0 <? resolved_count stats then
    {| total_conflicts := total_conflicts stats;
       by_type := by_type stats;
       resolved_count := resolved_count stats;
       high_confidence_resolutions := high_confidence_resolutions stats;
       average_resolution_confidence :=
         (total_confidence / float_of_nat (resolved_count stats))%float |}
  else stats.

End ConflictResolver.

(** ** ontology.py *)

Module Ontology.

Record EntityType : Type := mkEntityType {
  et_name : string;
  et_description : string;
  et_properties : list string;
  parent_type : option string
}.

Record RelationType : Type := mkRelationType {
  rt_name : string;
  rt_description : string;
  domain : string;
  range : string;
  rt_properties : option (list string)
}.

Record Ontology : Type := mkOntology {
  entity_types : pydict string EntityType;
  relation_types : pydict string RelationType
}.

Definition add_entity_type (self : Ontology) (entity_type : EntityType) : Ontology :=
  {| entity_types := dict_set (entity_types self) (et_name entity_type) entity_type;
     relation_types := relation_types self |}.

Definition add_relation_type (self : Ontology) (relation_type : RelationType) : Ontology :=
  {| entity_types := entity_types self;
     relation_types := dict_set (relation_types self) (rt_name relation_type) relation_type |}.

Definition initialize_default_ontology (self : Ontology) : Ontology :=
  let entity_types :=
    [mkEntityType "Person" "人物实体" ["name"; "age"; "occupation"; "nationality"] None;
     mkEntityType "Organization" "组织机构" ["name"; "type"; "founded_year"; "location"] None;
     mkEntityType "Location" "地理位置" ["name"; "type"; "coordinates"; "population"] None;
     mkEntityType "Event" "事件" ["name"; "date"; "location"; "participants"] None;
     mkEntityType "Product" "产品" ["name"; "category"; "price"; "manufacturer"] None;
     mkEntityType "Concept" "概念" ["name"; "definition"; "category"] None] in
  let self := fold_left add_entity_type entity_types self in
  let relation_types :=
    [mkRelationType "works_for" "工作于" "Person" "Organization" None;
     mkRelationType "located_in" "位于" "Organization" "Location" None;
     mkRelationType "born_in" "出生于" "Person" "Location" None;
     mkRelationType "participated_in" "参与" "Person" "Event" None;
     mkRelationType "occurred_at" "发生于" "Event" "Location" None;
     mkRelationType "produces" "生产" "Organization" "Product" None;
     mkRelationType "founder_of" "创始人" "Person" "Organization" None;
     mkRelationType "parent_of" "父母" "Person" "Person" None;
     mkRelationType "spouse_of" "配偶" "Person" "Person" None;
     mkRelationType "friend_of" "朋友" "Person" "Person" None] in
  fold_left add_relation_type relation_types self.

(** [Ontology()]. *)
Definition init : Ontology :=
  initialize_default_ontology {| entity_types := []; relation_types := [] |}.

Definition get_entity_type (self : Ontology) (name : string) : option EntityType :=
  dict_get (entity_types self) name.

Definition get_relation_type (self : Ontology) (name : string) : option RelationType :=
  dict_get (relation_types self) name.

Definition validate_relation (self : Ontology) (relation_name : string)
  (head_entity_type tail_entity_type : string) : bool :=
  match get_relation_type self relation_name with
  | None => false
  | Some relation_type =>
      String.eqb (domain relation_type) head_entity_type
      && String.eqb (range relation_type) tail_entity_type
  end.

Definition get_possible_relations (self : Ontology) (head_type tail_type : string)
  : list string :=
  map fst (List.filter (fun '(rel_name, rel_type) =>
                          String.eqb (domain rel_type) head_type
                          && String.eqb (range rel_type) tail_type)
                       (relation_types self)).

End Ontology.

(** ** knowledge_graph.py *)

Module KnowledgeGraph.

(** The part of [networkx.MultiDiGraph] the store uses: nodes with their
    attribute dictionaries, and the edges in the order they were added. *)
Record Edge : Type := mkEdge {
  edge_head : string;
  edge_tail : string;
  edge_attrs : pydict string PyValue
}.

Record MultiDiGraph : Type := mkGraph {
  nodes : pydict string (pydict string PyValue);
  edges : list Edge
}.

Definition empty_graph : MultiDiGraph := {| nodes := []; edges := [] |}.

(** [attrs.update(new)]. *)
Definition dict_update {V : Type} (attrs new : pydict string V) : pydict string V :=
  fold_left (fun d kv => dict_set d (fst kv) (snd kv)) new attrs.

(** [graph.add_node(n, **attrs)]: a known node has its attributes updated. *)
Definition add_node (graph : MultiDiGraph) (n : string) (attrs : pydict string PyValue)
  : MultiDiGraph :=
  {| nodes := dict_set (nodes graph) n
                (dict_update (default [] (dict_get (nodes graph) n)) attrs);
     edges := edges graph |}.

(** [graph.add_edge(u, v, **attrs)]: unknown endpoints become nodes. *)
Definition add_edge (graph : MultiDiGraph) (u v : string) (attrs : pydict string PyValue)
  : MultiDiGraph :=
  let graph := add_node graph u [] in
  let graph := add_node graph v [] in
  {| nodes := nodes graph;
     edges := edges graph ++ [ {| edge_head := u; edge_tail := v; edge_attrs := attrs |} ] |}.

Record KnowledgeGraph : Type := mkKnowledgeGraph {
  entities : pydict string Entity;
  relations : pydict string Relation;
  graph : MultiDiGraph;
  entity_type_index : gmap string (gset string);
  relation_type_index : gmap string (gset string);
  entity_name_index : gmap string string
}.

(** [KnowledgeGraph()]. *)
Definition init : KnowledgeGraph :=
  {| entities := [];
     relations := [];
     graph := empty_graph;
     entity_type_index := ∅;
     relation_type_index := ∅;
     entity_name_index := ∅ |}.

(** [index[key].add(x)] on a [defaultdict(set)]. *)
Definition index_add (index : gmap string (gset string)) (key x : string)
  : gmap string (gset string) :=
  <[ key := {[ x ]} ∪ default ∅ (index !! key) ]> index.

Definition node_attrs (entity : Entity) : pydict string PyValue :=
  [("name", VStr (entity_name entity));
   ("type", VStr (entity_type entity));
   ("properties", VDict (entity_properties entity))].

Definition add_entity (self : KnowledgeGraph) (entity : Entity) : KnowledgeGraph :=
  {| entities := dict_set (entities self) (entity_id entity) entity;
     relations := relations self;
     graph := add_node (graph self) (entity_id entity) (node_attrs entity);
     entity_type_index :=
       index_add (entity_type_index self) (entity_type entity) (entity_id entity);
     relation_type_index := relation_type_index self;
     entity_name_index :=
       fold_left (fun index alias => <[ alias := entity_id entity ]> index)
                 (entity_aliases entity)
                 (<[ entity_name entity := entity_id entity ]> (entity_name_index self)) |}.

Definition edge_attrs_of (relation : Relation) : pydict string PyValue :=
  [("relation_id", VStr (relation_id relation));
   ("relation_type", VStr (relation_type relation));
   ("properties", VDict (relation_properties relation));
   ("confidence", VFloat (confidence relation))].

(** [add_relation] returns the store as the call leaves it, together with
    the outcome: [Raise ValueError] when an endpoint is missing. *)
Definition add_relation (self : KnowledgeGraph) (relation : Relation)
  : KnowledgeGraph * result unit :=
  let self :=
    {| entities := entities self;
       relations := dict_set (relations self) (relation_id relation) relation;
       graph := graph self;
       entity_type_index := entity_type_index self;
       relation_type_index := relation_type_index self;
       entity_name_index := entity_name_index self |} in
  if negb (dict_mem (entities self) (head_entity_id relation))
     || negb (dict_mem (entities self) (tail_entity_id relation))
  then (self, Raise ValueError)
  else
    ({| entities := entities self;
        relations := relations self;
        graph := add_edge (graph self) (head_entity_id relation)
                          (tail_entity_id relation) (edge_attrs_of relation);
        entity_type_index := entity_type_index self;
        relation_type_index :=
          index_add (relation_type_index self) (relation_type relation)
                    (relation_id relation);
        entity_name_index := entity_name_index self |},
     Ok tt).

Definition batch_add_entities (self : KnowledgeGraph) (entities : list Entity)
  : KnowledgeGraph :=
  fold_left add_entity entities self.

(** [batch_add_relations] catches the [ValueError] and goes on. *)
Definition batch_add_relations (self : KnowledgeGraph) (relations : list Relation)
  : KnowledgeGraph :=
  fold_left (fun self relation => fst (add_relation self relation)) relations self.

Definition clear (self : KnowledgeGraph) : KnowledgeGraph := init.

(** *** merge_knowledge_graph *)

Section Merge.

(** [self.entity_fusion.batch_fuse_entities] and
    [self.relation_fusion.batch_fuse_relations]: the two engines, each with
    the parameters of its own module. *)
Variable batch_fuse_entities : list Entity -> M (list EntityFusion.FusionResult).
Variable batch_fuse_relations :
  list Relation -> M (list RelationFusion.RelationFusionResult).

(** [self.entities.clear(); self.entity_type_index.clear();
     self.entity_name_index.clear()]. *)
Definition clear_entities (self : KnowledgeGraph) : KnowledgeGraph :=
  {| entities := [];
     relations := relations self;
     graph := graph self;
     entity_type_index := ∅;
     relation_type_index := relation_type_index self;
     entity_name_index := ∅ |}.

(** One turn of the loop over the entity fusion results. *)
Definition add_fused (st : KnowledgeGraph * pydict string string)
  (result : EntityFusion.FusionResult) : KnowledgeGraph * pydict string string :=
  let '(self, entity_id_mapping) := st in
  let fused_entity := EntityFusion.fused_entity result in
  (add_entity self fused_entity,
   fold_left (fun mapping source_entity =>
                dict_set mapping (entity_id source_entity) (entity_id fused_entity))
             (EntityFusion.source_entities result) entity_id_mapping).

Definition update_relation (self : KnowledgeGraph)
  (entity_id_mapping : pydict string string) (relation : Relation) : list Relation :=
  let new_head_id :=
    default (head_entity_id relation)
            (dict_get entity_id_mapping (head_entity_id relation)) in
  let new_tail_id :=
    default (tail_entity_id relation)
            (dict_get entity_id_mapping (tail_entity_id relation)) in
  if dict_mem (entities self) new_head_id && dict_mem (entities self) new_tail_id
  then [ {| relation_id := relation_id relation;
            relation_type := relation_type relation;
            head_entity_id := new_head_id;
            tail_entity_id := new_tail_id;
            relation_properties := relation_properties relation;
            confidence := confidence relation |} ]
  else [].

(** [self.relations.clear(); self.relation_type_index.clear();
     self.graph.clear()], then every entity is put back as a node. *)
Definition reset_relations (self : KnowledgeGraph) : KnowledgeGraph :=
  {| entities := entities self;
     relations := [];
     graph := fold_left (fun g entity => add_node g (entity_id entity) (node_attrs entity))
                        (dict_values (entities self)) empty_graph;
     entity_type_index := entity_type_index self;
     relation_type_index := ∅;
     entity_name_index := entity_name_index self |}.

(** The final loop: the first [add_relation] that raises ends the merge. *)
Fixpoint add_all_relations (self : KnowledgeGraph) (rels : list Relation)
  : KnowledgeGraph * result unit :=
  match rels with
  | [] => (self, Ok tt)
  | relation :: rest =>
      match add_relation self relation with
      | (self', Ok _) => add_all_relations self' rest
      | (self', Raise e) => (self', Raise e)
      end
  end.

(** [merge_knowledge_graph(other_kg)], started after [k] identifiers have
    been drawn; [other_kg] is another object than [self]. *)
Definition merge_knowledge_graph (self other_kg : KnowledgeGraph) (k : nat)
  : KnowledgeGraph * result unit :=
  let all_entities := dict_values (entities self) ++ dict_values (entities other_kg) in
  match batch_fuse_entities all_entities k with
  | Raise e => (self, Raise e)
  | Ok (entity_fusion_results, k) =>
      let self := clear_entities self in
      let '(self, entity_id_mapping) :=
        fold_left add_fused entity_fusion_results (self, []) in
      let all_relations :=
        dict_values (relations self) ++ dict_values (relations other_kg) in
      let updated_relations :=
        flat_map (update_relation self entity_id_mapping) all_relations in
      match batch_fuse_relations updated_relations k with
      | Raise e => (self, Raise e)
      | Ok (relation_fusion_results, _) =>
          add_all_relations (reset_relations self)
            (map RelationFusion.fused_relation relation_fusion_results)
      end
  end.

End Merge.

(** The mutating operations of the store. *)
Inductive Op : Type :=
| OpAddEntity (entity : Entity)
| OpAddRelation (relation : Relation)
| OpMerge (batch_fuse_entities : list Entity -> M (list EntityFusion.FusionResult))
          (batch_fuse_relations :
             list Relation -> M (list RelationFusion.RelationFusionResult))
          (other_kg : KnowledgeGraph) (k : nat)
| OpClear.

(** The store an operation leaves behind, whether it returned or raised. *)
Definition run (self : KnowledgeGraph) (op : Op) : KnowledgeGraph :=
  match op with
  | OpAddEntity entity => add_entity self entity
  | OpAddRelation relation => fst (add_relation self relation)
  | OpMerge fuse_e fuse_r other_kg k =>
      fst (merge_knowledge_graph fuse_e fuse_r self other_kg k)
  | OpClear => clear self
  end.

(** *** Lookups *)

Definition get_entity (self : KnowledgeGraph) (entity_id : string) : option Entity :=
  dict_get (entities self) entity_id.

Definition get_relation (self : KnowledgeGraph) (relation_id : string) : option Relation :=
  dict_get (relations self) relation_id.

(** [self.entities.get(entity_id) if entity_id else None]: the empty string
    is falsy. *)
Definition get_entity_by_name (self : KnowledgeGraph) (name : string) : option Entity :=
  match entity_name_index self !! name with
  | Some entity_id =>
      if negb (SimilarityCalculator.is_empty entity_id)
      then dict_get (entities self) entity_id
      else None
  | None => None
  end.

(** [[self.entities[eid] for eid in entity_ids]]: [None] stands for the
    [KeyError] of a missing id.  The ids are a Python set, so the order of
    the list is not determined; it is taken in the order of [elements]. *)
Definition get_entities_by_type (self : KnowledgeGraph) (entity_type : string)
  : option (list Entity) :=
  let entity_ids := default ∅ (entity_type_index self !! entity_type) in
  mapM (fun eid => dict_get (entities self) eid) (elements entity_ids).

Definition get_relations_by_type (self : KnowledgeGraph) (relation_type : string)
  : option (list Relation) :=
  let relation_ids := default ∅ (relation_type_index self !! relation_type) in
  mapM (fun rid => dict_get (relations self) rid) (elements relation_ids).

(** *** Neighbours *)

(** The keys of an adjacency dictionary: each node once, in the order of
    its first edge. *)
Definition first_occurrences (l : list string) : list string :=
  fold_left (fun seen x => if bool_decide (x ∈ seen) then seen else seen ++ [x]) l [].

(** [graph.successors(n)] and [graph.predecessors(n)]: the nodes an edge
    leads to, or comes from. *)
Definition successors (graph : MultiDiGraph) (n : string) : list string :=
  first_occurrences
    (map edge_tail (List.filter (fun e => String.eqb (edge_head e) n) (edges graph))).

Definition predecessors (graph : MultiDiGraph) (n : string) : list string :=
  first_occurrences
    (map edge_head (List.filter (fun e => String.eqb (edge_tail e) n) (edges graph))).

(** [graph.get_edge_data(u, v).values()]: the attributes of the edges from
    [u] to [v]. *)
Definition get_edge_data (graph : MultiDiGraph) (u v : string)
  : list (pydict string PyValue) :=
  map edge_attrs (List.filter (fun e => String.eqb (edge_head e) u
                                        && String.eqb (edge_tail e) v)
                              (edges graph)).

(** [relation_type is None or edge_attrs.get('relation_type') == relation_type]. *)
Definition edge_matches (relation_type : option string)
  (edge_attrs : pydict string PyValue) : bool :=
  match relation_type with
  | None => true
  | Some ty =>
      match dict_get edge_attrs "relation_type" with
      | Some (VStr t) => String.eqb t ty
      | _ => false
      end
  end.

(** [get_neighbors(entity_id, relation_type)]; the result is
    [list(set(neighbors))], a set. *)
Definition get_neighbors (self : KnowledgeGraph) (entity_id : string)
  (relation_type : option string) : gset string :=
  if negb (dict_mem (nodes (graph self)) entity_id) then ∅
  else
    let out :=
      List.filter (fun neighbor =>
                     existsb (edge_matches relation_type)
                             (get_edge_data (graph self) entity_id neighbor))
                  (successors (graph self) entity_id) in
    let inc :=
      List.filter (fun neighbor =>
                     existsb (edge_matches relation_type)
                             (get_edge_data (graph self) neighbor entity_id))
                  (predecessors (graph self) entity_id) in
    list_to_set (out ++ inc).

(** *** Subgraphs *)

Section Subgraph.

(** The order in which Python iterates over a set of strings. *)
Variable iter_set : gset string -> list string.

(** One round of the loop [for _ in range(depth)]: the neighbours of every
    entity collected so far join the set. *)
Definition expand (self : KnowledgeGraph) (subgraph_entities : gset string)
  : gset string :=
  let new_entities :=
    ⋃ (map (fun entity_id => get_neighbors self entity_id None)
           (iter_set subgraph_entities)) in
  subgraph_entities ∪ new_entities.

(** [subgraph_entities] when the loop is over. *)
Definition subgraph_entities (self : KnowledgeGraph) (entity_ids : list string)
  (depth : nat) : gset string :=
  Nat.iter depth (expand self) (list_to_set entity_ids).

(** The body of the loop over [self.relations.values()]: an exception of
    [subgraph.add_relation] leaves [query_subgraph]. *)
Definition add_reached (reached : gset string) (subgraph : KnowledgeGraph)
  (relation : Relation) : result KnowledgeGraph :=
  if bool_decide (head_entity_id relation ∈ reached)
     && bool_decide (tail_entity_id relation ∈ reached)
  then
    let '(subgraph, outcome) := add_relation subgraph relation in
    _ ← outcome; Ok subgraph
  else Ok subgraph.

Definition query_subgraph (self : KnowledgeGraph) (entity_ids : list string)
  (depth : nat) : result KnowledgeGraph :=
  let reached := subgraph_entities self entity_ids depth in
  let subgraph :=
    fold_left (fun subgraph entity_id =>
                 match dict_get (entities self) entity_id with
                 | Some entity => add_entity subgraph entity
                 | None => subgraph
                 end)
              (iter_set reached) init in
  fold_left (fun acc relation => subgraph ← acc; add_reached reached subgraph relation)
            (dict_values (relations self)) (Ok subgraph).

End Subgraph.

(** *** Statistics, export and load *)

Record KnowledgeGraphStats : Type := mkKnowledgeGraphStats {
  entity_count : nat;
  relation_count : nat;
  entity_types : pydict string nat;
  relation_types : pydict string nat;
  avg_degree : float;
  connected_components : nat;
  density : float
}.

(** The objects [export_to_json] writes for an entity and for a relation,
    and [load_from_json] reads; the keys it reads with [.get(key, default)]
    may be missing. *)
Record EntityData : Type := mkEntityData {
  ed_id : string;
  ed_name : string;
  ed_type : string;
  ed_properties : option (pydict string PyValue);
  ed_aliases : option (list string)
}.

Record RelationData : Type := mkRelationData {
  rd_id : string;
  rd_type : string;
  rd_head_entity_id : string;
  rd_tail_entity_id : string;
  rd_properties : option (pydict string PyValue);
  rd_confidence : option float
}.

Record JsonData : Type := mkJsonData {
  json_entities : option (list EntityData);
  json_relations : option (list RelationData);
  json_statistics : option KnowledgeGraphStats
}.

Section Statistics.

(** [nx.number_weakly_connected_components] and [nx.density]. *)
Variable number_weakly_connected_components : MultiDiGraph -> nat.
Variable nx_density : MultiDiGraph -> float.

Definition get_statistics (self : KnowledgeGraph) : KnowledgeGraphStats :=
  let entity_types :=
    fold_left (fun counts entity => dict_incr counts (entity_type entity))
              (dict_values (entities self)) [] in
  let relation_types :=
    fold_left (fun counts relation => dict_incr counts (relation_type relation))
              (dict_values (relations self)) [] in
  let node_count := length (nodes (graph self)) in
  let edge_count := length (edges (graph self)) in
  {| entity_count := length (entities self);
     relation_count := length (relations self);
     entity_types := entity_types;
     relation_types := relation_types;
     avg_degree :=
       if 0 <? node_count
       then (float_of_nat (2 * edge_count) / float_of_nat node_count)%float
       else 0%float;
     connected_components := number_weakly_connected_components (graph self);
     density := nx_density (graph self) |}.

(** The [data] that [export_to_json] hands to [json.dump]. *)
Definition export_to_json (self : KnowledgeGraph) : JsonData :=
  {| json_entities :=
       Some (map (fun entity =>
                    {| ed_id := entity_id entity;
                       ed_name := entity_name entity;
                       ed_type := entity_type entity;
                       ed_properties := Some (entity_properties entity);
                       ed_aliases := Some (entity_aliases entity) |})
                 (dict_values (entities self)));
     json_relations :=
       Some (map (fun relation =>
                    {| rd_id := relation_id relation;
                       rd_type := relation_type relation;
                       rd_head_entity_id := head_entity_id relation;
                       rd_tail_entity_id := tail_entity_id relation;
                       rd_properties := Some (relation_properties relation);
                       rd_confidence := Some (confidence relation) |})
                 (dict_values (relations self)));
     json_statistics := Some (get_statistics self) |}.

(** [validate_knowledge_graph], with [self.ontology] passed along. *)
Record ValidationResults : Type := mkValidationResults {
  valid : bool;
  issues : list string;
  statistics : KnowledgeGraphStats
}.

Definition is_orphaned (self : KnowledgeGraph) (relation : Relation) : bool :=
  negb (dict_mem (entities self) (head_entity_id relation))
  || negb (dict_mem (entities self) (tail_entity_id relation)).

Definition violates_ontology (ontology : Ontology.Ontology) (self : KnowledgeGraph)
  (relation : Relation) : bool :=
  match dict_get (entities self) (head_entity_id relation),
        dict_get (entities self) (tail_entity_id relation) with
  | Some head_entity, Some tail_entity =>
      negb (Ontology.validate_relation ontology (relation_type relation)
              (entity_type head_entity) (entity_type tail_entity))
  | _, _ => false
  end.

Definition validate_knowledge_graph (ontology : Ontology.Ontology)
  (self : KnowledgeGraph) : ValidationResults :=
  let orphaned_relations :=
    map relation_id (List.filter (is_orphaned self) (dict_values (relations self))) in
  let invalid_relations :=
    map relation_id (List.filter (violates_ontology ontology self)
                                 (dict_values (relations self))) in
  let orphaned := match orphaned_relations with [] => false | _ => true end in
  let invalid := match invalid_relations with [] => false | _ => true end in
  {| valid := negb orphaned && negb invalid;
     issues :=
       (if orphaned
        then ["发现 " +:+ str_of_nat (length orphaned_relations) +:+ " 个孤立关系"]
        else [])
       ++ (if invalid
           then ["发现 " +:+ str_of_nat (length invalid_relations)
                 +:+ " 个违反本体约束的关系"]
           else []);
     statistics := get_statistics self |}.

End Statistics.

(** [load_from_json] once [json.load] has returned [data]: the store is
    cleared, every entity is added, and every relation is added, a refused
    one being passed over. *)
Definition load_entity (entity_data : EntityData) : Entity :=
  {| entity_id := ed_id entity_data;
     entity_name := ed_name entity_data;
     entity_type := ed_type entity_data;
     entity_properties := default [] (ed_properties entity_data);
     entity_aliases := default [] (ed_aliases entity_data) |}.

Definition load_relation (relation_data : RelationData) : Relation :=
  {| relation_id := rd_id relation_data;
     relation_type := rd_type relation_data;
     head_entity_id := rd_head_entity_id relation_data;
     tail_entity_id := rd_tail_entity_id relation_data;
     relation_properties := default [] (rd_properties relation_data);
     confidence := default 1%float (rd_confidence relation_data) |}.

Definition load_from_json (self : KnowledgeGraph) (data : JsonData) : KnowledgeGraph :=
  let self := clear self in
  let self :=
    fold_left (fun self entity_data => add_entity self (load_entity entity_data))
              (default [] (json_entities data)) self in
  fold_left (fun self relation_data =>
               fst (add_relation self (load_relation relation_data)))
            (default [] (json_relations data)) self.

(** *** Conflicts *)

(** [detect_and_resolve_conflicts], with [self.conflict_resolver] passed
    along. *)
Definition detect_and_resolve_conflicts
  (py_str : PyValue -> string)
  (py_str_item : ConflictResolver.Item -> string)
  (py_float : ConflictResolver.Item -> result float)
  (list_of_set : list PyValue -> result (list PyValue))
  (self : KnowledgeGraph) (conflict_resolver : ConflictResolver.ConflictResolver)
  : result (ConflictResolver.ConflictResolver * list ConflictResolver.Conflict) :=
  let entity_conflicts :=
    ConflictResolver.detect_entity_conflicts py_str (dict_values (entities self)) in
  let relation_conflicts :=
    ConflictResolver.detect_relation_conflicts (dict_values (relations self)) in
  ConflictResolver.batch_resolve_conflicts py_str_item py_float list_of_set
    conflict_resolver (entity_conflicts ++ relation_conflicts) None.

End KnowledgeGraph.

(** * The vocabulary of the properties *)

(** ** Seed-based single-link grouping *)

(** The grouping as the specification words it: the items are taken in input
    order, and each one joins the cluster of the earliest seed it is similar
    to, or else starts a cluster of its own.  Only the seed of a cluster, its
    first member, is ever compared with the newcomer. *)
Fixpoint place (similar : nat -> nat -> bool) (j : nat) (clusters : list (list nat))
  : list (list nat) :=
  match clusters with
  | [] => [[j]]
  | cluster :: rest =>
      match cluster with
      | seed :: _ =>
          if similar seed j then (cluster ++ [j]) :: rest
          else cluster :: place similar j rest
      | [] => cluster :: place similar j rest
      end
  end.

Definition seed_single_link (similar : nat -> nat -> bool) (items : list nat)
  : list (list nat) :=
  fold_left (fun clusters j => place similar j clusters) items [].

(** The clusters of several members, and those of one. *)
Definition multi (groups : list (list nat)) : list (list nat) :=
  List.filter (fun g => 1 <? length g) groups.

Definition singles (groups : list (list nat)) : list (list nat) :=
  List.filter (fun g => length g =? 1) groups.

(** Not a member of any of the groups. *)
Definition outside (groups : list (list nat)) (x : nat) : bool :=
  negb (bool_decide (x ∈ (list_to_set (concat groups) : gset nat))).

(** The test of the inner loop on an index [j]: not yet visited, and similar
    to the seed [i]. *)
Definition fresh_and_similar (similar : nat -> nat -> bool) (i : nat)
  (visited : gset nat) (j : nat) : bool :=
  negb (bool_decide (j ∈ visited)) && similar i j.

(** ** Clustering by depth-first search *)

Module ClusteringSpec.
Import SimilarityCalculator.

(** The test [similarity_matrix[x][y] >= threshold] of [dfs]. *)
Definition adjacent (matrix : list (list float)) (threshold : float) (x y : nat)
  : bool :=
  fle threshold (matrix_get matrix x y).

(** Every index of the set is an index of [items]. *)
Definition bounded (n : nat) (visited : gset nat) : Prop :=
  forall x, x ∈ visited -> x < n.

(** Every item of [members] is adjacent to one of [seen] or to a member
    that stands before it. *)
Fixpoint linked_after (adj : nat -> nat -> bool) (seen members : list nat) : Prop :=
  match members with
  | [] => True
  | x :: rest =>
      (exists y, y ∈ seen /\ adj y x = true) /\ linked_after adj (seen ++ [x]) rest
  end.

(** A cluster has a first member, and every other member is adjacent to a
    member before it: the cluster hangs together. *)
Definition linked (adj : nat -> nat -> bool) (cluster : list nat) : Prop :=
  match cluster with
  | [] => False
  | seed :: rest => linked_after adj [seed] rest
  end.

(** No member of a cluster is adjacent to a member of a later cluster. *)
Definition separated (adj : nat -> nat -> bool) (clusters : list (list nat)) : Prop :=
  forall p q A B x y,
    clusters !! p = Some A -> clusters !! q = Some B -> p < q ->
    x ∈ A -> y ∈ B -> adj x y = false.

(** What a call [dfs(node, cluster)] that returns does when [visited] is
    [V] and the cluster holds [c]: it appends [node] and further unvisited
    indices [rest] to the cluster and marks them, and whatever is adjacent
    to one of them is marked afterwards. *)
Definition dfs_post (matrix : list (list float)) (threshold : float) (n : nat)
  (depth node : nat) (V : gset nat) (c : list nat) : Prop :=
  exists rest,
    dfs depth matrix threshold n node (V, c)
    = Ok ({[ node ]} ∪ V ∪ list_to_set rest, c ++ node :: rest)
    /\ NoDup (node :: rest)
    /\ Forall (fun x => (x ∉ V) /\ x < n) rest
    /\ (forall x y, x ∈ node :: rest -> y < n -> adjacent matrix threshold x y = true ->
                    y ∈ ({[ node ]} ∪ V ∪ list_to_set rest : gset nat))
    /\ linked_after (adjacent matrix threshold) [node] rest.

(** What holds of [visited] and [clusters] between two turns of the loop
    [for i in range(n)]: the visited indices are those of the clusters, no
    index is in two clusters, whatever is adjacent to a visited index is
    visited, every cluster hangs together, and no cluster reaches a later
    one. *)
Definition clustering_inv (matrix : list (list float)) (threshold : float) (n : nat)
  (st : gset nat * list (list nat)) : Prop :=
  fst st = list_to_set (concat (snd st))
  /\ NoDup (concat (snd st))
  /\ bounded n (fst st)
  /\ (forall x y, x ∈ fst st -> y < n -> adjacent matrix threshold x y = true ->
                  y ∈ fst st)
  /\ Forall (linked (adjacent matrix threshold)) (snd st)
  /\ separated (adjacent matrix threshold) (snd st).

(** The methods [string_similarity] knows. *)
Definition known_methods : list string :=
  ["levenshtein"; "jaccard"; "cosine"; "lcs"; "combined"].

(** The scores never increase from one pair of a ranking to the next. *)
Fixpoint descending (ranked : list (string * float)) : Prop :=
  match ranked with
  | a :: (b :: _) as rest => (snd a <? snd b)%float = false /\ descending rest
  | _ => True
  end.

End ClusteringSpec.

(** ** The fusion engines *)

Module FusionSpec.
Import SimilarityCalculator EntityFusion.

(** Agreement to three decimals, the reading of "approximately". *)
Definition approx3 (x y : float) : bool := (abs (x - y) <=? 0.0005)%float.

(** A relation to put in a cluster of its own. *)
Definition lone_relation : Relation := mkRelation "r1" "founder_of" "h" "t" [] 0.9.

(** A similarity of entity dictionaries for the comparison: the combined
    string similarity of the two names. *)
Definition name_similarity (d1 d2 : EntityDict) : float :=
  match string_similarity (d_name d1) (d_name d2) "combined" with
  | Ok x => x
  | Raise _ => 0%float
  end.

(** Three names of which the first and the last are similar to the middle
    one, but not to each other. *)
Definition chain_names : list string := ["abcde"; "abcd"; "abc"].

Definition chain_entities : list Entity :=
  map (fun s => mkEntity s s "Company" [] []) chain_names.

(** The test of the dedup pass as the specification words it: the
    similarity of the entities at the two indices is at least the
    threshold. *)
Definition reaches_threshold (threshold : float)
  (entity_similarity : EntityDict -> EntityDict -> float) (entities : list Entity)
  (i j : nat) : bool :=
  match entities !! i, entities !! j with
  | Some ei, Some ej =>
      (threshold <=? entity_similarity (entity_dict ei) (entity_dict ej))%float
  | _, _ => false
  end.

(** Three names that chain at the default threshold of the dedup pass, and
    the entities that carry them. *)
Definition default_chain_names : list string := ["abcdef"; "abcde"; "abcd"].

Definition default_chain_entities : list Entity :=
  map (fun s => mkEntity s s "Company" [] []) default_chain_names.

(** The entity similarity gives two of the entities the similarity that the
    similarity layer computes for their names: both layers see the same
    similarities. *)
Definition same_view (similarity : EntityDict -> EntityDict -> float)
  (entities : list Entity) (names : list string) : Prop :=
  exists matrix,
    batch_similarity_matrix names "combined" = Ok matrix
    /\ forall i j ei ej,
         entities !! i = Some ei -> entities !! j = Some ej ->
         similarity (entity_dict ei) (entity_dict ej) = matrix_get matrix i j.

End FusionSpec.

(** ** Redundant relations and statistics *)

Module RelationFusionSpec.

(** What makes two relations redundant: the same head, tail and type. *)
Definition triple_of (relation : Relation) : string * string * string :=
  (head_entity_id relation, tail_entity_id relation, relation_type relation).

(** [sum(counts.values())]. *)
Definition total_count {K : Type} (counts : pydict K nat) : nat :=
  list_sum (dict_values counts).

End RelationFusionSpec.

(** ** Conflicts between relations *)

Module ConflictSpec.
Import ConflictResolver.

(** The key of [relation_groups]. *)
Definition pair_of (relation : Relation) : string * string :=
  (head_entity_id relation, tail_entity_id relation).

(** The relations of a list that share a (head, tail) pair, as the
    specification words a group. *)
Definition pair_group (relations : list Relation) (key : string * string)
  : list Relation :=
  List.filter (fun relation => bool_decide (pair_of relation = key)) relations.

(** The (head, tail) pairs of a list, each once, in order of first
    occurrence: the keys of [relation_groups]. *)
Definition pairs (relations : list Relation) : list (string * string) :=
  dict_keys (fold_left group_append relations []).

(** [len(set(types))] of a group. *)
Definition distinct_types (group : list Relation) : nat :=
  size (list_to_set (map relation_type group) : gset string).

(** The types contain both members of one of the four contradictory pairs
    that the specification names. *)
Definition has_contradictory_pair (types : list string) : Prop :=
  ("parent_of" ∈ types /\ "child_of" ∈ types)
  \/ ("spouse_of" ∈ types /\ "sibling_of" ∈ types)
  \/ ("works_for" ∈ types /\ "competes_with" ∈ types)
  \/ ("located_in" ∈ types /\ "not_located_in" ∈ types).

(** Two relations between the same two entities, of the given types. *)
Definition relation_pair (type1 type2 : string) : list Relation :=
  [mkRelation "r1" type1 "h" "t" [] 0.9; mkRelation "r2" type2 "h" "t" [] 0.8].

(** A conflict without conflicting items, and one with two names. *)
Definition empty_conflict : Conflict :=
  new_conflict "name_conflict_e0" ENTITY_NAME_CONFLICT "" [] [].

Definition name_conflict : Conflict :=
  new_conflict "name_conflict_e1" ENTITY_NAME_CONFLICT ""
               [IValue (VStr "Tencent"); IValue (VStr "T")] [1%float; 1%float].

End ConflictSpec.

(** ** The store and its indices *)

Module StoreSpec.
Import KnowledgeGraph.

(** Both endpoints of the relation are entities of the store. *)
Definition endpoints_present (self : KnowledgeGraph) (relation : Relation) : bool :=
  dict_mem (entities self) (head_entity_id relation)
  && dict_mem (entities self) (tail_entity_id relation).

(** A relation whose endpoints are in no store that lacks [h] and [t]. *)
Definition orphan : Relation := mkRelation "r1" "founder_of" "h" "t" [] 0.9.

(** [index.get(key, set())]. *)
Definition index_get (index : gmap string (gset string)) (key : string) : gset string :=
  default ∅ (index !! key).

(** The name and the aliases of an entity. *)
Definition names_of (entity : Entity) : list string :=
  entity_name entity :: entity_aliases entity.

(** The indices in bijection with the live maps, as the specification
    words it. *)
Definition entity_type_index_exact (self : KnowledgeGraph) : Prop :=
  forall ty id,
    id ∈ index_get (entity_type_index self) ty
    <-> exists entity, dict_get (entities self) id = Some entity /\ entity_type entity = ty.

Definition entity_name_index_exact (self : KnowledgeGraph) : Prop :=
  forall name id,
    entity_name_index self !! name = Some id
    <-> exists entity, dict_get (entities self) id = Some entity
                       /\ name ∈ names_of entity.

Definition relation_type_index_exact (self : KnowledgeGraph) : Prop :=
  forall ty id,
    id ∈ index_get (relation_type_index self) ty
    <-> exists relation, dict_get (relations self) id = Some relation
                         /\ relation_type relation = ty.

Definition index_exact (self : KnowledgeGraph) : Prop :=
  entity_type_index_exact self
  /\ entity_name_index_exact self
  /\ relation_type_index_exact self.

(** The half of the bijection that survives overwriting: what is live is
    indexed under its type, and what is indexed is live. *)
Definition index_sound (self : KnowledgeGraph) : Prop :=
  (forall id entity,
      dict_get (entities self) id = Some entity ->
      id ∈ index_get (entity_type_index self) (entity_type entity))
  /\ (forall ty id,
        id ∈ index_get (entity_type_index self) ty -> dict_mem (entities self) id = true)
  /\ (forall name id,
        entity_name_index self !! name = Some id -> dict_mem (entities self) id = true)
  /\ (forall ty id,
        id ∈ index_get (relation_type_index self) ty ->
        dict_mem (relations self) id = true).

(** The id of the entity is not in the store, and neither its name nor an
    alias is in the name index. *)
Definition entity_fresh (self : KnowledgeGraph) (entity : Entity) : Prop :=
  dict_mem (entities self) (entity_id entity) = false
  /\ Forall (fun name => entity_name_index self !! name = None) (names_of entity).

(** The relation will be accepted, and its id is not in the store. *)
Definition relation_fresh (self : KnowledgeGraph) (relation : Relation) : Prop :=
  endpoints_present self relation = true
  /\ dict_mem (relations self) (relation_id relation) = false.

(** Every entity (relation) of the list is fresh when its turn comes. *)
Fixpoint entities_fresh (self : KnowledgeGraph) (es : list Entity) : Prop :=
  match es with
  | [] => True
  | entity :: rest => entity_fresh self entity /\ entities_fresh (add_entity self entity) rest
  end.

Fixpoint relations_fresh (self : KnowledgeGraph) (rels : list Relation) : Prop :=
  match rels with
  | [] => True
  | relation :: rest =>
      relation_fresh self relation
      /\ relations_fresh (fst (add_relation self relation)) rest
  end.

(** The merge returns from both engines, and what it adds back is fresh. *)
Definition merge_fresh
  (batch_fuse_entities : list Entity -> M (list EntityFusion.FusionResult))
  (batch_fuse_relations : list Relation -> M (list RelationFusion.RelationFusionResult))
  (self other_kg : KnowledgeGraph) (k : nat) : Prop :=
  exists entity_fusion_results k1 relation_fusion_results k2,
    batch_fuse_entities
      (dict_values (entities self) ++ dict_values (entities other_kg)) k
    = Ok (entity_fusion_results, k1)
    /\ entities_fresh (clear_entities self)
                      (map EntityFusion.fused_entity entity_fusion_results)
    /\ (let st := fold_left add_fused entity_fusion_results (clear_entities self, []) in
        batch_fuse_relations
          (flat_map (update_relation (fst st) (snd st))
                    (dict_values (relations (fst st)) ++ dict_values (relations other_kg)))
          k1
        = Ok (relation_fusion_results, k2)
        /\ relations_fresh (reset_relations (fst st))
                           (map RelationFusion.fused_relation relation_fusion_results)).

(** The operation overwrites nothing. *)
Definition fresh (self : KnowledgeGraph) (op : Op) : Prop :=
  match op with
  | OpAddEntity entity => entity_fresh self entity
  | OpAddRelation relation => relation_fresh self relation
  | OpMerge fe fr other_kg k => merge_fresh fe fr self other_kg k
  | OpClear => True
  end.

(** An entity, and the entity that overwrites it under the same id. *)
Definition tencent : Entity := mkEntity "e1" "Tencent" "Company" [] [].

Definition tencent_renamed : Entity :=
  mkEntity "e1" "Tencent Holdings" "Organization" [] [].

Definition overwritten : KnowledgeGraph :=
  run (run init (OpAddEntity tencent)) (OpAddEntity tencent_renamed).

(** An entity that is new to that store, under all of its names. *)
Definition newcomer : Entity := mkEntity "e2" "Alibaba" "Company" [] [].

(** The stores built from the empty one by operations that overwrite
    nothing. *)
Inductive built_fresh : KnowledgeGraph -> Prop :=
| built_fresh_init : built_fresh init
| built_fresh_run self op :
    built_fresh self -> fresh self op -> built_fresh (run self op).

(** A person and an organization, added to the empty store one after the
    other, and a relation between them. *)
Definition founder : Entity := mkEntity "h" "H" "Person" [] [].

Definition company : Entity := mkEntity "t" "T" "Organization" [] [].

Definition founder_and_company : KnowledgeGraph :=
  run (run init (OpAddEntity founder)) (OpAddEntity company).

Definition founded : Relation := mkRelation "r1" "founder_of" "h" "t" [] 0.9.

End StoreSpec.

(** ** The stores that can arise *)

Module ReachSpec.
Import KnowledgeGraph.

(** The stores reached from the empty one by the mutating operations,
    whether they return or raise. *)
Inductive reachable : KnowledgeGraph -> Prop :=
| reachable_init : reachable init
| reachable_run self op : reachable self -> reachable (run self op).

(** A dictionary as Python has it: no key twice. *)
Definition distinct_keys {V : Type} (d : pydict string V) : Prop :=
  NoDup (dict_keys d).

(** Every item is stored under its own id. *)
Definition keyed_by {V : Type} (id_of : V -> string) (d : pydict string V) : Prop :=
  forall k v, (k, v) ∈ d -> id_of v = k.

(** Both ends of every edge are nodes of the graph. *)
Definition graph_closed (graph : MultiDiGraph) : Prop :=
  forall e, e ∈ edges graph ->
    dict_mem (nodes graph) (edge_head e) = true
    /\ dict_mem (nodes graph) (edge_tail e) = true.

(** What every reachable store satisfies. *)
Definition consistent (self : KnowledgeGraph) : Prop :=
  distinct_keys (entities self)
  /\ keyed_by entity_id (entities self)
  /\ distinct_keys (relations self)
  /\ keyed_by relation_id (relations self)
  /\ distinct_keys (nodes (graph self))
  /\ graph_closed (graph self)
  /\ (forall id, dict_mem (entities self) id = true ->
                 dict_mem (nodes (graph self)) id = true).

(** A store with a person and an organization, and a relation between
    them. *)
Definition person_h : Entity := mkEntity "h" "H" "Person" [] [].
Definition organization_t : Entity := mkEntity "t" "T" "Organization" [] [].

Definition two_entities : KnowledgeGraph :=
  run (run init (OpAddEntity person_h)) (OpAddEntity organization_t).

Definition founder_h_t : Relation := mkRelation "r1" "founder_of" "h" "t" [] 0.9.

Definition works_h_t : Relation := mkRelation "r2" "works_for" "h" "t" [] 0.95.

Definition two_relations : KnowledgeGraph :=
  run (run two_entities (OpAddRelation founder_h_t)) (OpAddRelation works_h_t).

(** [resolved] is [conflict] as the strategy [highest_confidence] leaves
    it: with the item and the confidence at the index of the first highest
    confidence. *)
Definition resolved_by_highest (conflict resolved : ConflictResolver.Conflict) : Prop :=
  exists i item conf,
    ConflictResolver.index_of_max (ConflictResolver.confidence_scores conflict) = Ok i
    /\ ConflictResolver.conflicting_items conflict !! i = Some item
    /\ ConflictResolver.confidence_scores conflict !! i = Some conf
    /\ resolved
       = ConflictResolver.set_resolution
           (ConflictResolver.set_strategy conflict "highest_confidence") (Some item) conf.

(** The default resolver, whatever its history. *)
Definition default_strategies (resolver : ConflictResolver.ConflictResolver) : Prop :=
  ConflictResolver.resolution_strategies resolver
  = ConflictResolver._build_resolution_strategies.

(** A store that kept a refused relation, and the functions of networkx
    taken constant. *)
Definition one_relation : KnowledgeGraph := run two_entities (OpAddRelation founder_h_t).

Definition no_components (graph : MultiDiGraph) : nat := 0.

Definition no_density (graph : MultiDiGraph) : float := 0%float.

End ReachSpec.

(** ** Votes *)

Module VoteSpec.

(** How often [x] occurs in [l]. *)
Definition occurrences {A : Type} `{EqDecision A} (x : A) (l : list A) : nat :=
  length (List.filter (fun y => bool_decide (y = x)) l).

(** [x] is the first item of greatest key: no earlier item reaches its key,
    no later item exceeds it. *)
Definition first_greatest {A : Type} (key : A -> nat) (items : list A) (x : A) : Prop :=
  exists pre post,
    items = pre ++ x :: post
    /\ (forall y, y ∈ pre -> key y < key x)
    /\ (forall y, y ∈ post -> key y <= key x).

End VoteSpec.

(** ** The ontology and validation *)

Module OntologySpec.
Import Ontology.

(** The ontologies a program can build: the empty object, then any calls
    of [add_entity_type] and [add_relation_type]. *)
Inductive built : Ontology -> Prop :=
| built_empty : built {| entity_types := []; relation_types := [] |}
| built_entity_type self entity_type :
    built self -> built (add_entity_type self entity_type)
| built_relation_type self relation_type :
    built self -> built (add_relation_type self relation_type).

(** Both ends of [relation] are stored, and the ontology allows its type
    between their types. *)
Definition well_typed (ontology : Ontology) (self : KnowledgeGraph.KnowledgeGraph)
  (relation : Relation) : Prop :=
  exists head_entity tail_entity,
    dict_get (KnowledgeGraph.entities self) (head_entity_id relation) = Some head_entity
    /\ dict_get (KnowledgeGraph.entities self) (tail_entity_id relation) = Some tail_entity
    /\ validate_relation ontology (relation_type relation)
         (entity_type head_entity) (entity_type tail_entity) = true.

End OntologySpec.

(** ** Subgraphs *)

Module SubgraphSpec.
Import KnowledgeGraph.

(** [relation] lies within the entities collected, and one of its ends is
    not stored. *)
Definition reached_orphan (self : KnowledgeGraph) (reached : gset string)
  (relation : Relation) : Prop :=
  head_entity_id relation ∈ reached
  /\ tail_entity_id relation ∈ reached
  /\ (dict_mem (entities self) (head_entity_id relation) = false
      \/ dict_mem (entities self) (tail_entity_id relation) = false).

(** Both ends of [relation] are among the entities collected. *)
Definition within (reached : gset string) (relation : Relation) : bool :=
  bool_decide (head_entity_id relation ∈ reached)
  && bool_decide (tail_entity_id relation ∈ reached).

End SubgraphSpec.

(** * Properties *)

(** ** Floating point *)

(** IEEE multiplication is commutative: the product of two finite numbers
    is the rounding of the exact product. *)
Lemma fmul_comm (x y : float) : (x * y = y * x)%float.
Proof.
  apply Prim2SF_inj. rewrite !mul_spec. unfold SF64mul, SFmul.
  destruct (Prim2SF x) as [sx|sx| |sx mx ex], (Prim2SF y) as [sy|sy| |sy my ey];
    try reflexivity; try (rewrite xorb_comm; reflexivity).
  rewrite xorb_comm, Pos.mul_comm, Z.add_comm. reflexivity.
Qed.

(** ** Dictionaries *)

Section PyDictFacts.
Context {K V : Type} `{EqDecision K}.
Implicit Types (d : pydict K V) (k : K) (v : V).

Lemma dict_get_set d k v k' :
  dict_get (dict_set d k v) k' = if decide (k = k') then Some v else dict_get d k'.
Proof.
  induction d as [|[k0 v0] d IH]; simpl.
  - destruct (decide (k = k')); reflexivity.
  - destruct (decide (k0 = k)) as [->|Hne]; simpl.
    + destruct (decide (k = k')); reflexivity.
    + destruct (decide (k0 = k')) as [->|Hne'].
      * destruct (decide (k = k')); [congruence | reflexivity].
      * apply IH.
Qed.

Lemma dict_mem_keys d k : dict_mem d k = true <-> k ∈ dict_keys d.
Proof.
  unfold dict_mem, dict_keys. induction d as [|[k0 v0] d IH]; simpl.
  - split; [discriminate | intros H'; inversion H'].
  - destruct (decide (k0 = k)) as [->|Hne].
    + split; [intros _; left | reflexivity].
    + rewrite IH. split; [right; assumption |].
      intros H'. inversion H'; subst; [congruence | assumption].
Qed.

Lemma dict_mem_set d k v k' :
  dict_mem (dict_set d k v) k' = if decide (k = k') then true else dict_mem d k'.
Proof. unfold dict_mem. rewrite dict_get_set. destruct (decide (k = k')); reflexivity. Qed.

Lemma dict_keys_set d k v :
  dict_keys (dict_set d k v)
  = if dict_mem d k then dict_keys d else dict_keys d ++ [k].
Proof.
  unfold dict_mem, dict_keys. induction d as [|[k0 v0] d IH]; simpl; [reflexivity|].
  destruct (decide (k0 = k)) as [->|Hne]; simpl; [reflexivity|].
  rewrite IH. destruct (dict_get d k); reflexivity.
Qed.

Lemma dict_keys_set_NoDup d k v : NoDup (dict_keys d) -> NoDup (dict_keys (dict_set d k v)).
Proof.
  intros Hnd. rewrite dict_keys_set. destruct (dict_mem d k) eqn:Hm; [assumption|].
  apply NoDup_app. split; [assumption|]. split.
  - intros x Hx Hk. apply list_elem_of_singleton in Hk. subst x.
    apply dict_mem_keys in Hx. congruence.
  - apply NoDup_singleton.
Qed.

End PyDictFacts.

(** ** similarity_calculator.py *)

Module SimilarityFacts.
Import SimilarityCalculator.

Lemma levenshtein_distance_cons c1 t1 c2 t2 :
  levenshtein_distance (String c1 t1) (String c2 t2)
  = Nat.min (Nat.min (levenshtein_distance t1 (String c2 t2) + 1)
                     (levenshtein_distance (String c1 t1) t2 + 1))
            (levenshtein_distance t1 t2 + (if Ascii.eqb c1 c2 then 0 else 1)).
Proof. reflexivity. Qed.

Lemma levenshtein_distance_nil_r s : levenshtein_distance s "" = String.length s.
Proof. destruct s; reflexivity. Qed.

Lemma levenshtein_distance_sym s1 s2 :
  levenshtein_distance s1 s2 = levenshtein_distance s2 s1.
Proof.
  revert s2. induction s1 as [|c1 t1 IH1]; intros s2.
  - rewrite levenshtein_distance_nil_r. destruct s2; reflexivity.
  - induction s2 as [|c2 t2 IH2].
    + reflexivity.
    + rewrite !levenshtein_distance_cons.
      rewrite IH2, (IH1 (String c2 t2)), (IH1 t2), (Ascii.eqb_sym c1 c2).
      lia.
Qed.

Lemma lcs_dp_succ s1 s2 i j :
  lcs_dp s1 s2 (S i) (S j)
  = if decide (String.get i s1 = String.get j s2)
    then lcs_dp s1 s2 i j + 1
    else Nat.max (lcs_dp s1 s2 i (S j)) (lcs_dp s1 s2 (S i) j).
Proof. reflexivity. Qed.

Lemma lcs_dp_zero_r s1 s2 i : lcs_dp s1 s2 i 0 = 0.
Proof. destruct i; reflexivity. Qed.

Lemma lcs_dp_sym s1 s2 i j : lcs_dp s1 s2 i j = lcs_dp s2 s1 j i.
Proof.
  revert j. induction i as [|i IHi]; intros j.
  - rewrite lcs_dp_zero_r. destruct j; reflexivity.
  - induction j as [|j IHj].
    + reflexivity.
    + rewrite !lcs_dp_succ, IHj, (IHi j), (IHi (S j)).
      destruct (decide (String.get i s1 = String.get j s2)) as [Heq|Hne];
        destruct (decide (String.get j s2 = String.get i s1)) as [Heq'|Hne'];
        try congruence.
      apply Nat.max_comm.
Qed.

Lemma lcs_length_sym s1 s2 : lcs_length s1 s2 = lcs_length s2 s1.
Proof. apply lcs_dp_sym. Qed.

Lemma Counter_keys_NoDup text : NoDup (dict_keys (Counter text)).
Proof.
  unfold Counter.
  assert (Hgen : forall l (acc : pydict ascii nat),
             NoDup (dict_keys acc) ->
             NoDup (dict_keys (fold_left
                      (fun freq c => dict_set freq c (counter_get freq c + 1)) l acc))).
  { induction l as [|c l IH]; intros acc Hacc; simpl; [assumption|].
    apply IH, dict_keys_set_NoDup, Hacc. }
  apply Hgen. constructor.
Qed.

(** The dot product visits the characters the two counters share; which
    counter is iterated does not change the sum. *)
Lemma dot_product_sym (freq1 freq2 : pydict ascii nat) :
  NoDup (dict_keys freq1) -> NoDup (dict_keys freq2) ->
  dot_product freq1 freq2 = dot_product freq2 freq1.
Proof.
  intros Hnd1 Hnd2. unfold dot_product.
  rewrite (map_ext (fun c => counter_get freq2 c * counter_get freq1 c)
                   (fun c => counter_get freq1 c * counter_get freq2 c))
    by (intros; apply Nat.mul_comm).
  apply Permutation_list_sum, Permutation_map, NoDup_Permutation.
  - apply NoDup_filter, Hnd1.
  - apply NoDup_filter, Hnd2.
  - intros c. rewrite !list_elem_of_filter, !Is_true_true, !dict_mem_keys. tauto.
Qed.

Lemma _levenshtein_similarity_sym a b :
  _levenshtein_similarity a b = _levenshtein_similarity b a.
Proof.
  unfold _levenshtein_similarity.
  rewrite (Nat.max_comm (String.length a)), (levenshtein_distance_sym a b).
  reflexivity.
Qed.

Lemma _jaccard_similarity_sym a b n : _jaccard_similarity a b n = _jaccard_similarity b a n.
Proof.
  unfold _jaccard_similarity.
  assert (Hi : forall X Y : gset string, X ∩ Y = Y ∩ X)
    by (intros X Y; apply set_eq; intros x; rewrite !elem_of_intersection; tauto).
  assert (Hu : forall X Y : gset string, X ∪ Y = Y ∪ X)
    by (intros X Y; apply set_eq; intros x; rewrite !elem_of_union; tauto).
  rewrite (Hi (get_ngrams (lower a) n)), (Hu (get_ngrams (lower a) n)).
  reflexivity.
Qed.

Lemma _cosine_similarity_sym a b : _cosine_similarity a b = _cosine_similarity b a.
Proof.
  unfold _cosine_similarity, get_char_freq.
  rewrite (dot_product_sym (Counter (lower a)) (Counter (lower b)))
    by apply Counter_keys_NoDup.
  rewrite (fmul_comm (norm (Counter (lower a)))), (orb_comm (norm (Counter (lower a)) =? 0)%float).
  reflexivity.
Qed.

Lemma _lcs_similarity_sym a b : _lcs_similarity a b = _lcs_similarity b a.
Proof.
  unfold _lcs_similarity.
  rewrite (lcs_length_sym a b), (Nat.add_comm (String.length a)). reflexivity.
Qed.

Lemma _combined_string_similarity_sym a b :
  _combined_string_similarity a b = _combined_string_similarity b a.
Proof.
  unfold _combined_string_similarity.
  rewrite (_levenshtein_similarity_sym a b), (_jaccard_similarity_sym a b),
    (_cosine_similarity_sym a b), (_lcs_similarity_sym a b).
  reflexivity.
Qed.

(** C9.  Every string similarity is symmetric: for all strings [a], [b] and
    every method name, [string_similarity a b method] and
    [string_similarity b a method] are the same outcome, down to the last bit
    of the float (and the same [ValueError] for an unknown method). *)
Theorem string_similarity_symmetric (a b method : string) :
  string_similarity a b method = string_similarity b a method.
Proof.
  unfold string_similarity.
  rewrite (orb_comm (is_empty a)), (String.eqb_sym a b).
  rewrite (_levenshtein_similarity_sym a b), (_jaccard_similarity_sym a b),
    (_cosine_similarity_sym a b), (_lcs_similarity_sym a b),
    (_combined_string_similarity_sym a b).
  reflexivity.
Qed.

(** C10.  The either-empty test comes first: with an empty first or second
    argument (both empty included) every method name, known or not, yields
    0.0, and the equality short-circuit to 1.0 is reached by equal non-empty
    strings only. *)
Theorem empty_check_precedes_equality (method s : string) (c : ascii) (t : string) :
  string_similarity "" s method = Ok 0%float
  /\ string_similarity s "" method = Ok 0%float
  /\ string_similarity "" "" method = Ok 0%float
  /\ string_similarity (String c t) (String c t) method = Ok 1%float.
Proof.
  unfold string_similarity. repeat split.
  - rewrite orb_true_r. reflexivity.
  - cbn [is_empty orb]. rewrite String.eqb_refl. reflexivity.
Qed.

(** C8, at the failing input.  The character counts of ["abc"] and ["cba"]
    are both (1, 1, 1): the dot product is 3 and each norm is [sqrt 3], whose
    rounded square is 2.9999999999999996, so the quotient is the float just
    above 1. *)
Theorem cosine_similarity_exceeds_one :
  string_similarity "abc" "cba" "cosine" = Ok 1.0000000000000002%float
  /\ (1 <? 1.0000000000000002)%float = true.
Proof. split; vm_compute; reflexivity. Qed.

End SimilarityFacts.

(** ** relation_fusion.py *)

Module RelationFusionFacts.
Import RelationFusion FusionSpec.

Section ScenarioB.
Variable similarity_threshold : float.
Variable context_similarity : PyValue -> PyValue -> float.
Variable uuid : nat -> string.
Variable merge_properties :
  list (pydict string PyValue) -> result (pydict string PyValue).
Variables id1 id2 ty h t : string.

Let r1 : Relation := mkRelation id1 ty h t [] 0.9.
Let r2 : Relation := mkRelation id2 ty h t [] 0.95.

(** Two relations of one type between the same endpoints are duplicates
    whatever the threshold, so the scan returns the single group [0, 1]. *)
Lemma identical_relations_one_group :
  identify_duplicate_relations similarity_threshold _build_fusion_rules
    context_similarity [r1; r2] = [[0; 1]].
Proof.
  unfold identify_duplicate_relations. cbn [length Nat.leb].
  unfold seed_scan. cbn [seq fold_left].
  unfold seed_step at 2.
  replace (bool_decide (0 ∈ (∅ : gset nat))) with false by reflexivity.
  cbn [seq Nat.add Nat.sub fold_left]. unfold scan_step.
  replace (bool_decide (1 ∈ (∅ : gset nat))) with false by reflexivity.
  unfold duplicate_at. cbn [lookup list_lookup].
  unfold _are_duplicate_relations, r1, r2.
  cbn [relation_type head_entity_id tail_entity_id].
  rewrite !String.eqb_refl. cbn [andb app length Nat.ltb Nat.leb].
  unfold seed_step.
  replace (bool_decide (1 ∈ ({[0]} ∪ ({[1]} ∪ ∅) : gset nat))) with true by reflexivity.
  reflexivity.
Qed.

(** C3, as amended.  Two relations with the same type, head and tail and
    confidences 0.90 and 0.95 form one cluster, and under the default
    [weighted_average] strategy the fused relation carries
    [min(1.0, avg(0.90, 0.95) * (1 + min(1.0, 2/5) * 0.2))], which is
    0.9990000000000001 (about 0.999). *)
Theorem scenario_B_fused_confidence (k : nat) :
  identify_duplicate_relations similarity_threshold _build_fusion_rules
    context_similarity [r1; r2] = [[0; 1]]
  /\ exists res,
       batch_fuse_relations similarity_threshold _build_fusion_rules
         context_similarity uuid merge_properties [r1; r2] k = Ok ([res], 3 + k)
       /\ source_relations res = [r1; r2]
       /\ confidence (fused_relation res) = 0.9990000000000001%float
       /\ result_confidence res = 0.9990000000000001%float
       /\ 0.9990000000000001%float
          = py_min 1 ((0 + 0.9 + 0.95) / 2 * (1 + py_min 1 (2 / 5) * 0.2))%float.
Proof.
  split; [apply identical_relations_one_group|].
  unfold batch_fuse_relations, cluster_relations.
  rewrite identical_relations_one_group.
  eexists. split; [vm_compute; reflexivity|].
  vm_compute. repeat split.
Qed.

End ScenarioB.

(** C3, as stated, fails: the fused confidence of Scenario B is not within
    three decimals of 0.963. *)
Lemma scenario_B_not_0963 :
  _calculate_fusion_confidence _build_fusion_rules
    [mkRelation "r1" "founder_of" "h" "t" [] 0.9;
     mkRelation "r2" "founder_of" "h" "t" [] 0.95]
  = Ok 0.9990000000000001%float
  /\ approx3 0.9990000000000001 0.963 = false.
Proof. split; vm_compute; reflexivity. Qed.

End RelationFusionFacts.

(** ** knowledge_graph.py: add_relation *)

Module AddRelationFacts.
Import KnowledgeGraph StoreSpec.

(** What a refused call does for every store: it raises, it leaves the
    entities, the graph and the three indices alone, and it has already
    written the relation into [self.relations]. *)
Lemma add_relation_refused (self : KnowledgeGraph) (relation : Relation) :
  endpoints_present self relation = false ->
  snd (add_relation self relation) = Raise ValueError
  /\ entities (fst (add_relation self relation)) = entities self
  /\ graph (fst (add_relation self relation)) = graph self
  /\ entity_type_index (fst (add_relation self relation)) = entity_type_index self
  /\ relation_type_index (fst (add_relation self relation)) = relation_type_index self
  /\ entity_name_index (fst (add_relation self relation)) = entity_name_index self
  /\ relations (fst (add_relation self relation))
     = dict_set (relations self) (relation_id relation) relation.
Proof.
  unfold endpoints_present, add_relation. cbn [entities].
  intros Hmiss.
  assert (Hcond : negb (dict_mem (entities self) (head_entity_id relation))
                  || negb (dict_mem (entities self) (tail_entity_id relation)) = true).
  { rewrite <- negb_andb, Hmiss. reflexivity. }
  rewrite Hcond. cbn. repeat split.
Qed.

Lemma add_relation_accepted (self : KnowledgeGraph) (relation : Relation) :
  endpoints_present self relation = true ->
  snd (add_relation self relation) = Ok tt.
Proof.
  unfold endpoints_present, add_relation. cbn [entities].
  intros Hok.
  assert (Hcond : negb (dict_mem (entities self) (head_entity_id relation))
                  || negb (dict_mem (entities self) (tail_entity_id relation)) = false).
  { rewrite <- negb_andb, Hok. reflexivity. }
  rewrite Hcond. reflexivity.
Qed.

(** C1, at the failing input.  On the empty store a relation between two
    absent entities is refused with [ValueError], yet the store that the call
    leaves behind holds it, so the relations map is not what it was; after
    [batch_add_relations], which swallows the error, the store has a relation
    whose endpoints are both absent. *)
Theorem add_relation_refused_keeps_relation :
  snd (add_relation init orphan) = Raise ValueError
  /\ relations (fst (add_relation init orphan)) = [("r1", orphan)]
  /\ relations (fst (add_relation init orphan)) <> relations init
  /\ dict_get (relations (batch_add_relations init [orphan])) "r1" = Some orphan
  /\ dict_mem (entities (batch_add_relations init [orphan])) (head_entity_id orphan) = false
  /\ dict_mem (entities (batch_add_relations init [orphan])) (tail_entity_id orphan) = false.
Proof. repeat split; discriminate. Qed.

End AddRelationFacts.

(** ** conflict_resolution.py *)

Module ConflictResolverFacts.
Import ConflictResolver ConflictSpec.

(** *** Detection *)

Lemma pair_group_cons relation relations key :
  pair_group (relation :: relations) key
  = if decide (pair_of relation = key)
    then relation :: pair_group relations key
    else pair_group relations key.
Proof.
  unfold pair_group. cbn [List.filter].
  destruct (decide (pair_of relation = key)) as [Heq|Hne].
  - rewrite bool_decide_eq_true_2 by assumption. reflexivity.
  - rewrite bool_decide_eq_false_2 by assumption. reflexivity.
Qed.

Lemma groups_get relations : forall acc key,
  dict_get (fold_left group_append relations acc) key
  = match dict_get acc key with
    | Some group => Some (group ++ pair_group relations key)
    | None => match pair_group relations key with
              | [] => None
              | group => Some group
              end
    end.
Proof.
  induction relations as [|r rs IH]; intros acc key; cbn [fold_left].
  - cbn. destruct (dict_get acc key); [rewrite app_nil_r|]; reflexivity.
  - rewrite IH. unfold group_append. fold (pair_of r).
    rewrite dict_get_set, pair_group_cons.
    destruct (decide (pair_of r = key)) as [Heq|Hne]; [|reflexivity].
    rewrite Heq.
    destruct (dict_get acc key) as [g|]; cbn [default].
    + rewrite <- app_assoc. reflexivity.
    + reflexivity.
Qed.

Lemma groups_keys_NoDup relations : forall acc,
  NoDup (dict_keys acc) -> NoDup (dict_keys (fold_left group_append relations acc)).
Proof.
  induction relations as [|r rs IH]; intros acc Hacc; cbn [fold_left]; [assumption|].
  apply IH, dict_keys_set_NoDup, Hacc.
Qed.

Lemma pair_group_nonempty relations key :
  pair_group relations key <> [] <-> exists r, r ∈ relations /\ pair_of r = key.
Proof.
  induction relations as [|r rs IH].
  - split; [intros H; exfalso; apply H; reflexivity|].
    intros (r & Hr & _). inversion Hr.
  - rewrite pair_group_cons. destruct (decide (pair_of r = key)) as [Heq|Hne].
    + split; [|discriminate]. intros _. exists r. split; [left | assumption].
    + rewrite IH. split.
      * intros (r' & Hr' & Hk). exists r'. split; [right; assumption | assumption].
      * intros (r' & Hr' & Hk). inversion Hr'; subst; [congruence|].
        exists r'. split; [assumption | reflexivity].
Qed.

Lemma dict_get_of_item {K V : Type} `{EqDecision K} (d : pydict K V) k v :
  NoDup (dict_keys d) -> (k, v) ∈ d -> dict_get d k = Some v.
Proof.
  unfold dict_keys. induction d as [|[k0 v0] d IH]; intros Hnd Hin; [inversion Hin|].
  cbn [map fst] in Hnd. apply NoDup_cons in Hnd as [Hk0 Hnd]. cbn [dict_get].
  apply elem_of_cons in Hin as [Heq|Hin].
  - injection Heq as -> ->. destruct (decide (k0 = k0)); congruence.
  - destruct (decide (k0 = k)) as [->|Hne]; [|auto].
    exfalso. apply Hk0. apply list_elem_of_fmap. exists (k, v). split; [reflexivity | assumption].
Qed.

Lemma flat_map_items {K V C : Type} (f : K -> V -> list C) (G : K -> V) (d : pydict K V) :
  (forall k v, (k, v) ∈ d -> v = G k) ->
  flat_map (fun '(k, v) => f k v) d = flat_map (fun k => f k (G k)) (dict_keys d).
Proof.
  unfold dict_keys. induction d as [|[k0 v0] d IH]; intros HG; [reflexivity|].
  cbn [flat_map map fst]. rewrite (HG k0 v0) by left.
  rewrite IH; [reflexivity|]. intros k v Hin. apply HG. right. assumption.
Qed.

Lemma distinct_types_le_length group : length group <= 1 -> distinct_types group <= 1.
Proof.
  unfold distinct_types. destruct group as [|r [|r' rest]]; cbn [length map list_to_set].
  - intros _. rewrite size_empty. lia.
  - intros _. rewrite union_empty_r_L, size_singleton. lia.
  - lia.
Qed.

Lemma contradictory_iff types :
  _are_contradictory_relations types = true <-> has_contradictory_pair types.
Proof.
  unfold _are_contradictory_relations, has_contradictory_pair, contradictory_pairs.
  cbn [existsb fst snd].
  rewrite !orb_true_iff, !andb_true_iff, !bool_decide_eq_true, !elem_of_list_to_set.
  split; [|tauto].
  intros [H|[H|[H|[H|H]]]]; [tauto | tauto | tauto | tauto | discriminate H].
Qed.

(** C6.  [detect_relation_conflicts] visits every (head, tail) pair of the
    list once, with the relations that share it; a group with at least two
    distinct types emits exactly one conflict, [CONTRADICTORY_RELATIONS] when
    its types contain one of the pairs parent_of/child_of,
    spouse_of/sibling_of, works_for/competes_with and
    located_in/not_located_in, and [RELATION_TYPE_CONFLICT] otherwise; a
    group with one relation or one distinct type emits none.  Two relations
    between the same entities with the two types of one of the four pairs, in
    either order, are reported as contradictory; with the types founder_of
    and works_for as a conflict of types. *)
Theorem relation_conflicts_per_group (relations : list Relation) :
  NoDup (pairs relations)
  /\ (forall key, key ∈ pairs relations <-> exists r, r ∈ relations /\ pair_of r = key)
  /\ detect_relation_conflicts relations
     = flat_map (fun key => group_conflicts key (pair_group relations key))
                (pairs relations)
  /\ (forall key group,
        distinct_types group < 2 -> group_conflicts key group = [])
  /\ (forall key group,
        2 <= distinct_types group ->
        exists c,
          group_conflicts key group = [c]
          /\ (has_contradictory_pair (map relation_type group) ->
              conflict_type c = CONTRADICTORY_RELATIONS)
          /\ (~ has_contradictory_pair (map relation_type group) ->
              conflict_type c = RELATION_TYPE_CONFLICT)
          /\ confidence_scores c = map confidence group)
  /\ (forall type1 type2,
        (type1, type2) ∈ [("parent_of", "child_of"); ("spouse_of", "sibling_of");
                          ("works_for", "competes_with");
                          ("located_in", "not_located_in")] ->
        map conflict_type (detect_relation_conflicts (relation_pair type1 type2))
        = [CONTRADICTORY_RELATIONS]
        /\ map conflict_type (detect_relation_conflicts (relation_pair type2 type1))
           = [CONTRADICTORY_RELATIONS])
  /\ map conflict_type (detect_relation_conflicts (relation_pair "founder_of" "works_for"))
     = [RELATION_TYPE_CONFLICT].
Proof.
  assert (Hnd : NoDup (pairs relations)).
  { apply groups_keys_NoDup. constructor. }
  split; [exact Hnd|]. split; [|split; [|split; [|split; [|split]]]].
  - intros key. unfold pairs. rewrite <- dict_mem_keys, <- pair_group_nonempty.
    unfold dict_mem. rewrite groups_get. cbn [dict_get].
    destruct (pair_group relations key); split; congruence.
  - unfold detect_relation_conflicts, pairs. apply flat_map_items.
    intros key group Hin. apply dict_get_of_item in Hin; [|exact Hnd].
    rewrite groups_get in Hin. cbn [dict_get] in Hin.
    destruct (pair_group relations key); congruence.
  - intros [head_id tail_id] group Hlt. unfold group_conflicts.
    fold (distinct_types group).
    destruct (length group <=? 1); [reflexivity|].
    destruct (1 <? distinct_types group) eqn:H1; [|reflexivity].
    apply Nat.ltb_lt in H1. lia.
  - intros [head_id tail_id] group Hge. unfold group_conflicts.
    fold (distinct_types group).
    destruct (length group <=? 1) eqn:Hlen.
    { apply Nat.leb_le, distinct_types_le_length in Hlen. lia. }
    destruct (1 <? distinct_types group) eqn:H1.
    2:{ apply Nat.ltb_ge in H1. lia. }
    destruct (_are_contradictory_relations (map relation_type group)) eqn:Hc;
      eexists; (split; [reflexivity|]); cbn [new_conflict conflict_type confidence_scores].
    + split; [reflexivity|]. split; [|reflexivity].
      intros Hno. exfalso. apply Hno, contradictory_iff, Hc.
    + split; [|split; reflexivity].
      intros Hyes. apply contradictory_iff in Hyes. congruence.
  - intros type1 type2 Hin.
    repeat (apply elem_of_cons in Hin as [Hin|Hin];
            [injection Hin as -> ->; split; vm_compute; reflexivity|]).
    inversion Hin.
  - vm_compute. reflexivity.
Qed.

(** *** Resolution *)

Section Resolution.
Variable py_str : Item -> string.
Variable py_float : Item -> result float.
Variable list_of_set : list PyValue -> result (list PyValue).

Abbreviation resolve := (resolve_conflict py_str py_float list_of_set).
Abbreviation batch := (batch_resolve_conflicts py_str py_float list_of_set).

(** With at least one conflicting item the handler has a first item to fall
    back on: an error raised by the strategy is caught, and the conflict comes
    back with that item and confidence 0.1. *)
Lemma resolve_conflict_fallback self conflict strategy first rest e :
  conflicting_items conflict = first :: rest ->
  dispatch py_str py_float list_of_set
    (set_strategy conflict (choose_strategy self conflict strategy))
    (choose_strategy self conflict strategy) = Raise e ->
  resolve self conflict strategy
  = Ok (self,
        set_resolution (set_strategy conflict (choose_strategy self conflict strategy))
                       (Some first) 0.1).
Proof.
  intros Hitems Hraise. unfold resolve_conflict. rewrite Hraise.
  cbn [set_strategy conflicting_items]. rewrite Hitems. reflexivity.
Qed.

Lemma resolve_conflict_returns self conflict strategy :
  conflicting_items conflict <> [] ->
  exists self' resolved, resolve self conflict strategy = Ok (self', resolved).
Proof.
  intros Hitems. unfold resolve_conflict.
  destruct (dispatch _ _ _ _ _) as [resolved|e]; [eauto|].
  cbn [set_strategy conflicting_items].
  destruct (conflicting_items conflict) as [|first rest]; [congruence|].
  cbn. eauto.
Qed.

(** A batch in which every conflict has an item is resolved to the end. *)
Lemma batch_loop_returns conflicts : forall self mapping done,
  Forall (fun conflict => conflicting_items conflict <> []) conflicts ->
  exists self' resolved,
    batch_loop py_str py_float list_of_set self conflicts mapping done
    = Ok (self', resolved)
    /\ length resolved = length done + length conflicts.
Proof.
  induction conflicts as [|conflict rest IH]; intros self mapping done Hall.
  - exists self, done. split; [reflexivity | cbn; lia].
  - apply Forall_cons in Hall as [Hc Hrest]. cbn [batch_loop].
    destruct (resolve_conflict_returns self conflict
                (match mapping with
                 | Some (_ :: _ as m) => dict_get m (conflict_type conflict)
                 | _ => None
                 end) Hc) as (self1 & resolved1 & Hres).
    rewrite Hres. cbn [mbind result_bind].
    destruct (IH self1 mapping (done ++ [resolved1]) Hrest) as (self' & resolved & Hloop & Hlen).
    exists self', resolved. split; [exact Hloop|].
    rewrite Hlen, length_app. cbn. lia.
Qed.

(** C7, at the failing input.  For a conflict without conflicting items the
    default strategy raises ([max] of no confidences), the handler then
    raises itself on [conflicting_items[0]], and the [IndexError] leaves
    [resolve_conflict]; in a batch it ends the loop, so the conflict that
    follows, which resolves on its own, is never returned. *)
Theorem fallback_raises_without_items :
  dispatch py_str py_float list_of_set
    (set_strategy empty_conflict "highest_confidence") "highest_confidence"
  = Raise ValueError
  /\ resolve init empty_conflict None = Raise IndexError
  /\ batch init [empty_conflict; name_conflict] None = Raise IndexError
  /\ batch init [name_conflict] None
     = Ok ({| resolution_strategies := _build_resolution_strategies;
              conflict_history :=
                [set_resolution (set_strategy name_conflict "highest_confidence")
                                (Some (IValue (VStr "Tencent"))) 1] |},
           [set_resolution (set_strategy name_conflict "highest_confidence")
                           (Some (IValue (VStr "Tencent"))) 1]).
Proof. repeat split. Qed.

End Resolution.

End ConflictResolverFacts.

(** ** The dedup pass: seed-based single-link grouping *)

Module SeedScanFacts.

Section Scan.
Variable similar : nat -> nat -> bool.

Abbreviation ssl := (seed_single_link similar).

Lemma place_fold (items : list nat) : forall seed members clusters,
  fold_left (fun cs j => place similar j cs) items ((seed :: members) :: clusters)
  = (seed :: members ++ List.filter (similar seed) items)
      :: fold_left (fun cs j => place similar j cs)
                   (List.filter (fun j => negb (similar seed j)) items) clusters.
Proof.
  induction items as [|j items IH]; intros seed members clusters.
  - cbn. rewrite app_nil_r. reflexivity.
  - cbn [fold_left place List.filter].
    destruct (similar seed j) eqn:Hsim; cbn [negb].
    + change ((seed :: members) ++ [j]) with (seed :: (members ++ [j])).
      rewrite IH, <- app_assoc. reflexivity.
    + rewrite IH. reflexivity.
Qed.

(** The seed takes every later item similar to it; the others are grouped
    among themselves. *)
Lemma ssl_cons (seed : nat) (items : list nat) :
  ssl (seed :: items)
  = (seed :: List.filter (similar seed) items)
      :: ssl (List.filter (fun j => negb (similar seed j)) items).
Proof. unfold seed_single_link. cbn [fold_left place]. apply place_fold. Qed.

Lemma filter_length_le {A : Type} (f : A -> bool) (l : list A) :
  length (List.filter f l) <= length l.
Proof. induction l as [|x l IH]; cbn; [lia|]. destruct (f x); cbn; lia. Qed.

(** Induction on the items that follows [ssl_cons]. *)
Lemma ssl_ind (P : list nat -> Prop) :
  P [] ->
  (forall seed items,
      P (List.filter (fun j => negb (similar seed j)) items) -> P (seed :: items)) ->
  forall items, P items.
Proof.
  intros Hnil Hcons items.
  remember (length items) as n eqn:Hn.
  revert items Hn. induction n as [n IHn] using lt_wf_ind. intros items Hn.
  destruct items as [|seed items]; [exact Hnil|].
  apply Hcons. eapply IHn; [|reflexivity].
  subst n. cbn [length].
  pose proof (filter_length_le (fun j => negb (similar seed j)) items). lia.
Qed.

Lemma ssl_members (items : list nat) :
  forall x, In x (concat (ssl items)) <-> In x items.
Proof.
  induction items as [|seed items IH] using ssl_ind; intros x; [reflexivity|].
  rewrite ssl_cons. cbn [concat]. rewrite in_app_iff. cbn [In].
  rewrite IH, !filter_In.
  destruct (similar seed x); cbn [negb]; intuition congruence.
Qed.

(** Every cluster is a seed followed by items that passed the test against
    that seed. *)
Lemma ssl_seeded (items : list nat) :
  Forall (fun g => exists seed members,
              g = seed :: members
              /\ Forall (fun j => similar seed j = true) members)
         (ssl items).
Proof.
  induction items as [|seed items IH] using ssl_ind; [constructor|].
  rewrite ssl_cons. constructor; [|exact IH].
  exists seed, (List.filter (similar seed) items). split; [reflexivity|].
  apply Forall_forall. intros j Hj. apply list_elem_of_In, filter_In in Hj. tauto.
Qed.

Lemma multi_subset (groups : list (list nat)) x :
  In x (concat (multi groups)) -> In x (concat groups).
Proof.
  unfold multi. induction groups as [|g groups IH]; cbn [List.filter concat]; [tauto|].
  destruct (1 <? length g); cbn [concat]; rewrite !in_app_iff; tauto.
Qed.

Lemma outside_spec groups x : outside groups x = true <-> ~ In x (concat groups).
Proof.
  unfold outside. rewrite negb_true_iff, bool_decide_eq_false, elem_of_list_to_set,
    list_elem_of_In. reflexivity.
Qed.

Lemma outside_false groups x : outside groups x = false <-> In x (concat groups).
Proof.
  unfold outside. rewrite negb_false_iff, bool_decide_eq_true, elem_of_list_to_set,
    list_elem_of_In. reflexivity.
Qed.

Lemma filter_ext_In {A : Type} (f g : A -> bool) (l : list A) :
  (forall x, In x l -> f x = g x) -> List.filter f l = List.filter g l.
Proof.
  induction l as [|x l IH]; intros Hfg; [reflexivity|]. cbn [List.filter].
  rewrite (Hfg x) by (left; reflexivity).
  rewrite IH by (intros y Hy; apply Hfg; right; exact Hy). reflexivity.
Qed.

Lemma filter_filter {A : Type} (f g : A -> bool) (l : list A) :
  List.filter f (List.filter g l) = List.filter (fun x => g x && f x) l.
Proof.
  induction l as [|x l IH]; [reflexivity|]. cbn [List.filter].
  destruct (g x); cbn [andb List.filter]; [destruct (f x)|]; rewrite IH; reflexivity.
Qed.

Lemma filter_nil_all {A : Type} (f : A -> bool) (l : list A) :
  List.filter f l = [] -> List.filter (fun x => negb (f x)) l = l.
Proof.
  induction l as [|x l IH]; [reflexivity|]. cbn [List.filter].
  destruct (f x); [discriminate|]. intros H'. cbn [negb]. rewrite IH by exact H'.
  reflexivity.
Qed.

(** The items left out of the clusters of several members are, in input
    order, the clusters of one member. *)
Lemma unclustered_singles (items : list nat) :
  List.NoDup items ->
  List.filter (outside (multi (ssl items))) items = concat (singles (ssl items)).
Proof.
  induction items as [|seed items IH] using ssl_ind; intros Hnd; [reflexivity|].
  apply List.NoDup_cons_iff in Hnd as [Hseed Hnd].
  rewrite ssl_cons. unfold multi, singles. cbn [List.filter length].
  set (A := List.filter (similar seed) items) in *.
  set (B := List.filter (fun j => negb (similar seed j)) items) in *.
  fold (multi (ssl B)) (singles (ssl B)).
  assert (HndB : List.NoDup B) by (apply List.NoDup_filter, Hnd).
  destruct A as [|a A'] eqn:HA.
  - (* the seed stays alone *)
    cbn [length Nat.ltb Nat.leb Nat.eqb concat app].
    assert (HB : B = items) by (apply filter_nil_all, HA).
    rewrite HB in *.
    assert (Hout : outside (multi (ssl items)) seed = true).
    { apply outside_spec. intros Hin. apply multi_subset in Hin.
      apply (proj1 (ssl_members _ _)) in Hin. exact (Hseed Hin). }
    rewrite Hout. f_equal. apply IH, Hnd.
  - (* the seed has members *)
    cbn [length Nat.ltb Nat.leb Nat.eqb].
    assert (Hout : outside ((seed :: a :: A') :: multi (ssl B)) seed = false).
    { apply outside_false. cbn [concat]. left. reflexivity. }
    rewrite Hout, <- (IH HndB). unfold B at 3. rewrite filter_filter.
    apply filter_ext_In. intros x Hx.
    assert (Hne : x <> seed) by congruence.
    destruct (similar seed x) eqn:Hsim; cbn [negb andb].
    + apply outside_false. cbn [concat]. right. apply in_app_iff. left.
      rewrite <- HA. apply filter_In. tauto.
    + destruct (outside (multi (ssl B)) x) eqn:Ho.
      * apply outside_spec. apply outside_spec in Ho. cbn [concat].
        rewrite in_app_iff. intros [Hin|Hin]; [|tauto].
        destruct Hin as [Heq|Hin]; [congruence|].
        rewrite <- HA in Hin. unfold A in Hin.
        apply filter_In in Hin. destruct Hin as [_ Hs]. congruence.
      * apply outside_false. apply outside_false in Ho. cbn [concat].
        apply in_app_iff. right. exact Ho.
Qed.

Lemma singles_singletons (groups : list (list nat)) :
  map (fun i => [i]) (concat (singles groups)) = singles groups.
Proof.
  induction groups as [|g groups IH]; [reflexivity|]. unfold singles in *.
  cbn [List.filter]. destruct g as [|x [|y g]]; cbn [length Nat.eqb]; try exact IH.
  cbn [concat app map]. rewrite IH. reflexivity.
Qed.

(** No item is in two clusters. *)
Lemma ssl_NoDup (items : list nat) :
  List.NoDup items -> List.NoDup (concat (ssl items)).
Proof.
  induction items as [|seed items IH] using ssl_ind; intros Hnd; [constructor|].
  apply List.NoDup_cons_iff in Hnd as [Hseed Hnd].
  rewrite ssl_cons. cbn [concat app]. apply List.NoDup_cons_iff. split.
  - rewrite in_app_iff, ssl_members, !filter_In. tauto.
  - apply List.NoDup_app.
    + apply List.NoDup_filter, Hnd.
    + apply IH, List.NoDup_filter, Hnd.
    + intros x Hx Hx'.
      apply (proj1 (ssl_members _ _)) in Hx'. apply filter_In in Hx, Hx'.
      destruct Hx as [_ Hs], Hx' as [_ Hs']. rewrite Hs in Hs'. discriminate.
Qed.

(** *** The two loops of the source *)

Lemma scan_loop (i : nat) (js : list nat) : forall group visited,
  List.NoDup js ->
  exists visited',
    fold_left (scan_step similar i) js (group, visited)
    = (group ++ List.filter (fresh_and_similar similar i visited) js, visited')
    /\ forall x, x ∈ visited'
                 <-> In x (List.filter (fresh_and_similar similar i visited) js) \/ x ∈ visited.
Proof.
  induction js as [|j js IH]; intros group visited Hnd.
  - exists visited. cbn. rewrite app_nil_r. split; [reflexivity | tauto].
  - apply List.NoDup_cons_iff in Hnd as [Hj Hnd].
    cbn [fold_left List.filter].
    assert (Hstep : scan_step similar i (group, visited) j
                    = if fresh_and_similar similar i visited j
                      then (group ++ [j], {[ j ]} ∪ visited)
                      else (group, visited)).
    { unfold scan_step, fresh_and_similar.
      destruct (bool_decide (j ∈ visited)); cbn [negb andb]; [reflexivity|].
      destruct (similar i j); reflexivity. }
    rewrite Hstep. destruct (fresh_and_similar similar i visited j) eqn:Hfs.
    + destruct (IH (group ++ [j]) ({[ j ]} ∪ visited) Hnd) as (visited' & Hfold & Hvis').
      assert (Hsame : List.filter (fresh_and_similar similar i ({[ j ]} ∪ visited)) js
                      = List.filter (fresh_and_similar similar i visited) js).
      { apply filter_ext_In. intros x Hx. unfold fresh_and_similar. f_equal. f_equal.
        apply bool_decide_ext. rewrite elem_of_union, elem_of_singleton.
        split; [intros [Heq|Hin]; [congruence | exact Hin] | tauto]. }
      rewrite Hsame in Hfold, Hvis'.
      exists visited'. split.
      * rewrite Hfold, <- app_assoc. reflexivity.
      * intros x. rewrite Hvis', elem_of_union, elem_of_singleton. cbn [In].
        intuition congruence.
    + exact (IH group visited Hnd).
Qed.

Lemma seq_NoDup a m : List.NoDup (seq a m).
Proof. apply List.seq_NoDup. Qed.

(** The outer loop, started at index [a] with [visited] already marked,
    appends the clusters of several members of the unvisited indices. *)
Lemma seed_loop (n m : nat) : forall a duplicates visited,
  a + m = n ->
  fst (fold_left (seed_step similar n) (seq a m) (duplicates, visited))
  = duplicates
    ++ multi (ssl (List.filter (fun x => negb (bool_decide (x ∈ visited))) (seq a m))).
Proof.
  induction m as [|m IH]; intros a duplicates visited Han.
  - cbn. rewrite app_nil_r. reflexivity.
  - cbn [seq fold_left List.filter]. unfold seed_step at 2.
    destruct (bool_decide (a ∈ visited)) eqn:Hvis; cbn [negb].
    + apply IH. lia.
    + replace (n - (a + 1)) with m by lia. replace (a + 1) with (S a) by lia.
      destruct (scan_loop a (seq (S a) m) [a] visited (seq_NoDup _ _))
        as (visited' & Hscan & Hvis').
      rewrite Hscan. rewrite IH by lia.
      rewrite ssl_cons, !filter_filter. unfold multi at 2. cbn [List.filter].
      fold (multi (ssl (List.filter
                          (fun x => negb (bool_decide (x ∈ visited)) && negb (similar a x))
                          (seq (S a) m)))).
      assert (Hrest : List.filter (fun x => negb (bool_decide (x ∈ {[ a ]} ∪ visited')))
                                  (seq (S a) m)
                      = List.filter
                          (fun x => negb (bool_decide (x ∈ visited)) && negb (similar a x))
                          (seq (S a) m)).
      { apply filter_ext_In. intros x Hx. apply in_seq in Hx.
        destruct (bool_decide (x ∈ visited)) eqn:Hx1; cbn [negb andb].
        - apply negb_false_iff, bool_decide_eq_true.
          rewrite elem_of_union, Hvis'. apply bool_decide_eq_true in Hx1. tauto.
        - apply bool_decide_eq_false in Hx1.
          destruct (similar a x) eqn:Hsim; cbn [negb].
          + apply negb_false_iff, bool_decide_eq_true.
            rewrite elem_of_union, Hvis'. right. left. apply filter_In.
            split; [apply in_seq; lia|]. unfold fresh_and_similar.
            rewrite bool_decide_eq_false_2 by exact Hx1. rewrite Hsim. reflexivity.
          + apply negb_true_iff, bool_decide_eq_false.
            rewrite elem_of_union, elem_of_singleton, Hvis', filter_In.
            unfold fresh_and_similar. rewrite Hsim, andb_false_r.
            intros [Heq|[[_ Hf]|Hin]]; [lia | discriminate | tauto]. }
      rewrite Hrest.
      change ([a] ++ List.filter (fresh_and_similar similar a visited) (seq (S a) m))
        with (a :: List.filter (fresh_and_similar similar a visited) (seq (S a) m)).
      unfold fresh_and_similar.
      destruct (1 <? length (a :: List.filter
                                    (fun j => negb (bool_decide (j ∈ visited)) && similar a j)
                                    (seq (S a) m))).
      * rewrite <- app_assoc. reflexivity.
      * reflexivity.
Qed.

(** The scan of the source returns the clusters of several members of the
    seed-based single-link grouping of the indices [0 .. n-1]. *)
Lemma seed_scan_spec (n : nat) : seed_scan similar n = multi (ssl (seq 0 n)).
Proof.
  unfold seed_scan. rewrite (seed_loop n n 0 [] ∅) by reflexivity.
  cbn [app]. f_equal. f_equal.
  rewrite <- (List.filter_true (seq 0 n)) at 2.
  apply filter_ext_In. intros x _. reflexivity.
Qed.

End Scan.

End SeedScanFacts.

(** ** Runs that draw identifiers *)

Lemma forM_inv {A B : Type} (f : A -> M B) (l : list A) : forall k bs k',
  forM l f k = Ok (bs, k') ->
  Forall2 (fun a b => exists k1 k2, f a k1 = Ok (b, k2)) l bs.
Proof.
  induction l as [|a l IH]; intros k bs k' Hrun; cbn [forM] in Hrun.
  - injection Hrun as <- _. constructor.
  - unfold mbind, M_bind in Hrun.
    destruct (f a k) as [[b k1]|e] eqn:Hfa; [|discriminate].
    destruct (forM l f k1) as [[bs' k2]|e] eqn:Hrest; [|discriminate].
    injection Hrun as <- _.
    constructor; [exists k, k1; exact Hfa | eapply IH, Hrest].
Qed.

Lemma Forall2_map_eq {A B C : Type} (R : A -> B -> Prop) (g : A -> C) (h : B -> C)
  (l : list A) (bs : list B) :
  Forall2 R l bs -> (forall a b, R a b -> h b = g a) -> map h bs = map g l.
Proof.
  intros HF HR. induction HF as [|a b l bs Hab _ IH]; [reflexivity|].
  cbn [map]. rewrite (HR a b Hab), IH. reflexivity.
Qed.

(** [[xs[i] for i in indices]] when every index is in range. *)
Lemma omap_lookup_singletons {A : Type} (xs : list A) (indices : list nat) :
  Forall (fun i => i < length xs) indices ->
  map (fun x => [x]) (omap (fun i => xs !! i) indices)
  = map (fun g => omap (fun i => xs !! i) g) (map (fun i => [i]) indices).
Proof.
  induction 1 as [|i indices Hi _ IH]; [reflexivity|].
  cbn [omap list_omap map].
  destruct (lookup_lt_is_Some_2 xs i Hi) as [x Hx]. rewrite Hx.
  cbn [map]. rewrite IH. reflexivity.
Qed.

Lemma omap_lookup_length {A : Type} (xs : list A) (indices : list nat) :
  Forall (fun i => i < length xs) indices ->
  length (omap (fun i => xs !! i) indices) = length indices.
Proof.
  induction 1 as [|i indices Hi _ IH]; [reflexivity|].
  cbn [omap list_omap].
  destruct (lookup_lt_is_Some_2 xs i Hi) as [x Hx]. rewrite Hx.
  cbn [length]. rewrite IH. reflexivity.
Qed.

(** ** entity_fusion.py *)

Module EntityFusionFacts.
Import EntityFusion SeedScanFacts.

Section WithSelf.
Variable similarity_threshold : float.
Variable entity_similarity : EntityDict -> EntityDict -> float.
Variable uuid : nat -> string.
Variable py_float : PyValue -> result float.
Variable _create_fused_entity : list Entity -> M Entity.

Abbreviation similar_at entities :=
  (similar similarity_threshold entity_similarity (map entity_dict entities)).
Abbreviation groups_of entities :=
  (seed_single_link (similar_at entities) (seq 0 (length entities))).

Lemma identify_duplicate_entities_spec (entities : list Entity) :
  identify_duplicate_entities similarity_threshold entity_similarity entities
  = multi (groups_of entities).
Proof.
  unfold identify_duplicate_entities.
  destruct (length entities <=? 1) eqn:Hlen; [|apply seed_scan_spec].
  apply Nat.leb_le in Hlen.
  destruct (length entities) as [|[|n]]; [reflexivity | reflexivity | lia].
Qed.

Lemma cluster_entities_groups (entities : list Entity) k clusters k' :
  cluster_entities similarity_threshold entity_similarity uuid py_float entities k
  = Ok (clusters, k') ->
  map EntityFusion.entities clusters
  = map (group_entities entities)
        (multi (groups_of entities) ++ singles (groups_of entities)).
Proof.
  unfold cluster_entities. rewrite identify_duplicate_entities_spec.
  set (G := groups_of entities).
  unfold mbind at 1, M_bind at 1.
  destruct (forM (multi G) _ k) as [[clusters1 k1]|e] eqn:H1; [|discriminate].
  unfold mbind at 1, M_bind at 1.
  destruct (forM (group_entities entities (unclustered (length entities) (multi G))) _ k1)
    as [[clusters2 k2]|e] eqn:H2; [|discriminate].
  cbn [mret M_ret]. intros [= <- _].
  rewrite !map_app. f_equal.
  - apply forM_inv in H1. eapply Forall2_map_eq; [exact H1|].
    intros g c (ka & kb & Hc). cbn beta in Hc.
    unfold mbind, M_bind, draw_uuid, lift, mret, M_ret in Hc.
    destruct (_select_representative_entity py_float (group_entities entities g));
      [|discriminate].
    injection Hc as <- _. reflexivity.
  - apply forM_inv in H2.
    rewrite (Forall2_map_eq _ (fun e => [e]) EntityFusion.entities _ _ H2).
    2:{ intros e c (ka & kb & Hc). cbn beta in Hc.
        unfold mbind, M_bind, draw_uuid, mret, M_ret in Hc.
        injection Hc as <- _. reflexivity. }
    unfold group_entities, unclustered.
    change (fun i => negb (bool_decide (i ∈ clustered_indices (multi G))))
      with (outside (multi G)).
    unfold G. rewrite unclustered_singles by apply List.seq_NoDup. fold G.
    rewrite omap_lookup_singletons.
    + rewrite singles_singletons. reflexivity.
    + apply Forall_forall. intros i Hi. apply list_elem_of_In in Hi.
      assert (Hin : In i (concat G)).
      { revert Hi. unfold singles. generalize G. intros G0.
        induction G0 as [|g G0 IH]; cbn [List.filter concat]; [tauto|].
        destruct (length g =? 1); cbn [concat]; rewrite !in_app_iff; tauto. }
      apply ssl_members, in_seq in Hin. lia.
Qed.

Lemma fuse_entity_cluster_sources cluster k result k' :
  fuse_entity_cluster _create_fused_entity cluster k = Ok (result, k') ->
  source_entities result = EntityFusion.entities cluster.
Proof.
  unfold fuse_entity_cluster.
  destruct (EntityFusion.entities cluster) as [|e [|e' rest]] eqn:Hes;
    unfold mbind, M_bind, mret, M_ret.
  - destruct (_create_fused_entity [] k) as [[fused k1]|]; [|discriminate].
    intros [= <- _]. reflexivity.
  - intros [= <- _]. reflexivity.
  - destruct (_create_fused_entity (e :: e' :: rest) k) as [[fused k1]|]; [|discriminate].
    intros [= <- _]. reflexivity.
Qed.

Lemma batch_fuse_entities_sources (entities : list Entity) k results k' :
  batch_fuse_entities similarity_threshold entity_similarity uuid py_float
    _create_fused_entity entities k = Ok (results, k') ->
  map source_entities results
  = map (group_entities entities)
        (multi (groups_of entities) ++ singles (groups_of entities)).
Proof.
  unfold batch_fuse_entities, mbind, M_bind.
  destruct (cluster_entities _ _ _ _ entities k) as [[clusters k1]|e] eqn:Hc; [|discriminate].
  intros Hf. apply forM_inv in Hf.
  rewrite <- (cluster_entities_groups _ _ _ _ Hc).
  eapply Forall2_map_eq; [exact Hf|].
  intros c r (ka & kb & Hr). eapply fuse_entity_cluster_sources, Hr.
Qed.

End WithSelf.

End EntityFusionFacts.

(** ** The two clusterings compared *)

Module ClusteringFacts.
Import SimilarityCalculator EntityFusion SeedScanFacts FusionSpec.

Lemma place_ext (f g : nat -> nat -> bool) (j : nat) (clusters : list (list nat)) :
  (forall i j, f i j = g i j) -> place f j clusters = place g j clusters.
Proof.
  intros Hfg. induction clusters as [|[|seed members] rest IH]; cbn [place];
    [reflexivity | rewrite IH; reflexivity |].
  rewrite Hfg, IH. reflexivity.
Qed.

Lemma seed_single_link_ext (f g : nat -> nat -> bool) (items : list nat) :
  (forall i j, f i j = g i j) -> seed_single_link f items = seed_single_link g items.
Proof.
  intros Hfg. unfold seed_single_link. generalize ([] : list (list nat)).
  induction items as [|j items IH]; intros clusters; cbn [fold_left]; [reflexivity|].
  rewrite (place_ext f g j clusters Hfg). apply IH.
Qed.

(** The test of the code is the test of the specification:
    [entity_similarity(entity_dicts[i], entity_dicts[j]) >= threshold]. *)
Lemma similar_reaches_threshold (threshold : float)
  (entity_similarity : EntityDict -> EntityDict -> float) (entities : list Entity)
  (i j : nat) :
  similar threshold entity_similarity (map entity_dict entities) i j
  = reaches_threshold threshold entity_similarity entities i j.
Proof.
  unfold similar, reaches_threshold, fle.
  change (map entity_dict entities) with (entity_dict <$> entities).
  rewrite !list_lookup_fmap.
  destruct (entities !! i), (entities !! j); reflexivity.
Qed.

(** Three entities of which the second is similar to the first and the
    third is not: the third is left out, whatever its similarity to the
    second. *)
Lemma third_compared_with_seed_only (threshold : float)
  (entity_similarity : EntityDict -> EntityDict -> float) (e0 e1 e2 : Entity) :
  (threshold <=? entity_similarity (entity_dict e0) (entity_dict e1))%float = true ->
  (threshold <=? entity_similarity (entity_dict e0) (entity_dict e2))%float = false ->
  identify_duplicate_entities threshold entity_similarity [e0; e1; e2] = [[0; 1]].
Proof.
  intros H01 H02.
  rewrite EntityFusionFacts.identify_duplicate_entities_spec.
  rewrite (seed_single_link_ext _ _ _
             (similar_reaches_threshold threshold entity_similarity [e0; e1; e2])).
  unfold seed_single_link. cbn [length seq fold_left place].
  assert (R01 : reaches_threshold threshold entity_similarity [e0; e1; e2] 0 1 = true)
    by exact H01.
  assert (R02 : reaches_threshold threshold entity_similarity [e0; e1; e2] 0 2 = false)
    by exact H02.
  rewrite R01. cbn [app place]. rewrite R02. reflexivity.
Qed.

(** On the chain ["abcdef"], ["abcde"], ["abcd"] the first two names are
    similar at the default threshold (0.85) and so are the last two (0.82),
    but the first and the last are not (0.70). *)
Lemma default_chain_matrix :
  batch_similarity_matrix default_chain_names "combined"
  = Ok [[1; 0.85439236765323723; 0.70329931618554531];
        [0.85439236765323723; 1; 0.82166321597776093];
        [0.70329931618554531; 0.82166321597776093; 1]]%float.
Proof. vm_compute. reflexivity. Qed.

(** The dedup pass compares ["abcd"] with the seed ["abcdef"] only and
    leaves it alone; the depth-first clustering reaches it through
    ["abcde"] and returns one component. *)
Lemma seed_and_components_differ
  (similarity : EntityDict -> EntityDict -> float) :
  same_view similarity default_chain_entities default_chain_names ->
  identify_duplicate_entities default_similarity_threshold similarity
    default_chain_entities = [[0; 1]]
  /\ forall extra,
       clustering_by_similarity (3 + extra) default_chain_names
         default_similarity_threshold = Ok [[0; 1; 2]].
Proof.
  intros (matrix & Hm & Hview). rewrite default_chain_matrix in Hm. injection Hm as <-.
  split; [|intros extra; vm_compute; reflexivity].
  apply third_compared_with_seed_only.
  - rewrite (Hview 0 1 _ _ eq_refl eq_refl). vm_compute. reflexivity.
  - rewrite (Hview 0 2 _ _ eq_refl eq_refl). vm_compute. reflexivity.
Qed.

Lemma name_similarity_same_view :
  same_view name_similarity default_chain_entities default_chain_names.
Proof.
  eexists. split; [exact default_chain_matrix|].
  intros i j ei ej Hi Hj.
  destruct i as [|[|[|i]]]; [| | |discriminate Hi];
    destruct j as [|[|[|j]]]; try discriminate Hj;
    injection Hi as <-; injection Hj as <-; vm_compute; reflexivity.
Qed.

Section WithSelf.
Variable similarity_threshold : float.
Variable entity_similarity : EntityDict -> EntityDict -> float.
Variable uuid : nat -> string.
Variable py_float : PyValue -> result float.
Variable _create_fused_entity : list Entity -> M Entity.


End WithSelf.


End ClusteringFacts.

(** ** Fusion of a cluster of one *)

Lemma Forall2_Forall_r {A B : Type} (R : A -> B -> Prop) (P : A -> Prop) (Q : B -> Prop)
  (l : list A) (bs : list B) :
  Forall2 R l bs -> Forall P l -> (forall a b, P a -> R a b -> Q b) -> Forall Q bs.
Proof.
  intros HF HP HQ. induction HF as [|a b l bs Hab _ IH]; constructor.
  - eapply HQ; [|exact Hab]. apply Forall_cons in HP. tauto.
  - apply IH. apply Forall_cons in HP. tauto.
Qed.

Module SingletonFacts.
Import SeedScanFacts FusionSpec.

Section WithSelf.
Variable similarity_threshold : float.
Variable fusion_rules : RelationFusion.FusionRules.
Variable context_similarity : PyValue -> PyValue -> float.
Variable uuid : nat -> string.
Variable merge_properties :
  list (pydict string PyValue) -> result (pydict string PyValue).
Variable _create_fused_entity : list Entity -> M Entity.

Abbreviation groups_of relations :=
  (seed_single_link
     (RelationFusion.duplicate_at similarity_threshold fusion_rules context_similarity
        relations)
     (seq 0 (length relations))).

Lemma identify_duplicate_relations_spec (relations : list Relation) :
  RelationFusion.identify_duplicate_relations similarity_threshold fusion_rules
    context_similarity relations
  = multi (groups_of relations).
Proof.
  unfold RelationFusion.identify_duplicate_relations.
  destruct (length relations <=? 1) eqn:Hlen; [|apply seed_scan_spec].
  apply Nat.leb_le in Hlen.
  destruct (length relations) as [|[|n]]; [reflexivity | reflexivity | lia].
Qed.

(** The groups of the scan have at least two members, all of them indices
    of the list. *)
Lemma multi_groups_large (relations : list Relation) :
  Forall (fun g => 1 < length g /\ Forall (fun i => i < length relations) g)
         (multi (groups_of relations)).
Proof.
  apply Forall_forall. intros g Hg. apply list_elem_of_In in Hg.
  unfold multi in Hg. apply filter_In in Hg as [Hg Hlen].
  apply Nat.ltb_lt in Hlen. split; [exact Hlen|].
  apply Forall_forall. intros i Hi. apply list_elem_of_In in Hi.
  assert (Hin : In i (concat (groups_of relations))).
  { apply in_concat. exists g. split; assumption. }
  apply ssl_members, in_seq in Hin. lia.
Qed.

(** A cluster of one member built by [cluster_relations] has confidence
    1.0: the clusters of the scan have several members, and the others are
    built with [confidence=1.0]. *)
Lemma cluster_relations_singletons (relations : list Relation) k clusters k' :
  RelationFusion.cluster_relations similarity_threshold fusion_rules context_similarity
    uuid relations k = Ok (clusters, k') ->
  Forall (fun c => length (RelationFusion.relations c) = 1 ->
                   RelationFusion.cluster_confidence c = 1%float)
         clusters.
Proof.
  unfold RelationFusion.cluster_relations. rewrite identify_duplicate_relations_spec.
  set (G := groups_of relations).
  unfold mbind at 1, M_bind at 1.
  destruct (forM (multi G) _ k) as [[clusters1 k1]|e] eqn:H1; [|discriminate].
  unfold mbind at 1, M_bind at 1.
  destruct (forM (RelationFusion.group_relations relations _) _ k1)
    as [[clusters2 k2]|e] eqn:H2; [|discriminate].
  cbn [mret M_ret]. intros [= <- _].
  apply Forall_app. split.
  - apply forM_inv in H1.
    eapply Forall2_Forall_r; [exact H1 | apply multi_groups_large |].
    intros g c [Hlen Hidx] (ka & kb & Hc) Hone. cbn beta in Hc.
    unfold mbind, M_bind, draw_uuid, lift, mret, M_ret in Hc.
    destruct (RelationFusion._calculate_cluster_confidence _ _ _); [|discriminate].
    destruct (RelationFusion._select_representative_relation _); [|discriminate].
    injection Hc as <- _. cbn [RelationFusion.relations] in Hone.
    unfold RelationFusion.group_relations in Hone.
    rewrite omap_lookup_length in Hone by exact Hidx. lia.
  - apply forM_inv in H2.
    eapply Forall2_Forall_r with (P := fun _ => True);
      [exact H2 | apply Forall_forall; intros; exact I |].
    intros r c _ (ka & kb & Hc) _. cbn beta in Hc.
    unfold mbind, M_bind, draw_uuid, mret, M_ret in Hc.
    injection Hc as <- _. reflexivity.
Qed.

Lemma fuse_relation_cluster_single cluster k res k' r :
  RelationFusion.fuse_relation_cluster fusion_rules uuid merge_properties cluster k
  = Ok (res, k') ->
  RelationFusion.source_relations res = [r] ->
  RelationFusion.relations cluster = [r]
  /\ RelationFusion.fused_relation res = r
  /\ RelationFusion.result_confidence res = RelationFusion.cluster_confidence cluster.
Proof.
  unfold RelationFusion.fuse_relation_cluster.
  destruct (RelationFusion.relations cluster) as [|r0 [|r1 rest]] eqn:Hrs;
    unfold mbind, M_bind, mret, M_ret, lift.
  - destruct (RelationFusion._create_fused_relation _ _ _ [] k) as [[fused k1]|];
      [|discriminate].
    destruct (RelationFusion._calculate_fusion_confidence _ []); [|discriminate].
    intros [= <- _]. discriminate.
  - intros [= <- _]. cbn. intros [= ->]. auto.
  - destruct (RelationFusion._create_fused_relation _ _ _ (r0 :: r1 :: rest) k)
      as [[fused k1]|]; [|discriminate].
    destruct (RelationFusion._calculate_fusion_confidence _ (r0 :: r1 :: rest));
      [|discriminate].
    intros [= <- _]. discriminate.
Qed.

(** C4, as amended.  Fusing a cluster of one returns its member unchanged:
    [fuse_entity_cluster] with confidence 1.0, [fuse_relation_cluster] with
    the confidence the cluster carries, which is 1.0 for every cluster of one
    that [cluster_relations] builds, hence for every result of
    [batch_fuse_relations] that has a single source. *)
Theorem singleton_fusion_is_identity :
  (forall cid entity representative conf method k,
      EntityFusion.fuse_entity_cluster _create_fused_entity
        (EntityFusion.mkEntityCluster cid [entity] representative conf method) k
      = Ok (EntityFusion.mkFusionResult entity [entity] 1
              [("method", VStr "no_fusion_needed")], k))
  /\ (forall cid relation representative conf method k,
        RelationFusion.fuse_relation_cluster fusion_rules uuid merge_properties
          (RelationFusion.mkRelationCluster cid [relation] representative conf method) k
        = Ok (RelationFusion.mkRelationFusionResult relation [relation] conf
                [("method", VStr "no_fusion_needed")], k))
  /\ (forall relations k clusters k',
        RelationFusion.cluster_relations similarity_threshold fusion_rules
          context_similarity uuid relations k = Ok (clusters, k') ->
        Forall (fun c => length (RelationFusion.relations c) = 1 ->
                         RelationFusion.cluster_confidence c = 1%float)
               clusters)
  /\ (forall relations k results k',
        RelationFusion.batch_fuse_relations similarity_threshold fusion_rules
          context_similarity uuid merge_properties relations k = Ok (results, k') ->
        Forall (fun res => forall r,
                    RelationFusion.source_relations res = [r] ->
                    RelationFusion.fused_relation res = r
                    /\ RelationFusion.result_confidence res = 1%float)
               results).
Proof.
  split; [reflexivity|]. split; [reflexivity|].
  split; [intros relations k clusters k'; apply cluster_relations_singletons|].
  intros relations k results k'.
  unfold RelationFusion.batch_fuse_relations, mbind, M_bind.
  destruct (RelationFusion.cluster_relations _ _ _ _ relations k)
    as [[clusters k1]|e] eqn:Hc; [|discriminate].
  intros Hf. apply forM_inv in Hf.
  eapply Forall2_Forall_r; [exact Hf | exact (cluster_relations_singletons _ _ _ _ Hc) |].
  intros c res Hconf (ka & kb & Hres) r Hsrc.
  destruct (fuse_relation_cluster_single _ _ _ _ _ Hres Hsrc) as (Hrs & Hfused & Hrc).
  split; [exact Hfused|]. rewrite Hrc. apply Hconf. rewrite Hrs. reflexivity.
Qed.

End WithSelf.

(** C4, as stated, fails: a cluster of one relation that carries the
    dataclass default confidence 0.0 is fused with confidence 0.0, not 1.0. *)
Lemma relation_singleton_confidence_not_one :
  RelationFusion.fuse_relation_cluster RelationFusion._build_fusion_rules
    (fun _ => "id") (fun _ => Ok [])
    (RelationFusion.mkRelationCluster "c1" [lone_relation] None 0 "") 0
  = Ok (RelationFusion.mkRelationFusionResult lone_relation [lone_relation] 0
          [("method", VStr "no_fusion_needed")], 0)
  /\ (0 =? 1)%float = false.
Proof. split; reflexivity. Qed.

(** The theorem at a list of one relation: the batch returns it with
    confidence 1.0. *)
Lemma singleton_fusion_witness :
  exists res,
    RelationFusion.batch_fuse_relations 0.8 RelationFusion._build_fusion_rules
      (fun _ _ => 0%float) (fun _ => "id") (fun _ => Ok []) [lone_relation] 0
    = Ok ([res], 1)
    /\ RelationFusion.fused_relation res = lone_relation
    /\ RelationFusion.result_confidence res = 1%float.
Proof.
  eexists. split; [vm_compute; reflexivity|].
  pose proof (singleton_fusion_is_identity 0.8 RelationFusion._build_fusion_rules
                (fun _ _ => 0%float) (fun _ => "id") (fun _ => Ok [])
                (fun es k => Raise ValueError))
    as (_ & _ & _ & Hbatch).
  specialize (Hbatch [lone_relation] 0 _ 1 eq_refl).
  apply Forall_cons in Hbatch as [Hres _].
  exact (Hres lone_relation eq_refl).
Defined.

End SingletonFacts.

(** ** knowledge_graph.py: the indices *)

Module IndexFacts.
Import KnowledgeGraph StoreSpec.

Lemma index_get_add index key x key' :
  index_get (index_add index key x) key'
  = if decide (key = key') then {[ x ]} ∪ index_get index key else index_get index key'.
Proof.
  unfold index_get, index_add. rewrite lookup_insert.
  destruct (decide (key = key')); reflexivity.
Qed.

Lemma name_index_fold (aliases : list string) (id : string) :
  forall (index : gmap string string) name,
    fold_left (fun index alias => <[ alias := id ]> index) aliases index !! name
    = if bool_decide (name ∈ aliases) then Some id else index !! name.
Proof.
  induction aliases as [|a aliases IH]; intros index name; cbn [fold_left].
  - rewrite bool_decide_eq_false_2 by (apply not_elem_of_nil). reflexivity.
  - rewrite IH. destruct (bool_decide (name ∈ aliases)) eqn:Hin.
    + apply bool_decide_eq_true in Hin.
      rewrite bool_decide_eq_true_2 by (right; exact Hin). reflexivity.
    + apply bool_decide_eq_false in Hin. rewrite lookup_insert.
      destruct (decide (a = name)) as [->|Hne].
      * rewrite bool_decide_eq_true_2 by left. reflexivity.
      * rewrite bool_decide_eq_false_2; [reflexivity|].
        rewrite elem_of_cons. intros [Heq|Hin']; [congruence | tauto].
Qed.

Lemma name_index_add_entity self entity name :
  entity_name_index (add_entity self entity) !! name
  = if bool_decide (name ∈ names_of entity) then Some (entity_id entity)
    else entity_name_index self !! name.
Proof.
  cbn [add_entity entity_name_index]. rewrite name_index_fold. unfold names_of.
  destruct (bool_decide (name ∈ entity_aliases entity)) eqn:Hin.
  - apply bool_decide_eq_true in Hin.
    rewrite bool_decide_eq_true_2 by (right; exact Hin). reflexivity.
  - apply bool_decide_eq_false in Hin. rewrite lookup_insert.
    destruct (decide (entity_name entity = name)) as [Heq|Hne].
    + rewrite bool_decide_eq_true_2 by (rewrite Heq; left). reflexivity.
    + rewrite bool_decide_eq_false_2; [reflexivity|].
      rewrite elem_of_cons. intros [Heq|Hin']; [congruence | tauto].
Qed.

(** *** The sound half is kept by every operation *)

Lemma add_entity_sound self entity : index_sound self -> index_sound (add_entity self entity).
Proof.
  intros (H1 & H2 & H3 & H4). unfold index_sound.
  split; [|split; [|split]].
  - intros id e. cbn [add_entity entities entity_type_index].
    rewrite dict_get_set, index_get_add.
    destruct (decide (entity_id entity = id)) as [<-|Hne].
    + intros [= <-]. destruct (decide (entity_type entity = entity_type entity)); [|congruence].
      apply elem_of_union. left. apply elem_of_singleton. reflexivity.
    + intros Hget. apply H1 in Hget.
      destruct (decide (entity_type entity = entity_type e)) as [Heq|_]; [|exact Hget].
      apply elem_of_union. right. rewrite Heq. exact Hget.
  - intros ty id. cbn [add_entity entities entity_type_index].
    rewrite index_get_add, dict_mem_set.
    destruct (decide (entity_id entity = id)) as [|Hne]; [reflexivity|].
    destruct (decide (entity_type entity = ty)) as [<-|_]; [|apply H2].
    rewrite elem_of_union, elem_of_singleton. intros [Heq|Hin]; [congruence|].
    eapply H2, Hin.
  - intros name id. rewrite name_index_add_entity.
    cbn [add_entity entities]. rewrite dict_mem_set.
    destruct (bool_decide (name ∈ names_of entity)).
    + intros [= <-]. destruct (decide (entity_id entity = entity_id entity)); congruence.
    + intros Hget. destruct (decide (entity_id entity = id)); [reflexivity|].
      eapply H3, Hget.
  - exact H4.
Qed.

Lemma add_relation_sound self relation :
  index_sound self -> index_sound (fst (add_relation self relation)).
Proof.
  intros (H1 & H2 & H3 & H4). unfold add_relation. cbn [entities].
  destruct (negb _ || negb _); cbn [fst]; unfold index_sound;
    cbn [entities relations entity_type_index relation_type_index entity_name_index];
    (split; [exact H1|]; split; [exact H2|]; split; [exact H3|]).
  - intros ty id Hin. rewrite dict_mem_set.
    destruct (decide (relation_id relation = id)); [reflexivity|]. eapply H4, Hin.
  - intros ty id. rewrite index_get_add, dict_mem_set.
    destruct (decide (relation_id relation = id)) as [|Hne]; [reflexivity|].
    destruct (decide (relation_type relation = ty)) as [<-|_]; [|apply H4].
    rewrite elem_of_union, elem_of_singleton. intros [Heq|Hin]; [congruence|].
    eapply H4, Hin.
Qed.

Lemma index_get_empty key : index_get ∅ key = ∅.
Proof. unfold index_get. rewrite lookup_empty. reflexivity. Qed.

Lemma clear_sound self : index_sound (clear self).
Proof.
  unfold clear, init, index_sound.
  cbn [entities relations entity_type_index relation_type_index entity_name_index].
  split; [|split; [|split]].
  - intros id e Hget. discriminate.
  - intros ty id. rewrite index_get_empty. intros Hin. apply elem_of_empty in Hin. tauto.
  - intros name id. rewrite lookup_empty. discriminate.
  - intros ty id. rewrite index_get_empty. intros Hin. apply elem_of_empty in Hin. tauto.
Qed.

Section Merge.
Variable batch_fuse_entities : list Entity -> M (list EntityFusion.FusionResult).
Variable batch_fuse_relations :
  list Relation -> M (list RelationFusion.RelationFusionResult).

Lemma clear_entities_sound self : index_sound self -> index_sound (clear_entities self).
Proof.
  intros (_ & _ & _ & H4). unfold clear_entities, index_sound.
  cbn [entities relations entity_type_index relation_type_index entity_name_index].
  split; [|split; [|split]].
  - intros id e Hget. discriminate.
  - intros ty id. rewrite index_get_empty. intros Hin. apply elem_of_empty in Hin. tauto.
  - intros name id. rewrite lookup_empty. discriminate.
  - exact H4.
Qed.

Lemma add_fused_sound results : forall self mapping,
  index_sound self -> index_sound (fst (fold_left add_fused results (self, mapping))).
Proof.
  induction results as [|r results IH]; intros self mapping Hs; [exact Hs|].
  cbn [fold_left add_fused]. apply IH, add_entity_sound, Hs.
Qed.

Lemma reset_relations_sound self : index_sound self -> index_sound (reset_relations self).
Proof.
  intros (H1 & H2 & H3 & _). unfold reset_relations, index_sound.
  cbn [entities relations entity_type_index relation_type_index entity_name_index].
  split; [exact H1|]. split; [exact H2|]. split; [exact H3|].
  intros ty id. rewrite index_get_empty. intros Hin. apply elem_of_empty in Hin. tauto.
Qed.

Lemma add_all_relations_sound rels : forall self,
  index_sound self -> index_sound (fst (add_all_relations self rels)).
Proof.
  induction rels as [|r rels IH]; intros self Hs; [exact Hs|].
  cbn [add_all_relations].
  pose proof (add_relation_sound self r Hs) as Hstep.
  destruct (add_relation self r) as [self' [[]|e]]; cbn [fst] in *.
  - apply IH, Hstep.
  - exact Hstep.
Qed.

Lemma merge_sound self other_kg k :
  index_sound self ->
  index_sound
    (fst (merge_knowledge_graph batch_fuse_entities batch_fuse_relations self other_kg k)).
Proof.
  intros Hs. unfold merge_knowledge_graph.
  destruct (batch_fuse_entities _ k) as [[entity_fusion_results k1]|e]; [|exact Hs].
  destruct (fold_left add_fused entity_fusion_results (clear_entities self, []))
    as [self1 mapping] eqn:Hfold.
  assert (Hfused : index_sound self1).
  { change self1 with (fst (self1, mapping)). rewrite <- Hfold.
    apply add_fused_sound, clear_entities_sound, Hs. }
  destruct (batch_fuse_relations _ k1) as [[relation_fusion_results k2]|e];
    [|exact Hfused].
  apply add_all_relations_sound, reset_relations_sound, Hfused.
Qed.

End Merge.

Lemma run_sound self op : index_sound self -> index_sound (run self op).
Proof.
  intros Hs. destruct op as [entity|relation|fe fr other_kg k|]; cbn [run].
  - apply add_entity_sound, Hs.
  - apply add_relation_sound, Hs.
  - apply merge_sound, Hs.
  - apply clear_sound.
Qed.

(** *** The bijection is kept by operations that add fresh ids and names *)

Lemma add_entity_exact self entity :
  entity_type_index_exact self /\ entity_name_index_exact self ->
  entity_fresh self entity ->
  entity_type_index_exact (add_entity self entity)
  /\ entity_name_index_exact (add_entity self entity).
Proof.
  unfold entity_type_index_exact, entity_name_index_exact.
  intros [HE HN] [Hid Hnames]. split.
  - intros ty id. cbn [add_entity entities entity_type_index].
    rewrite index_get_add. setoid_rewrite dict_get_set.
    destruct (decide (entity_id entity = id)) as [<-|Hne].
    + destruct (decide (entity_type entity = ty)) as [<-|Hty].
      * split; [intros _; eauto|]. intros _. apply elem_of_union. left.
        apply elem_of_singleton. reflexivity.
      * rewrite HE. split.
        -- intros (e & Hget & _). unfold dict_mem in Hid. rewrite Hget in Hid. discriminate.
        -- intros (e & [= <-] & Hty'). congruence.
    + destruct (decide (entity_type entity = ty)) as [<-|Hty]; [|apply HE].
      rewrite elem_of_union, elem_of_singleton, HE. intuition congruence.
  - intros name id. rewrite name_index_add_entity.
    cbn [add_entity entities]. setoid_rewrite dict_get_set.
    destruct (bool_decide (name ∈ names_of entity)) eqn:Hin.
    + apply bool_decide_eq_true in Hin. split.
      * intros [= <-]. exists entity.
        destruct (decide (entity_id entity = entity_id entity)); [auto | congruence].
      * intros (e & Hget & Hname).
        destruct (decide (entity_id entity = id)) as [<-|Hne]; [reflexivity|].
        exfalso. rewrite Forall_forall in Hnames. specialize (Hnames name Hin).
        assert (Hold : entity_name_index self !! name = Some id) by (apply HN; eauto).
        congruence.
    + apply bool_decide_eq_false in Hin. rewrite HN.
      destruct (decide (entity_id entity = id)) as [<-|Hne]; [|reflexivity].
      split.
      * intros (e & Hget & _). unfold dict_mem in Hid. rewrite Hget in Hid. discriminate.
      * intros (e & [= <-] & Hname). tauto.
Qed.

Lemma add_relation_exact self relation :
  relation_type_index_exact self ->
  relation_fresh self relation ->
  snd (add_relation self relation) = Ok tt
  /\ relation_type_index_exact (fst (add_relation self relation)).
Proof.
  unfold relation_type_index_exact. intros HR [Hends Hid].
  split; [apply AddRelationFacts.add_relation_accepted, Hends|].
  unfold endpoints_present in Hends.
  unfold add_relation. cbn [entities].
  replace (negb (dict_mem (entities self) (head_entity_id relation))
           || negb (dict_mem (entities self) (tail_entity_id relation)))
    with false by (rewrite <- negb_andb, Hends; reflexivity).
  cbn [fst]. intros ty id. cbn [relations relation_type_index].
  rewrite index_get_add. setoid_rewrite dict_get_set.
  destruct (decide (relation_id relation = id)) as [<-|Hne].
  - destruct (decide (relation_type relation = ty)) as [<-|Hty].
    + split; [intros _; eauto|]. intros _. apply elem_of_union. left.
      apply elem_of_singleton. reflexivity.
    + rewrite HR. split.
      * intros (r & Hget & _). unfold dict_mem in Hid. rewrite Hget in Hid. discriminate.
      * intros (r & [= <-] & Hty'). congruence.
  - destruct (decide (relation_type relation = ty)) as [<-|Hty]; [|apply HR].
    rewrite elem_of_union, elem_of_singleton, HR. intuition congruence.
Qed.

Lemma add_relation_keeps_entities self relation :
  entities (fst (add_relation self relation)) = entities self
  /\ entity_type_index (fst (add_relation self relation)) = entity_type_index self
  /\ entity_name_index (fst (add_relation self relation)) = entity_name_index self.
Proof. unfold add_relation. destruct (negb _ || negb _); repeat split. Qed.

Lemma empty_entities_exact self :
  entities self = [] -> entity_type_index self = ∅ -> entity_name_index self = ∅ ->
  entity_type_index_exact self /\ entity_name_index_exact self.
Proof.
  intros He Ht Hn. split.
  - intros ty id. rewrite Ht, He, index_get_empty. split.
    + intros Hin. apply elem_of_empty in Hin. tauto.
    + intros (e & Hget & _). discriminate.
  - intros name id. rewrite Hn, He, lookup_empty. split; [discriminate|].
    intros (e & Hget & _). discriminate.
Qed.

Lemma empty_relations_exact self :
  relations self = [] -> relation_type_index self = ∅ -> relation_type_index_exact self.
Proof.
  intros Hr Ht ty id. rewrite Ht, Hr, index_get_empty. split.
  - intros Hin. apply elem_of_empty in Hin. tauto.
  - intros (r & Hget & _). discriminate.
Qed.

Lemma add_fused_entities results : forall self mapping,
  fst (fold_left add_fused results (self, mapping))
  = fold_left add_entity (map EntityFusion.fused_entity results) self.
Proof.
  induction results as [|r results IH]; intros self mapping; [reflexivity|].
  cbn [fold_left add_fused map]. apply IH.
Qed.

Lemma add_entities_exact es : forall self,
  entity_type_index_exact self /\ entity_name_index_exact self ->
  entities_fresh self es ->
  entity_type_index_exact (fold_left add_entity es self)
  /\ entity_name_index_exact (fold_left add_entity es self).
Proof.
  induction es as [|e es IH]; intros self Hex Hfresh; [exact Hex|].
  destruct Hfresh as [He Hrest]. cbn [fold_left].
  apply IH; [apply add_entity_exact; assumption | exact Hrest].
Qed.

Lemma add_all_relations_exact rels : forall self,
  entity_type_index_exact self /\ entity_name_index_exact self ->
  relation_type_index_exact self ->
  relations_fresh self rels ->
  snd (add_all_relations self rels) = Ok tt
  /\ index_exact (fst (add_all_relations self rels)).
Proof.
  induction rels as [|r rels IH]; intros self [HE HN] HR Hfresh.
  - split; [reflexivity|]. exact (conj HE (conj HN HR)).
  - destruct Hfresh as [Hr Hrest]. cbn [add_all_relations].
    destruct (add_relation_exact self r HR Hr) as [Hok HR'].
    destruct (add_relation_keeps_entities self r) as (Hents & Hti & Hni).
    destruct (add_relation self r) as [self' res]. cbn [fst snd] in *. subst res.
    apply IH; [|exact HR'|exact Hrest]. split.
    + intros ty id. rewrite Hti, Hents. apply HE.
    + intros name id. rewrite Hni, Hents. apply HN.
Qed.

Lemma merge_exact fe fr self other_kg k :
  merge_fresh fe fr self other_kg k ->
  snd (merge_knowledge_graph fe fr self other_kg k) = Ok tt
  /\ index_exact (fst (merge_knowledge_graph fe fr self other_kg k)).
Proof.
  intros (eres & k1 & rres & k2 & Hfe & Hefresh & Hfr & Hrfresh).
  unfold merge_knowledge_graph. rewrite Hfe.
  destruct (fold_left add_fused eres (clear_entities self, [])) as [self1 mapping]
    eqn:Hfold.
  assert (Hfst : self1
                 = fold_left add_entity (map EntityFusion.fused_entity eres)
                             (clear_entities self)).
  { change self1 with (fst (self1, mapping)). rewrite <- Hfold.
    apply add_fused_entities. }
  cbn [fst snd] in Hfr, Hrfresh. rewrite Hfr.
  assert (Hex : entity_type_index_exact self1 /\ entity_name_index_exact self1).
  { rewrite Hfst. apply add_entities_exact; [|exact Hefresh].
    apply empty_entities_exact; reflexivity. }
  apply add_all_relations_exact; [| |exact Hrfresh].
  - destruct Hex as [HE HN]. split; [exact HE | exact HN].
  - apply empty_relations_exact; reflexivity.
Qed.

Lemma clear_exact self : index_exact (clear self).
Proof.
  destruct (empty_entities_exact init eq_refl eq_refl eq_refl) as [HE HN].
  exact (conj HE (conj HN (empty_relations_exact init eq_refl eq_refl))).
Qed.

(** The bijection survives an operation that overwrites nothing. *)
Lemma fresh_run_exact (self : KnowledgeGraph) (op : Op) :
  index_exact self -> fresh self op -> index_exact (run self op).
Proof.
  intros (HE & HN & HR) Hfresh.
  destruct op as [entity|relation|fe fr other_kg k|]; cbn [run fresh] in *.
  - destruct (add_entity_exact self entity (conj HE HN) Hfresh) as [HE' HN'].
    exact (conj HE' (conj HN' HR)).
  - destruct (add_relation_exact self relation HR Hfresh) as [_ HR'].
    destruct (add_relation_keeps_entities self relation) as (Hents & Hti & Hni).
    split; [|split; [|exact HR']].
    + intros ty id. rewrite Hti, Hents. apply HE.
    + intros name id. rewrite Hni, Hents. apply HN.
  - apply merge_exact, Hfresh.
  - apply clear_exact.
Qed.

Lemma built_fresh_exact (self : KnowledgeGraph) : built_fresh self -> index_exact self.
Proof.
  induction 1 as [|self op _ IH Hfresh]; [apply (clear_exact init)|].
  apply fresh_run_exact; assumption.
Qed.

Lemma founder_and_company_built : built_fresh founder_and_company.
Proof.
  unfold founder_and_company.
  apply built_fresh_run; [apply built_fresh_run; [apply built_fresh_init|]|];
    (split; [reflexivity | repeat constructor]).
Qed.

(** C2, as amended.  Every mutating operation keeps the indices sound:
    each live entity is listed under its type, and every id in the
    type->entity-ids index, the name->entity-id index and the
    type->relation-ids index is live.  The bijection with the live maps is
    kept, not established, by the operations that overwrite nothing: if it
    holds before [clear], before [add_entity] of an entity whose id, name and
    aliases are not yet in the store, before an accepted [add_relation] of a
    relation whose id is not yet in the store, or before a
    [merge_knowledge_graph] that adds back fresh entities and relations, it
    holds after; so it holds on every store built from the empty one by such
    operations alone.  And [add_entity] always maps the name and the aliases
    of its argument to its id. *)
Theorem index_invariants (self : KnowledgeGraph) (op : Op) :
  (index_sound self -> index_sound (run self op))
  /\ (index_exact self -> fresh self op -> index_exact (run self op))
  /\ (built_fresh self -> index_exact self)
  /\ (forall entity name,
        name ∈ names_of entity ->
        entity_name_index (add_entity self entity) !! name = Some (entity_id entity)).
Proof.
  split; [apply run_sound|]. split; [apply fresh_run_exact|].
  split; [apply built_fresh_exact|].
  intros entity name Hin. rewrite name_index_add_entity.
  rewrite bool_decide_eq_true_2 by exact Hin. reflexivity.
Qed.

(** C2, as stated, fails: after [add_entity] has overwritten entity [e1]
    with a new name and type, the id is still listed under the old type and
    the old name still resolves to it.  The bijection does not come back: a
    later [add_entity] of an entity that is new under its id and its names
    leaves the stale entries where they are. *)
Lemma overwrite_leaves_stale_entries :
  dict_get (entities overwritten) "e1" = Some tencent_renamed
  /\ bool_decide ("e1" ∈ index_get (entity_type_index overwritten) "Company") = true
  /\ entity_name_index overwritten !! "Tencent" = Some "e1"
  /\ ~ index_exact overwritten
  /\ fresh overwritten (OpAddEntity newcomer)
  /\ ~ index_exact (run overwritten (OpAddEntity newcomer)).
Proof.
  split; [reflexivity|]. split; [vm_compute; reflexivity|].
  split; [vm_compute; reflexivity|].
  split; [|split].
  - intros (HE & _ & _).
    assert (Hin : "e1" ∈ index_get (entity_type_index overwritten) "Company")
      by (apply (proj1 (bool_decide_eq_true _)); vm_compute; reflexivity).
    apply HE in Hin. destruct Hin as (e & Hget & Hty).
    assert (Hlive : dict_get (entities overwritten) "e1" = Some tencent_renamed)
      by reflexivity.
    rewrite Hlive in Hget. injection Hget as <-. discriminate.
  - split; [reflexivity | repeat constructor].
  - intros (_ & HN & _).
    assert (Hold : entity_name_index (run overwritten (OpAddEntity newcomer)) !! "Tencent"
                   = Some "e1") by (vm_compute; reflexivity).
    apply HN in Hold. destruct Hold as (e & Hget & Hname).
    assert (Hlive : dict_get (entities (run overwritten (OpAddEntity newcomer))) "e1"
                    = Some tencent_renamed) by reflexivity.
    rewrite Hlive in Hget. injection Hget as <-.
    unfold names_of, tencent_renamed in Hname. cbn [entity_name entity_aliases] in Hname.
    apply list_elem_of_singleton in Hname. discriminate.
Qed.

(** The theorem at a store of two entities and a first relation between
    them: the store was built without overwriting, the relation is accepted
    and new, and the indices are in bijection before and after. *)
Lemma index_invariants_witness :
  index_sound founder_and_company
  /\ fresh founder_and_company (OpAddRelation founded)
  /\ index_exact founder_and_company
  /\ index_sound (run founder_and_company (OpAddRelation founded))
  /\ index_exact (run founder_and_company (OpAddRelation founded)).
Proof.
  assert (Hsound0 : index_sound founder_and_company).
  { unfold founder_and_company. apply run_sound, run_sound. apply (clear_sound init). }
  assert (Hfresh : fresh founder_and_company (OpAddRelation founded)).
  { split; reflexivity. }
  destruct (index_invariants founder_and_company (OpAddRelation founded))
    as (Hsound & Hexact & Hbuilt & _).
  split; [exact Hsound0|]. split; [exact Hfresh|].
  split; [exact (Hbuilt founder_and_company_built)|].
  split; [exact (Hsound Hsound0)|].
  exact (Hexact (Hbuilt founder_and_company_built) Hfresh).
Defined.

End IndexFacts.

(** ** similarity_calculator.py: clustering by depth-first search *)

Module DfsFacts.
Import SimilarityCalculator ClusteringSpec.

Lemma bounded_size (n : nat) (V : gset nat) : bounded n V -> size V <= n.
Proof.
  intros HV. rewrite <- (size_set_seq (C := gset nat) 0 n).
  apply subseteq_size. intros x Hx. apply elem_of_set_seq. specialize (HV x Hx). lia.
Qed.

Lemma linked_after_mono adj members : forall seen seen',
  (forall y, y ∈ seen -> y ∈ seen') ->
  linked_after adj seen members -> linked_after adj seen' members.
Proof.
  induction members as [|x rest IH]; intros seen seen' Hsub; cbn [linked_after]; [tauto|].
  intros [(y & Hy & Hadj) Hrest]. split.
  - exists y. auto.
  - eapply IH; [|exact Hrest]. intros z. rewrite !elem_of_app. intros [Hz|Hz]; auto.
Qed.

Lemma linked_after_app adj l1 : forall seen l2,
  linked_after adj seen (l1 ++ l2)
  <-> linked_after adj seen l1 /\ linked_after adj (seen ++ l1) l2.
Proof.
  induction l1 as [|x l1 IH]; intros seen l2; cbn [app linked_after].
  - rewrite app_nil_r. tauto.
  - rewrite IH, <- app_assoc. cbn [app]. tauto.
Qed.

Section Dfs.
Variable matrix : list (list float).
Variable threshold : float.
Variable n : nat.

Abbreviation adj := (adjacent matrix threshold).

(** One turn of [for neighbor in range(n)] inside [dfs(node, cluster)]. *)
Abbreviation visit depth node :=
  (fun (acc : result (gset nat * list nat)) (neighbor : nat) =>
     st' ← acc;
     if negb (bool_decide (neighbor ∈ fst st'))
        && fle threshold (matrix_get matrix node neighbor)
     then dfs depth matrix threshold n neighbor st'
     else Ok st').

Abbreviation W node V acc := ({[ node ]} ∪ V ∪ list_to_set acc : gset nat).

(** Once a call has raised, the loop around it is left. *)
Lemma visit_raise (depth node : nat) (l : list nat) (e : PyExn) :
  fold_left (visit depth node) l (Raise e) = Raise e.
Proof. induction l as [|y l IH]; cbn [fold_left mbind result_bind]; [reflexivity | exact IH]. Qed.

Lemma dfs_loop (f node : nat) (V : gset nat) (c : list nat) :
  (forall node V c, node < n -> node ∉ V -> bounded n V -> n <= f + size V ->
                    dfs_post matrix threshold n f node V c) ->
  node < n -> node ∉ V -> bounded n V -> n <= S f + size V ->
  forall l acc,
    Forall (fun y => y < n) l ->
    NoDup (node :: acc) ->
    Forall (fun x => (x ∉ V) /\ x < n) acc ->
    linked_after adj [node] acc ->
    exists more,
      fold_left (visit f node) l (Ok (W node V acc, c ++ node :: acc))
      = Ok (W node V (acc ++ more), c ++ node :: acc ++ more)
      /\ NoDup (node :: acc ++ more)
      /\ Forall (fun x => (x ∉ V) /\ x < n) (acc ++ more)
      /\ linked_after adj [node] (acc ++ more)
      /\ (forall x y, x ∈ more -> y < n -> adj x y = true -> y ∈ W node V (acc ++ more))
      /\ (forall y, y ∈ l -> adj node y = true -> y ∈ W node V (acc ++ more)).
Proof.
  intros IHf Hnode HnV HV Hdepth.
  induction l as [|y l IH]; intros acc Hl Hnd Hacc Hlink.
  - exists []. rewrite !app_nil_r. cbn [fold_left]. repeat split; try assumption.
    + intros x y Hx. inversion Hx.
    + intros y Hy. inversion Hy.
  - apply Forall_cons in Hl as [Hy Hl]. cbn [fold_left mbind result_bind fst].
    destruct (negb (bool_decide (y ∈ W node V acc))
              && fle threshold (matrix_get matrix node y)) eqn:Hcond.
    + apply andb_true_iff in Hcond as [HyW Hadj].
      apply negb_true_iff, bool_decide_eq_false in HyW.
      assert (HbW : bounded n (W node V acc)).
      { intros x. rewrite !elem_of_union, elem_of_singleton, elem_of_list_to_set.
        intros [[->|Hx]|Hx]; [assumption | auto |].
        rewrite Forall_forall in Hacc. apply Hacc in Hx. tauto. }
      assert (HsW : n <= f + size (W node V acc)).
      { assert (S (size V) <= size (W node V acc)); [|lia].
        assert (Hs : size ({[ node ]} ∪ V : gset nat) = S (size V)).
        { rewrite size_union by set_solver. rewrite size_singleton. reflexivity. }
        rewrite <- Hs. apply subseteq_size. set_solver. }
      destruct (IHf y (W node V acc) (c ++ node :: acc) Hy HyW HbW HsW)
        as (rest & Hdfs & Hnd' & Hrest & Hclosed & Hlink').
      assert (HW : W y (W node V acc) rest = W node V (acc ++ y :: rest)).
      { rewrite list_to_set_app_L. cbn [list_to_set]. set_solver. }
      assert (Hc : (c ++ node :: acc) ++ y :: rest = c ++ node :: acc ++ y :: rest).
      { rewrite <- app_assoc. reflexivity. }
      rewrite Hdfs, HW, Hc.
      assert (Hnd2 : NoDup (node :: acc ++ y :: rest)).
      { apply NoDup_cons in Hnd as [Hna Hnda].
        apply NoDup_cons. split.
        - rewrite elem_of_app. intros [Hin|Hin]; [tauto|].
          apply elem_of_cons in Hin as [->|Hin]; [set_solver|].
          rewrite Forall_forall in Hrest. apply Hrest in Hin. set_solver.
        - apply NoDup_app. split; [assumption|]. split; [|assumption].
          intros x Hx Hin. apply elem_of_cons in Hin as [->|Hin]; [set_solver|].
          rewrite Forall_forall in Hrest. apply Hrest in Hin. set_solver. }
      assert (Hacc2 : Forall (fun x => (x ∉ V) /\ x < n) (acc ++ y :: rest)).
      { apply Forall_app. split; [assumption|]. apply Forall_cons. split.
        - split; [set_solver | assumption].
        - eapply Forall_impl; [exact Hrest|]. intros x [Hx Hlt]. split; [set_solver|assumption]. }
      assert (Hlink2 : linked_after adj [node] (acc ++ y :: rest)).
      { apply linked_after_app. split; [assumption|]. cbn [linked_after]. split.
        - exists node. split; [set_solver | exact Hadj].
        - eapply linked_after_mono; [|exact Hlink']. set_solver. }
      destruct (IH (acc ++ y :: rest) Hl Hnd2 Hacc2 Hlink2)
        as (more & Hfold & Hnd3 & Hacc3 & Hlink3 & Hclosed3 & Hnode3).
      exists (y :: rest ++ more).
      replace (acc ++ y :: rest ++ more) with ((acc ++ y :: rest) ++ more)
        by (rewrite <- app_assoc; reflexivity).
      split; [exact Hfold|]. repeat split; try assumption.
      * intros x z Hx Hz Hxz.
        change (y :: rest ++ more) with ((y :: rest) ++ more) in Hx.
        apply elem_of_app in Hx as [Hx|Hx]; [|eauto].
        specialize (Hclosed x z Hx Hz Hxz). rewrite HW in Hclosed.
        rewrite list_to_set_app_L. set_solver.
      * intros z Hz Hadjz. apply elem_of_cons in Hz as [->|Hz]; [|eauto].
        rewrite !list_to_set_app_L. cbn [list_to_set]. set_solver.
    + destruct (IH acc Hl Hnd Hacc Hlink)
        as (more & Hfold & Hnd3 & Hacc3 & Hlink3 & Hclosed3 & Hnode3).
      exists more. split; [exact Hfold|]. repeat split; try assumption.
      intros z Hz Hadjz. apply elem_of_cons in Hz as [->|Hz]; [|eauto].
      apply andb_false_iff in Hcond as [Hc|Hc].
      * apply negb_false_iff, bool_decide_eq_true in Hc.
        rewrite list_to_set_app_L. set_solver.
      * unfold adjacent in Hadjz. congruence.
Qed.

(** A call of [dfs] returns when the depth still allowed covers the
    indices not yet visited. *)
Lemma dfs_spec (depth : nat) : forall node V c,
  node < n -> node ∉ V -> bounded n V -> n <= depth + size V ->
  dfs_post matrix threshold n depth node V c.
Proof.
  induction depth as [|f IHf]; intros node V c Hnode HnV HV Hdepth.
  - exfalso.
    assert (Hb : bounded n ({[ node ]} ∪ V)).
    { intros x. rewrite elem_of_union, elem_of_singleton. intros [->|Hx]; auto. }
    apply bounded_size in Hb. rewrite size_union in Hb by set_solver.
    rewrite size_singleton in Hb. lia.
  - destruct (dfs_loop f node V c IHf Hnode HnV HV Hdepth (seq 0 n) [])
      as (more & Hfold & Hnd & Hacc & Hlink & Hclosed & Hnode').
    + apply Forall_forall. intros y Hy. apply elem_of_seq in Hy. lia.
    + apply NoDup_singleton.
    + constructor.
    + exact I.
    + cbn [app list_to_set] in *. rewrite union_empty_r_L in Hfold.
      exists more. split; [exact Hfold|]. repeat split; try assumption.
      * intros x y Hx Hy Hxy. apply elem_of_cons in Hx as [->|Hx]; [|eauto].
        apply Hnode'; [|exact Hxy]. apply elem_of_seq. lia.
Qed.

(** A call that returns returns the same with more depth to spare. *)
Lemma dfs_deeper (depth : nat) : forall node st r,
  dfs depth matrix threshold n node st = Ok r ->
  forall k, dfs (depth + k) matrix threshold n node st = Ok r.
Proof.
  induction depth as [|d IHd]; intros node st r Hr k; [discriminate Hr|].
  cbn [Nat.add dfs] in *. revert Hr.
  generalize (Ok ({[ node ]} ∪ fst st, snd st ++ [node]) : result (gset nat * list nat)).
  induction (seq 0 n) as [|y l IHl]; intros acc; cbn [fold_left]; [auto|].
  destruct acc as [st'|e]; cbn [mbind result_bind].
  - destruct (negb (bool_decide (y ∈ fst st'))
              && fle threshold (matrix_get matrix node y)); [|apply IHl].
    destruct (dfs d matrix threshold n y st') as [st''|e] eqn:Hd.
    + rewrite (IHd _ _ _ Hd k). apply IHl.
    + rewrite visit_raise. discriminate.
  - rewrite visit_raise. discriminate.
Qed.

(** The only exception of [dfs] is [RecursionError]. *)
Lemma dfs_raises (depth : nat) : forall node st e,
  dfs depth matrix threshold n node st = Raise e -> e = RecursionError.
Proof.
  induction depth as [|d IHd]; intros node st e; cbn [dfs]; [intros [= <-]; reflexivity|].
  assert (Hgen : forall l (acc : result (gset nat * list nat)),
             (forall e', acc = Raise e' -> e' = RecursionError) ->
             fold_left (visit d node) l acc = Raise e -> e = RecursionError).
  { induction l as [|y l IHl]; intros acc Hacc; cbn [fold_left]; [apply Hacc|].
    apply IHl. intros e'. destruct acc as [st'|e0]; cbn [mbind result_bind].
    - destruct (negb (bool_decide (y ∈ fst st'))
                && fle threshold (matrix_get matrix node y)); [apply IHd | discriminate].
    - apply Hacc. }
  apply Hgen. discriminate.
Qed.

(** One turn of [for i in range(n)] of [clustering_by_similarity]. *)
Abbreviation turn depth :=
  (fun (acc : result (gset nat * list (list nat))) (i : nat) =>
     st ← acc;
     if bool_decide (i ∈ fst st) then Ok st
     else
       st' ← dfs depth matrix threshold n i (fst st, []);
       Ok (fst st', snd st ++ [snd st'])).

Lemma turn_raise (depth : nat) (l : list nat) (e : PyExn) :
  fold_left (turn depth) l (Raise e) = Raise e.
Proof. induction l as [|y l IH]; cbn [fold_left mbind result_bind]; [reflexivity | exact IH]. Qed.

(** With a depth of at least the number of items the loop returns, and
    keeps its invariant. *)
Lemma clustering_turns (depth : nat) :
  n <= depth ->
  forall l st,
    Forall (fun i => i < n) l ->
    clustering_inv matrix threshold n st ->
    exists st',
      fold_left (turn depth) l (Ok st) = Ok st'
      /\ clustering_inv matrix threshold n st'
      /\ (forall i, i ∈ fst st \/ i ∈ l -> i ∈ fst st').
Proof.
  intros Hdepth. induction l as [|i l IH]; intros [visited clusters] Hl Hinv.
  - cbn [fold_left]. eexists. split; [reflexivity|]. split; [assumption|].
    intros i [Hi|Hi]; [assumption | inversion Hi].
  - apply Forall_cons in Hl as [Hi Hl]. cbn [fold_left mbind result_bind fst snd].
    destruct (bool_decide (i ∈ visited)) eqn:Hvis.
    + apply bool_decide_eq_true in Hvis.
      destruct (IH (visited, clusters) Hl Hinv) as (st' & Hfold & Hinv' & Hin).
      exists st'. split; [exact Hfold|]. split; [exact Hinv'|].
      intros j [Hj|Hj]; [auto|]. apply elem_of_cons in Hj as [->|Hj]; auto.
    + apply bool_decide_eq_false in Hvis.
      destruct Hinv as (HV & Hnd & Hb & Hclosed & Hlinked & Hsep).
      cbn [fst snd] in *.
      destruct (dfs_spec depth i visited [] Hi Hvis Hb ltac:(lia))
        as (rest & Hdfs & Hnd' & Hrest & Hclosed' & Hlink').
      rewrite Hdfs. cbn [mbind result_bind fst snd app].
      assert (Hinv2 : clustering_inv matrix threshold n
                        ({[ i ]} ∪ visited ∪ list_to_set rest, clusters ++ [i :: rest])).
      { unfold clustering_inv. cbn [fst snd].
        rewrite concat_app. cbn [concat]. rewrite app_nil_r.
        split; [|split; [|split; [|split; [|split]]]].
        - rewrite list_to_set_app_L, <- HV. cbn [list_to_set]. set_solver.
        - apply NoDup_app. split; [assumption|]. split; [|assumption].
          intros x Hx Hin. assert (Hxv : x ∈ visited) by (rewrite HV; set_solver).
          apply elem_of_cons in Hin as [->|Hin]; [tauto|].
          rewrite Forall_forall in Hrest. apply Hrest in Hin. tauto.
        - intros x. rewrite !elem_of_union, elem_of_singleton, elem_of_list_to_set.
          intros [[->|Hx]|Hx]; [assumption | auto |].
          rewrite Forall_forall in Hrest. apply Hrest in Hx. tauto.
        - intros x y Hx Hy Hxy.
          rewrite !elem_of_union, elem_of_singleton, elem_of_list_to_set in Hx.
          destruct Hx as [[->|Hx]|Hx].
          + apply (Hclosed' i y); [left | assumption | assumption].
          + specialize (Hclosed x y Hx Hy Hxy). set_solver.
          + apply (Hclosed' x y); [right; assumption | assumption | assumption].
        - apply Forall_app. split; [assumption|]. apply Forall_cons. split; [|constructor].
          exact Hlink'.
        - intros p q A B x y HA HB Hpq Hx Hy.
          destruct (decide (q < length clusters)) as [Hq|Hq].
          + rewrite lookup_app_l in HB by lia. rewrite lookup_app_l in HA by lia.
            apply (Hsep p q A B x y); assumption.
          + rewrite lookup_app_r in HB by lia.
            destruct (q - length clusters) as [|q'] eqn:Hq'; [|destruct q'; discriminate].
            injection HB as <-.
            assert (Hp : p < length clusters).
            { destruct (decide (p < length clusters)) as [Hp|Hp]; [assumption|].
              apply lookup_lt_Some in HA. rewrite length_app in HA. cbn in HA. lia. }
            rewrite lookup_app_l in HA by lia.
            assert (Hxv : x ∈ visited).
            { rewrite HV, elem_of_list_to_set. apply list_elem_of_In, in_concat.
              exists A. split; apply list_elem_of_In; [|assumption].
              eapply list_elem_of_lookup_2, HA. }
            assert (Hyn : y < n /\ y ∉ visited).
            { apply elem_of_cons in Hy as [->|Hy]; [tauto|].
              rewrite Forall_forall in Hrest. apply Hrest in Hy. tauto. }
            destruct (adjacent matrix threshold x y) eqn:Hxy; [|reflexivity].
            exfalso. apply Hyn. apply (Hclosed x y); tauto. }
      destruct (IH _ Hl Hinv2) as (st' & Hfold & Hinv' & Hin).
      exists st'. split; [exact Hfold|]. split; [exact Hinv'|].
      intros j [Hj|Hj]; apply Hin.
      * left. cbn [fst]. set_solver.
      * apply elem_of_cons in Hj as [->|Hj]; [left; cbn [fst]; set_solver | right; assumption].
Qed.

Lemma turns_deeper (depth k : nat) (l : list nat) :
  forall acc r,
    fold_left (turn depth) l acc = Ok r -> fold_left (turn (depth + k)) l acc = Ok r.
Proof.
  induction l as [|i l IH]; intros acc r; cbn [fold_left]; [auto|].
  destruct acc as [st|e]; cbn [mbind result_bind].
  - destruct (bool_decide (i ∈ fst st)); [apply IH|].
    destruct (dfs depth matrix threshold n i (fst st, [])) as [st'|e] eqn:Hd.
    + rewrite (dfs_deeper _ _ _ _ Hd k). apply IH.
    + cbn [mbind result_bind]. rewrite turn_raise. discriminate.
  - rewrite turn_raise. discriminate.
Qed.

Lemma turns_raise (depth : nat) (l : list nat) (e : PyExn) :
  forall acc : result (gset nat * list (list nat)),
    (forall e', acc = Raise e' -> e' = RecursionError) ->
    fold_left (turn depth) l acc = Raise e -> e = RecursionError.
Proof.
  induction l as [|i l IH]; intros acc Hacc; cbn [fold_left]; [apply Hacc|].
  apply IH. intros e'. destruct acc as [st|e0]; cbn [mbind result_bind].
  - destruct (bool_decide (i ∈ fst st)); [discriminate|].
    destruct (dfs depth matrix threshold n i (fst st, [])) as [st'|e1] eqn:Hd;
      cbn [mbind result_bind]; [discriminate|].
    intros [= <-]. exact (dfs_raises _ _ _ _ Hd).
  - apply Hacc.
Qed.

End Dfs.
End DfsFacts.

(** ** Lists of results *)

Lemma mapM_result_cons {A B : Type} (f : A -> result B) (x : A) (l : list A) :
  mapM f (x :: l)
  = match f x with
    | Ok y => match mapM f l with
              | Ok k => Ok (y :: k)
              | Raise e => Raise e
              end
    | Raise e => Raise e
    end.
Proof. reflexivity. Qed.

Lemma mapM_result_Forall2 {A B : Type} (f : A -> result B) (l : list A) : forall ys,
  mapM f l = Ok ys <-> Forall2 (fun x y => f x = Ok y) l ys.
Proof.
  induction l as [|x l IH]; intros ys.
  - split.
    + intros [= <-]. constructor.
    + intros H. inversion H. reflexivity.
  - rewrite mapM_result_cons. split.
    + destruct (f x) as [y|e] eqn:Hfx; [|discriminate].
      destruct (mapM f l) as [k|e] eqn:Hk; [|discriminate].
      intros [= <-]. constructor; [assumption|]. apply IH. reflexivity.
    + intros H. inversion H as [|x' y l' k Hfx Hrest]; subst.
      rewrite Hfx. apply IH in Hrest. rewrite Hrest. reflexivity.
Qed.

Lemma mapM_result_Ok {A B : Type} (f : A -> result B) (l : list A) :
  (forall x, x ∈ l -> exists y, f x = Ok y) -> exists ys, mapM f l = Ok ys.
Proof.
  induction l as [|x l IH]; intros Hall.
  - eexists. reflexivity.
  - destruct (Hall x) as [y Hy]; [left|].
    destruct IH as [ys Hys]; [intros z Hz; apply Hall; right; assumption|].
    exists (y :: ys). rewrite mapM_result_cons, Hy, Hys. reflexivity.
Qed.

(** ** similarity_calculator.py: the similarity matrix *)

Module MatrixFacts.
Import SimilarityCalculator ClusteringSpec.

Lemma string_similarity_known a b method :
  method ∈ known_methods -> exists s, string_similarity a b method = Ok s.
Proof.
  intros Hm. unfold string_similarity.
  destruct (is_empty a || is_empty b); [eauto|].
  destruct (String.eqb a b); [eauto|].
  unfold known_methods in Hm.
  repeat (apply elem_of_cons in Hm as [->|Hm]; [cbn; eauto|]).
  inversion Hm.
Qed.

Lemma matrix_entry_sym items method i j :
  matrix_entry items method i j = matrix_entry items method j i.
Proof.
  unfold matrix_entry. rewrite (Nat.eqb_sym i j), (Nat.min_comm i j), (Nat.max_comm i j).
  reflexivity.
Qed.

Lemma matrix_entry_known items method i j :
  method ∈ known_methods -> i < length items -> j < length items ->
  exists s, matrix_entry items method i j = Ok s.
Proof.
  intros Hm Hi Hj. unfold matrix_entry.
  destruct (i =? j); [eauto|].
  destruct (lookup_lt_is_Some_2 items (Nat.min i j) ltac:(lia)) as [a ->].
  destruct (lookup_lt_is_Some_2 items (Nat.max i j) ltac:(lia)) as [b ->].
  apply string_similarity_known, Hm.
Qed.

Lemma batch_similarity_matrix_get items method matrix i j :
  batch_similarity_matrix items method = Ok matrix ->
  i < length items -> j < length items ->
  matrix_entry items method i j = Ok (matrix_get matrix i j).
Proof.
  unfold batch_similarity_matrix. intros Hm Hi Hj.
  apply mapM_result_Forall2 in Hm.
  destruct (Forall2_lookup_l _ _ _ i i Hm) as (row & Hrow & Hr).
  { apply lookup_seq_lt. assumption. }
  apply mapM_result_Forall2 in Hr.
  destruct (Forall2_lookup_l _ _ _ j j Hr) as (v & Hv & Hentry).
  { apply lookup_seq_lt. assumption. }
  unfold matrix_get. rewrite Hrow. cbn. rewrite Hv. exact Hentry.
Qed.

Lemma batch_similarity_matrix_sym items method matrix i j :
  batch_similarity_matrix items method = Ok matrix ->
  i < length items -> j < length items ->
  matrix_get matrix i j = matrix_get matrix j i.
Proof.
  intros Hm Hi Hj.
  pose proof (batch_similarity_matrix_get _ _ _ i j Hm Hi Hj) as H1.
  pose proof (batch_similarity_matrix_get _ _ _ j i Hm Hj Hi) as H2.
  rewrite matrix_entry_sym, H2 in H1. congruence.
Qed.

Lemma batch_similarity_matrix_known items method :
  method ∈ known_methods -> exists matrix, batch_similarity_matrix items method = Ok matrix.
Proof.
  intros Hm. unfold batch_similarity_matrix.
  apply mapM_result_Ok. intros i Hi. apply elem_of_seq in Hi.
  apply mapM_result_Ok. intros j Hj. apply elem_of_seq in Hj.
  apply matrix_entry_known; [assumption | lia | lia].
Qed.

(** X3. For a known method [batch_similarity_matrix] returns a square matrix
    of the size of the items; it is symmetric, its diagonal is 1.0 (also
    where the item is the empty string), and above the diagonal it holds the
    [string_similarity] of the two items. *)
Theorem similarity_matrix_shape (items : list string) (method : string) :
  method ∈ known_methods ->
  exists matrix,
    batch_similarity_matrix items method = Ok matrix
    /\ length matrix = length items
    /\ Forall (fun row => length row = length items) matrix
    /\ forall i j, i < length items -> j < length items ->
         matrix_get matrix i i = 1%float
         /\ matrix_get matrix i j = matrix_get matrix j i
         /\ forall a b, i < j -> items !! i = Some a -> items !! j = Some b ->
              string_similarity a b method = Ok (matrix_get matrix i j).
Proof.
  intros Hm. destruct (batch_similarity_matrix_known items method Hm) as [matrix Hmat].
  exists matrix. split; [exact Hmat|].
  pose proof Hmat as HF. unfold batch_similarity_matrix in HF.
  apply mapM_result_Forall2 in HF.
  split; [|split].
  - apply Forall2_length in HF. rewrite length_seq in HF. congruence.
  - apply Forall_forall. intros row Hrow.
    apply list_elem_of_lookup_1 in Hrow as [i Hrow].
    destruct (Forall2_lookup_r _ _ _ _ _ HF Hrow) as (i' & _ & Hr).
    apply mapM_result_Forall2, Forall2_length in Hr. rewrite length_seq in Hr. congruence.
  - intros i j Hi Hj. split; [|split].
    + pose proof (batch_similarity_matrix_get _ _ _ i i Hmat Hi Hi) as He.
      unfold matrix_entry in He. rewrite Nat.eqb_refl in He. congruence.
    + apply (batch_similarity_matrix_sym items method); assumption.
    + intros a b Hij Ha Hb.
      pose proof (batch_similarity_matrix_get _ _ _ i j Hmat Hi Hj) as He.
      unfold matrix_entry in He.
      destruct (i =? j) eqn:Heq; [apply Nat.eqb_eq in Heq; lia|].
      rewrite Nat.min_l, Nat.max_r, Ha, Hb in He by lia. exact He.
Qed.

Lemma similarity_matrix_shape_witness :
  exists matrix,
    batch_similarity_matrix ["abc"; ""; "abd"] "lcs" = Ok matrix
    /\ length matrix = 3
    /\ Forall (fun row => length row = 3) matrix
    /\ forall i j, i < 3 -> j < 3 ->
         matrix_get matrix i i = 1%float
         /\ matrix_get matrix i j = matrix_get matrix j i
         /\ forall a b, i < j -> ["abc"; ""; "abd"] !! i = Some a ->
                        ["abc"; ""; "abd"] !! j = Some b ->
              string_similarity a b "lcs" = Ok (matrix_get matrix i j).
Proof.
  apply (similarity_matrix_shape ["abc"; ""; "abd"] "lcs").
  unfold known_methods. repeat constructor.
Defined.

End MatrixFacts.

Module ComponentFacts.
Import SimilarityCalculator ClusteringSpec DfsFacts MatrixFacts.

Lemma combined_known : "combined" ∈ known_methods.
Proof. unfold known_methods. repeat constructor. Qed.

Lemma clustering_loop_returns (matrix : list (list float)) (threshold : float)
  (n depth : nat) :
  n <= depth ->
  exists visited clusters,
    clustering_loop depth matrix threshold n = Ok clusters
    /\ clustering_inv matrix threshold n (visited, clusters)
    /\ (forall i, i < n -> i ∈ visited).
Proof.
  intros Hdepth.
  destruct (clustering_turns matrix threshold n depth Hdepth (seq 0 n) (∅, []))
    as ([visited clusters] & Hfold & Hinv & Hin).
  - apply Forall_forall. intros i Hi. apply elem_of_seq in Hi. lia.
  - unfold clustering_inv. cbn [fst snd concat list_to_set].
    split; [reflexivity|]. split; [constructor|]. split; [intros x Hx; set_solver|].
    split; [intros x y Hx; set_solver|]. split; [constructor|].
    intros p q A B x y HA. rewrite lookup_nil in HA. discriminate.
  - exists visited, clusters. unfold clustering_loop. rewrite Hfold.
    split; [reflexivity|]. split; [exact Hinv|].
    intros i Hi. apply Hin. right. apply elem_of_seq. lia.
Qed.

Lemma clustering_loop_deeper (matrix : list (list float)) (threshold : float)
  (n depth k : nat) (clusters : list (list nat)) :
  clustering_loop depth matrix threshold n = Ok clusters ->
  clustering_loop (depth + k) matrix threshold n = Ok clusters.
Proof.
  unfold clustering_loop.
  destruct (fold_left _ (seq 0 n) (Ok (∅, []))) as [st|e] eqn:Hfold; [|discriminate].
  rewrite (turns_deeper matrix threshold n depth k _ _ _ Hfold). auto.
Qed.

Lemma clustering_loop_raises (matrix : list (list float)) (threshold : float)
  (n depth : nat) (e : PyExn) :
  clustering_loop depth matrix threshold n = Raise e -> e = RecursionError.
Proof.
  unfold clustering_loop.
  destruct (fold_left _ (seq 0 n) (Ok (∅, []))) as [st|e'] eqn:Hfold; [discriminate|].
  cbn [mbind result_bind]. intros [= <-].
  apply (turns_raise matrix threshold n depth (seq 0 n) e' (Ok (∅, []))); [|exact Hfold].
  intros e0 H0. discriminate H0.
Qed.

(** The loop that returns has kept its invariant and visited every index,
    whatever the depth it was allowed. *)
Lemma clustering_loop_inv (matrix : list (list float)) (threshold : float)
  (n depth : nat) (clusters : list (list nat)) :
  clustering_loop depth matrix threshold n = Ok clusters ->
  exists visited,
    clustering_inv matrix threshold n (visited, clusters)
    /\ (forall i, i < n -> i ∈ visited).
Proof.
  intros Hloop. apply (clustering_loop_deeper _ _ _ _ n) in Hloop.
  destruct (clustering_loop_returns matrix threshold n (depth + n) ltac:(lia))
    as (visited & clusters' & Hloop' & Hinv & Hall).
  rewrite Hloop in Hloop'. injection Hloop' as <-. eauto.
Qed.

(** X1. Where the interpreter allows as many nested calls as there are
    items, [clustering_by_similarity] returns; with less it may raise
    [RecursionError], as it does on three equal items when two calls are
    allowed, and it raises nothing else.  Whenever it returns, its clusters
    partition the indices of the items: every index below the number of
    items is in exactly one cluster and no cluster is empty; and with more
    depth allowed it returns the same clusters. *)
Theorem clustering_partitions_indices (depth : nat) (items : list string)
  (threshold : float) :
  (length items <= depth ->
   exists clusters, clustering_by_similarity depth items threshold = Ok clusters)
  /\ (forall clusters,
        clustering_by_similarity depth items threshold = Ok clusters ->
        Permutation (concat clusters) (seq 0 (length items))
        /\ Forall (fun cluster => cluster <> []) clusters
        /\ forall more,
             clustering_by_similarity (depth + more) items threshold = Ok clusters)
  /\ (forall e, clustering_by_similarity depth items threshold = Raise e ->
                e = RecursionError)
  /\ clustering_by_similarity 2 ["a"; "a"; "a"] 0.7 = Raise RecursionError
  /\ clustering_by_similarity 3 ["a"; "a"; "a"] 0.7 = Ok [[0; 1; 2]].
Proof.
  destruct (batch_similarity_matrix_known items "combined" combined_known) as [matrix Hm].
  set (n := length items).
  unfold clustering_by_similarity at 1 2 3 4. rewrite Hm. cbn [mbind result_bind]. fold n.
  split; [|split; [|split; [|split]]].
  - intros Hdepth.
    destruct (clustering_loop_returns matrix threshold n depth Hdepth)
      as (visited & clusters & Hloop & _). eauto.
  - intros clusters Hloop.
    destruct (clustering_loop_inv matrix threshold n depth clusters Hloop)
      as (visited & Hinv & Hall).
    destruct Hinv as (HV & Hnd & Hb & _ & Hlinked & _). cbn [fst snd] in *.
    split; [|split].
    + apply NoDup_Permutation; [exact Hnd | apply NoDup_seq |].
      intros x. rewrite elem_of_seq. split.
      * intros Hx. assert (x < n); [|lia]. apply Hb. rewrite HV. set_solver.
      * intros Hx. specialize (Hall x ltac:(lia)). rewrite HV in Hall. set_solver.
    + eapply Forall_impl; [exact Hlinked|].
      intros [|seed rest] Hl; [destruct Hl | discriminate].
    + intros more. apply clustering_loop_deeper, Hloop.
  - intros e. apply clustering_loop_raises.
  - vm_compute. reflexivity.
  - vm_compute. reflexivity.
Qed.

(** X2. The clusters that [clustering_by_similarity] returns are the
    connected components of the graph that joins two indices when their
    entry in the combined similarity matrix reaches the threshold: every
    member of a cluster but its first is joined to a member before it, and
    no member of one cluster is joined to a member of another. *)
Theorem clusters_are_components (depth : nat) (items : list string) (threshold : float)
  (clusters : list (list nat)) :
  clustering_by_similarity depth items threshold = Ok clusters ->
  exists matrix,
    batch_similarity_matrix items "combined" = Ok matrix
    /\ Forall (linked (adjacent matrix threshold)) clusters
    /\ forall p q A B x y,
         clusters !! p = Some A -> clusters !! q = Some B -> p <> q ->
         x ∈ A -> y ∈ B -> adjacent matrix threshold x y = false.
Proof.
  destruct (batch_similarity_matrix_known items "combined" combined_known) as [matrix Hm].
  set (n := length items).
  unfold clustering_by_similarity. rewrite Hm. cbn [mbind result_bind]. fold n.
  intros Hloop. exists matrix. split; [reflexivity|].
  destruct (clustering_loop_inv matrix threshold n depth clusters Hloop)
    as (visited & Hinv & Hall).
  destruct Hinv as (HV & Hnd & Hb & _ & Hlinked & Hsep). cbn [fst snd] in *.
  split; [exact Hlinked|].
  intros p q A B x y HA HB Hpq Hx Hy.
  destruct (decide (p < q)) as [Hlt|Hge].
  - apply (Hsep p q A B x y); assumption.
  - assert (Hin : forall C k z, clusters !! k = Some C -> z ∈ C -> z < n).
    { intros C k z HC Hz. apply Hb. rewrite HV, elem_of_list_to_set.
      apply list_elem_of_In, in_concat. exists C.
      split; apply list_elem_of_In; [|assumption].
      eapply list_elem_of_lookup_2, HC. }
    unfold adjacent.
    rewrite (batch_similarity_matrix_sym items "combined" matrix x y Hm);
      [| exact (Hin A p x HA Hx) | exact (Hin B q y HB Hy)].
    apply (Hsep q p B A y x); [assumption | assumption | lia | assumption | assumption].
Qed.

(** The theorem on two similar names and a third apart from them. *)
Lemma clusters_are_components_witness :
  clustering_by_similarity 3 ["abcde"; "xyz"; "abcd"] 0.7 = Ok [[0; 2]; [1]]
  /\ exists matrix,
       batch_similarity_matrix ["abcde"; "xyz"; "abcd"] "combined" = Ok matrix
       /\ Forall (linked (adjacent matrix 0.7)) [[0; 2]; [1]]
       /\ forall p q A B x y,
            [[0; 2]; [1]] !! p = Some A -> [[0; 2]; [1]] !! q = Some B -> p <> q ->
            x ∈ A -> y ∈ B -> adjacent matrix 0.7 x y = false.
Proof.
  split; [vm_compute; reflexivity|].
  apply (clusters_are_components 3 ["abcde"; "xyz"; "abcd"] 0.7 [[0; 2]; [1]]).
  vm_compute. reflexivity.
Defined.

End ComponentFacts.

(** ** similarity_calculator.py: duplicates, lists, relation dictionaries *)

Module DuplicateFacts.
Import SimilarityCalculator ClusteringSpec MatrixFacts.

Lemma find_duplicates_scan_fold matrix threshold i (js : list nat) : forall group visited,
  exists visited',
    fold_left (find_duplicates_scan matrix threshold i) js (group, visited)
    = (group ++ List.filter (adjacent matrix threshold i) js, visited').
Proof.
  induction js as [|j js IH]; intros group visited; cbn [fold_left List.filter].
  - exists visited. rewrite app_nil_r. reflexivity.
  - unfold find_duplicates_scan at 2. fold (adjacent matrix threshold i j).
    destruct (adjacent matrix threshold i j).
    + destruct (IH (group ++ [j]) ({[ j ]} ∪ visited)) as [visited' ->].
      exists visited'. rewrite <- app_assoc. reflexivity.
    + apply IH.
Qed.

Lemma find_duplicates_fold matrix threshold n (l : list nat) : forall duplicates visited,
  Forall (fun i => i < n) l ->
  Forall (fun g => exists i, i < n
                             /\ g = i :: List.filter (adjacent matrix threshold i)
                                                     (seq (i + 1) (n - (i + 1)))
                             /\ 2 <= length g) duplicates ->
  Forall (fun g => exists i, i < n
                             /\ g = i :: List.filter (adjacent matrix threshold i)
                                                     (seq (i + 1) (n - (i + 1)))
                             /\ 2 <= length g)
         (fst (fold_left (find_duplicates_step matrix threshold n) l (duplicates, visited))).
Proof.
  induction l as [|i l IH]; intros duplicates visited Hl Hd; cbn [fold_left]; [exact Hd|].
  apply Forall_cons in Hl as [Hi Hl].
  unfold find_duplicates_step at 2.
  destruct (bool_decide (i ∈ visited)); [apply IH; assumption|].
  destruct (find_duplicates_scan_fold matrix threshold i (seq (i + 1) (n - (i + 1)))
              [i] visited) as [visited' ->].
  apply IH; [assumption|].
  destruct (1 <? length _) eqn:Hlen; [|assumption].
  apply Forall_app. split; [assumption|]. apply Forall_cons. split; [|constructor].
  exists i. split; [assumption|]. split; [reflexivity|].
  apply Nat.ltb_lt in Hlen. exact Hlen.
Qed.

(** X4. [find_duplicates] always returns; every group it returns is a seed
    followed by exactly the later indices whose similarity to the seed
    reaches the threshold, at least one of them.  An index taken by a group
    is not skipped by the scan of a later seed: with ["abcde"], ["abc"],
    ["abcd"] and threshold 0.7 the index 2 is in both groups. *)
Theorem find_duplicates_groups (items : list string) (threshold : float) :
  (exists matrix groups,
     batch_similarity_matrix items "combined" = Ok matrix
     /\ find_duplicates items threshold = Ok groups
     /\ Forall (fun g =>
                  exists i, i < length items
                    /\ g = i :: List.filter (adjacent matrix threshold i)
                                            (seq (i + 1) (length items - (i + 1)))
                    /\ 2 <= length g) groups)
  /\ find_duplicates ["abcde"; "abc"; "abcd"] 0.7 = Ok [[0; 2]; [1; 2]].
Proof.
  split; [|vm_compute; reflexivity].
  destruct (batch_similarity_matrix_known items "combined") as [matrix Hm].
  { unfold known_methods. repeat constructor. }
  exists matrix. eexists. split; [exact Hm|].
  unfold find_duplicates. rewrite Hm. cbn [mbind result_bind].
  split; [reflexivity|].
  apply find_duplicates_fold; [|constructor].
  apply Forall_forall. intros i Hi. apply elem_of_seq in Hi. lia.
Qed.

Lemma string_similarity_combined_sym a b :
  string_similarity a b "combined" = string_similarity b a "combined".
Proof.
  unfold string_similarity.
  rewrite (orb_comm (is_empty a)), (String.eqb_sym a b).
  rewrite (SimilarityFacts._combined_string_similarity_sym a b).
  destruct (is_empty b || is_empty a); [reflexivity|].
  destruct (String.eqb b a); reflexivity.
Qed.

Lemma string_similarity_self a method :
  string_similarity a a method = Ok (if is_empty a then 0 else 1)%float.
Proof.
  unfold string_similarity. destruct a as [|c a]; [reflexivity|].
  cbn [is_empty orb]. rewrite String.eqb_refl. reflexivity.
Qed.

(** X5. [_list_similarity] does not depend on the order of its arguments; two
    empty lists are fully similar, an empty and a non-empty list not at
    all. *)
Theorem list_similarity_symmetric (list1 list2 : list string) (x : string) :
  _list_similarity list1 list2 = _list_similarity list2 list1
  /\ _list_similarity [] [] = 1%float
  /\ _list_similarity [] (x :: list2) = 0%float
  /\ _list_similarity (x :: list1) [] = 0%float.
Proof.
  split; [|repeat split].
  unfold _list_similarity.
  destruct list1 as [|a l1], list2 as [|b l2]; try reflexivity.
  assert (Hi : forall X Y : gset string, X ∩ Y = Y ∩ X)
    by (intros X Y; apply set_eq; intros z; rewrite !elem_of_intersection; tauto).
  assert (Hu : forall X Y : gset string, X ∪ Y = Y ∪ X)
    by (intros X Y; apply set_eq; intros z; rewrite !elem_of_union; tauto).
  rewrite (Hi (list_to_set (a :: l1))), (Hu (list_to_set (a :: l1))). reflexivity.
Qed.

(** X6. [relation_similarity] always returns and is symmetric; a dictionary is
    fully similar to itself exactly when its type, head entity and tail
    entity are all present and non-empty. *)
Theorem relation_similarity_symmetric (relation1 relation2 : pydict string string) :
  relation_similarity relation1 relation2 = relation_similarity relation2 relation1
  /\ (exists s, relation_similarity relation1 relation2 = Ok s)
  /\ (relation_similarity relation1 relation1 = Ok 1%float
      <-> get_str relation1 "type" <> ""
          /\ get_str relation1 "head_entity" <> ""
          /\ get_str relation1 "tail_entity" <> "").
Proof.
  split; [|split].
  - unfold relation_similarity.
    rewrite (string_similarity_combined_sym (get_str relation1 "type")),
      (string_similarity_combined_sym (get_str relation1 "head_entity")),
      (string_similarity_combined_sym (get_str relation1 "tail_entity")).
    reflexivity.
  - unfold relation_similarity.
    destruct (string_similarity_known (get_str relation1 "type") (get_str relation2 "type")
                "combined") as [s1 ->]; [unfold known_methods; repeat constructor|].
    destruct (string_similarity_known (get_str relation1 "head_entity")
                (get_str relation2 "head_entity") "combined") as [s2 ->];
      [unfold known_methods; repeat constructor|].
    destruct (string_similarity_known (get_str relation1 "tail_entity")
                (get_str relation2 "tail_entity") "combined") as [s3 ->];
      [unfold known_methods; repeat constructor|].
    cbn [mbind result_bind]. eauto.
  - unfold relation_similarity. rewrite !string_similarity_self.
    cbn [mbind result_bind].
    destruct (get_str relation1 "type") as [|c1 t1],
             (get_str relation1 "head_entity") as [|c2 t2],
             (get_str relation1 "tail_entity") as [|c3 t3]; cbn [is_empty];
      try (split;
           [ intros H; exfalso;
             apply (f_equal (fun r => match r with
                                      | Ok x => Prim2SF x
                                      | Raise _ => S754_nan
                                      end)) in H;
             vm_compute in H; discriminate
           | intros (H1 & H2 & H3); congruence ]).
    split; [intros _; repeat split; discriminate | intros _; vm_compute; reflexivity].
Qed.

End DuplicateFacts.

(** ** Floating point: the order *)

Lemma SFcompare_antisym (x y : spec_float) :
  SFcompare y x = option_map CompOpp (SFcompare x y).
Proof.
  destruct x as [sx|sx| |sx mx ex], y as [sy|sy| |sy my ey]; cbn;
    try reflexivity;
    try (destruct sx; reflexivity); try (destruct sy; reflexivity);
    try (destruct sx, sy; reflexivity).
  assert (Hm : PosDef.Pos.compare_cont Eq my mx = CompOpp (PosDef.Pos.compare_cont Eq mx my))
    by apply (Pos.compare_antisym mx my).
  destruct sx, sy; try reflexivity;
    rewrite (Z.compare_antisym ex ey), Hm;
    destruct (ex ?= ey)%Z; cbn; try reflexivity;
    destruct (PosDef.Pos.compare_cont Eq mx my); reflexivity.
Qed.

(** [a < b] and [b < a] never hold together. *)
Lemma fltb_asym (x y : float) : (x <? y)%float = true -> (y <? x)%float = false.
Proof.
  rewrite !ltb_spec. unfold SFltb. rewrite (SFcompare_antisym (Prim2SF x) (Prim2SF y)).
  destruct (SFcompare (Prim2SF x) (Prim2SF y)) as [[]|]; cbn; congruence.
Qed.

(** ** similarity_calculator.py: fuzzy matching *)

Module FuzzyMatchFacts.
Import SimilarityCalculator ClusteringSpec MatrixFacts.

Lemma insert_by_score_perm x sorted : insert_by_score x sorted ≡ₚ x :: sorted.
Proof.
  induction sorted as [|y rest IH]; cbn [insert_by_score]; [reflexivity|].
  destruct (snd x <? snd y)%float; [|reflexivity].
  rewrite IH. apply Permutation_swap.
Qed.

Lemma sort_by_score_perm scores : sort_by_score scores ≡ₚ scores.
Proof.
  induction scores as [|x scores IH]; cbn [sort_by_score fold_right]; [reflexivity|].
  fold (sort_by_score scores). rewrite insert_by_score_perm, IH. reflexivity.
Qed.

Lemma descending_tail a rest : descending (a :: rest) -> descending rest.
Proof. destruct rest; cbn [descending]; tauto. Qed.

Lemma insert_by_score_descending x sorted :
  descending sorted -> descending (insert_by_score x sorted).
Proof.
  induction sorted as [|y rest IH]; intros Hd; cbn [insert_by_score]; [exact I|].
  destruct (snd x <? snd y)%float eqn:Hxy.
  - specialize (IH (descending_tail _ _ Hd)).
    destruct rest as [|z rest]; cbn [insert_by_score] in *.
    + split; [apply fltb_asym, Hxy | exact I].
    + destruct (snd x <? snd z)%float.
      * split; [apply Hd | exact IH].
      * split; [apply fltb_asym, Hxy | exact IH].
  - split; [exact Hxy | exact Hd].
Qed.

Lemma sort_by_score_descending scores : descending (sort_by_score scores).
Proof.
  induction scores as [|x scores IH]; cbn [sort_by_score fold_right]; [exact I|].
  apply insert_by_score_descending, IH.
Qed.

Lemma take_descending k : forall ranked, descending ranked -> descending (take k ranked).
Proof.
  induction k as [|k IH]; intros ranked Hd; [destruct ranked; exact I|].
  destruct ranked as [|a rest]; [exact I|].
  specialize (IH rest (descending_tail _ _ Hd)).
  destruct rest as [|b rest]; [destruct k; exact I|].
  destruct k as [|k]; [exact I|].
  cbn [take] in *. split; [apply Hd | exact IH].
Qed.

Lemma sort_by_score_zero (candidates : list string) :
  sort_by_score (map (fun c => (c, 0%float)) candidates)
  = map (fun c => (c, 0%float)) candidates.
Proof.
  induction candidates as [|c cs IH]; [reflexivity|].
  cbn [map sort_by_score fold_right]. fold (sort_by_score (map (fun c => (c, 0%float)) cs)).
  rewrite IH. destruct cs; reflexivity.
Qed.

Lemma scores_Forall2 query (candidates : list string) scores :
  mapM (fun candidate =>
          similarity ← string_similarity query candidate "combined";
          Ok (candidate, similarity)) candidates = Ok scores ->
  Forall2 (fun c p => fst p = c /\ string_similarity query c "combined" = Ok (snd p))
          candidates scores.
Proof.
  intros H. apply mapM_result_Forall2 in H.
  eapply Forall2_impl; [exact H|]. intros c [c' s] Hc. cbn beta in Hc.
  destruct (string_similarity query c "combined") as [s'|]; [|discriminate].
  injection Hc as <- <-. split; reflexivity.
Qed.

(** X7. [fuzzy_match_score] always returns; it returns [top_k] pairs, or all of
    them when there are fewer candidates; each pair is a candidate with its
    combined similarity to the query; the scores never increase along the
    list; when nothing is cut off the candidates are all there; and for the
    empty query every score is 0.0 and the candidates keep their order. *)
Theorem fuzzy_match_ranking (query : string) (candidates : list string) (top_k : nat) :
  exists ranked,
    fuzzy_match_score query candidates top_k = Ok ranked
    /\ length ranked = Nat.min top_k (length candidates)
    /\ (forall c s, (c, s) ∈ ranked ->
          c ∈ candidates /\ string_similarity query c "combined" = Ok s)
    /\ descending ranked
    /\ (length candidates <= top_k -> map fst ranked ≡ₚ candidates)
    /\ fuzzy_match_score "" candidates top_k
       = Ok (map (fun c => (c, 0%float)) (take top_k candidates)).
Proof.
  unfold fuzzy_match_score.
  destruct (mapM_result_Ok
              (fun candidate =>
                 similarity ← string_similarity query candidate "combined";
                 Ok (candidate, similarity)) candidates) as [scores Hs].
  { intros c _.
    destruct (string_similarity_known query c "combined") as [s ->];
      [unfold known_methods; repeat constructor|].
    eexists. reflexivity. }
  rewrite Hs. cbn [mbind result_bind].
  pose proof (scores_Forall2 _ _ _ Hs) as HF.
  exists (take top_k (sort_by_score scores)). split; [reflexivity|].
  assert (Hfst : map fst scores = candidates).
  { clear Hs. induction HF as [|c p cs ps [Hp _] _ IH]; [reflexivity|].
    cbn [map]. rewrite Hp, IH. reflexivity. }
  split; [|split; [|split; [|split]]].
  - rewrite length_take, (Permutation_length (sort_by_score_perm scores)).
    apply Forall2_length in HF. rewrite HF. reflexivity.
  - intros c s Hin.
    apply elem_of_take in Hin as (i & Hi & _). apply list_elem_of_lookup_2 in Hi.
    rewrite (sort_by_score_perm scores) in Hi.
    apply list_elem_of_lookup_1 in Hi as [j Hj].
    destruct (Forall2_lookup_r _ _ _ _ _ HF Hj) as (c' & Hc' & Hfst' & Hsim).
    cbn [fst snd] in *. subst c'.
    split; [eapply list_elem_of_lookup_2, Hc' | exact Hsim].
  - apply take_descending, sort_by_score_descending.
  - intros Hlen. rewrite take_ge.
    + rewrite (sort_by_score_perm scores), Hfst. reflexivity.
    + rewrite (Permutation_length (sort_by_score_perm scores)).
      apply Forall2_length in HF. lia.
  - assert (H0 : mapM (fun candidate =>
                         similarity ← string_similarity "" candidate "combined";
                         Ok (candidate, similarity)) candidates
                 = Ok (map (fun c => (c, 0%float)) candidates)).
    { apply mapM_result_Forall2. clear. induction candidates as [|c cs IH]; constructor.
      - reflexivity.
      - exact IH. }
    rewrite H0. cbn [mbind result_bind].
    rewrite sort_by_score_zero, <- fmap_take. reflexivity.
Qed.

End FuzzyMatchFacts.

(** ** Grouping into a dictionary of lists *)

Section Grouping.
Context {K A : Type} `{EqDecision K}.
Variable key : A -> K.

Abbreviation grouped xs acc :=
  (fold_left (fun groups x => dict_append groups (key x) x) xs acc).
Abbreviation with_key k xs := (List.filter (fun x => bool_decide (key x = k)) xs).

Lemma grouped_get (xs : list A) : forall (acc : pydict K (list A)) k,
  dict_get (grouped xs acc) k
  = match dict_get acc k with
    | Some g => Some (g ++ with_key k xs)
    | None => match with_key k xs with
              | [] => None
              | g => Some g
              end
    end.
Proof.
  induction xs as [|x xs IH]; intros acc k; cbn [fold_left List.filter].
  - destruct (dict_get acc k); [rewrite app_nil_r|]; reflexivity.
  - rewrite IH. unfold dict_append. rewrite dict_get_set.
    destruct (decide (key x = k)) as [Heq|Hne].
    + rewrite bool_decide_eq_true_2 by assumption. rewrite Heq.
      destruct (dict_get acc k) as [g|]; cbn [default].
      * rewrite <- app_assoc. reflexivity.
      * reflexivity.
    + rewrite bool_decide_eq_false_2 by assumption. reflexivity.
Qed.

Lemma grouped_keys_NoDup (xs : list A) : forall (acc : pydict K (list A)),
  NoDup (dict_keys acc) -> NoDup (dict_keys (grouped xs acc)).
Proof.
  induction xs as [|x xs IH]; intros acc Hacc; cbn [fold_left]; [assumption|].
  apply IH, dict_keys_set_NoDup, Hacc.
Qed.

Lemma grouped_items (xs : list A) k g :
  (k, g) ∈ grouped xs [] -> g = with_key k xs /\ g <> [].
Proof.
  intros Hin. apply ConflictResolverFacts.dict_get_of_item in Hin.
  - rewrite grouped_get in Hin. cbn [dict_get] in Hin.
    destruct (with_key k xs) eqn:Hg; [discriminate|]. injection Hin as <-.
    split; [reflexivity | discriminate].
  - apply grouped_keys_NoDup. constructor.
Qed.

Lemma grouped_keys (xs : list A) k :
  k ∈ dict_keys (grouped xs []) <-> exists x, x ∈ xs /\ key x = k.
Proof.
  rewrite <- dict_mem_keys. unfold dict_mem. rewrite grouped_get. cbn [dict_get].
  split.
  - destruct (with_key k xs) as [|x g] eqn:Hg; [discriminate|]. intros _.
    assert (Hx : In x (with_key k xs)) by (rewrite Hg; left; reflexivity).
    apply filter_In in Hx as [Hx Hk]. apply bool_decide_eq_true in Hk.
    exists x. split; [apply list_elem_of_In, Hx | exact Hk].
  - intros (x & Hx & Hk).
    assert (Hin : In x (with_key k xs)).
    { apply filter_In. split; [apply list_elem_of_In, Hx | apply bool_decide_eq_true, Hk]. }
    destruct (with_key k xs); [destruct Hin | reflexivity].
Qed.

End Grouping.

Lemma mapM_values {K V B : Type} (f : V -> result B) (P : K -> V -> B -> Prop)
  (d : pydict K V) :
  (forall k v, (k, v) ∈ d -> exists b, f v = Ok b /\ P k v b) ->
  exists bs, mapM f (dict_values d) = Ok bs
             /\ Forall2 (fun kv b => P (fst kv) (snd kv) b) d bs.
Proof.
  unfold dict_values. induction d as [|[k v] d IH]; intros Hall.
  - exists []. split; [reflexivity | constructor].
  - destruct (Hall k v) as (b & Hb & HP); [left|].
    destruct IH as (bs & Hbs & HF); [intros k' v' Hin; apply Hall; right; assumption|].
    exists (b :: bs). cbn [map snd]. rewrite mapM_result_cons, Hb, Hbs.
    split; [reflexivity|]. constructor; assumption.
Qed.

Lemma first_max_elem {A : Type} (scores : list (A * float)) (a : A) :
  first_max scores = Ok a -> exists s, (a, s) ∈ scores.
Proof.
  destruct scores as [|s0 t]; [discriminate|]. cbn [first_max]. intros [= <-].
  assert (Hgen : forall l best, best ∈ s0 :: t ->
             (forall x, x ∈ l -> x ∈ s0 :: t) ->
             fold_left (fun best x => if (snd best <? snd x)%float then x else best) l best
             ∈ s0 :: t).
  { induction l as [|x l IH]; intros best Hb Hl; cbn [fold_left]; [assumption|].
    apply IH; [|intros y Hy; apply Hl; right; assumption].
    destruct (snd best <? snd x)%float; [apply Hl; left | assumption]. }
  specialize (Hgen t s0 ltac:(left) ltac:(intros x Hx; right; assumption)).
  destruct (fold_left _ t s0) as [a s]. exists s. exact Hgen.
Qed.

(** ** relation_fusion.py: redundant relations *)

Module RedundancyFacts.
Import RelationFusion RelationFusionSpec.

Lemma best_of_each_type_spec (group : list Relation) :
  exists kept,
    best_of_each_type group = Ok kept
    /\ Forall (fun r => r ∈ group) kept
    /\ NoDup (map relation_type kept)
    /\ forall r, r ∈ group -> exists r', r' ∈ kept /\ relation_type r' = relation_type r.
Proof.
  unfold best_of_each_type.
  set (T := fold_left (fun groups rel => dict_append groups (relation_type rel) rel) group []).
  destruct (mapM_values
              (fun type_group => first_max (map (fun x => (x, confidence x)) type_group))
              (fun ty (g : list Relation) r => r ∈ group /\ relation_type r = ty) T)
    as (kept & Hkept & HF).
  { intros ty g Hin. apply grouped_items in Hin as [Hg Hne].
    destruct g as [|r0 g]; [congruence|].
    destruct (first_max (map (fun x => (x, confidence x)) (r0 :: g))) as [r|e] eqn:Hmax;
      [|discriminate].
    exists r. split; [reflexivity|].
    apply first_max_elem in Hmax as [s Hs].
    apply list_elem_of_fmap in Hs as (r' & [= <- _] & Hr').
    rewrite Hg in Hr'. apply list_elem_of_In, filter_In in Hr' as [Hr' Hty].
    apply bool_decide_eq_true in Hty. split; [apply list_elem_of_In, Hr' | exact Hty]. }
  exists kept. split; [exact Hkept|].
  assert (Hkeys : map relation_type kept = dict_keys T).
  { clear Hkept. unfold dict_keys. induction HF as [|[ty g] r d kept' [_ Hr] _ IH]; [reflexivity|].
    cbn [map fst snd] in *. rewrite Hr, IH. reflexivity. }
  split; [|split].
  - clear Hkept Hkeys. induction HF as [|[ty g] r d kept' [Hr _] _ IH]; constructor; assumption.
  - rewrite Hkeys. apply grouped_keys_NoDup. constructor.
  - intros r Hr.
    assert (Hk : relation_type r ∈ dict_keys T).
    { apply grouped_keys. exists r. split; [assumption | reflexivity]. }
    rewrite <- Hkeys in Hk. apply list_elem_of_fmap in Hk as (r' & Hty & Hr').
    exists r'. split; [assumption | congruence].
Qed.

Lemma pair_triples_NoDup (k : string * string) (kept : list Relation) :
  (forall r, r ∈ kept -> (head_entity_id r, tail_entity_id r) = k) ->
  NoDup (map relation_type kept) -> NoDup (map triple_of kept).
Proof.
  intros Hk Hnd. induction kept as [|r kept IH]; [constructor|].
  cbn [map] in *. apply NoDup_cons in Hnd as [Hr Hnd]. apply NoDup_cons. split.
  - intros Hin. apply Hr. apply list_elem_of_fmap in Hin as (r' & Ht & Hr').
    apply list_elem_of_fmap. exists r'. split; [|assumption].
    unfold triple_of in Ht. congruence.
  - apply IH; [|assumption]. intros r' Hr'. apply Hk. right. assumption.
Qed.

(** The relations kept for the groups of different (head, tail) pairs. *)
Lemma kept_triples_NoDup (groups : pydict (string * string) (list Relation))
  (kepts : list (list Relation)) :
  Forall2 (fun kv kept =>
             (forall r, r ∈ kept -> (head_entity_id r, tail_entity_id r) = fst kv)
             /\ NoDup (map relation_type kept)) groups kepts ->
  NoDup (dict_keys groups) ->
  NoDup (map triple_of (concat kepts)).
Proof.
  unfold dict_keys. induction 1 as [|[k g] kept groups kepts [Hk Hnd] HF IH];
    intros Hkeys; [constructor|].
  cbn [map fst concat] in *. apply NoDup_cons in Hkeys as [Hk' Hkeys].
  rewrite map_app. apply NoDup_app. split; [eapply pair_triples_NoDup; eassumption|].
  split; [|apply IH, Hkeys].
  intros t Ht Ht'. apply Hk'.
  apply list_elem_of_fmap in Ht as (r & -> & Hr).
  apply list_elem_of_fmap in Ht' as (r' & Heq & Hr').
  apply list_elem_of_In, in_concat in Hr' as (kept' & Hin & Hr').
  apply list_elem_of_In in Hin, Hr'.
  apply list_elem_of_lookup_1 in Hin as [i Hi].
  destruct (Forall2_lookup_r _ _ _ _ _ HF Hi) as ([k2 g2] & Hkv & Hk2 & _).
  apply list_elem_of_fmap. exists (k2, g2). split; [|eapply list_elem_of_lookup_2, Hkv].
  cbn [fst] in *. rewrite <- (Hk r Hr), <- (Hk2 r' Hr').
  unfold triple_of in Heq. congruence.
Qed.

(** X8. [remove_redundant_relations] always returns; what it keeps are relations
    of the input, no two of them with the same head, tail and type, and for
    every relation of the input one with its head, tail and type is kept.  A
    list of at most one relation is returned as it is. *)
Theorem redundant_relations_removed (relations : list Relation) :
  exists kept,
    remove_redundant_relations relations = Ok kept
    /\ (forall r, r ∈ kept -> r ∈ relations)
    /\ NoDup (map triple_of kept)
    /\ (forall r, r ∈ relations -> exists r', r' ∈ kept /\ triple_of r' = triple_of r)
    /\ (length relations <= 1 -> kept = relations).
Proof.
  unfold remove_redundant_relations.
  destruct (length relations <=? 1) eqn:Hlen.
  { apply Nat.leb_le in Hlen. exists relations. split; [reflexivity|].
    split; [auto|]. split; [|split; [eauto | reflexivity]].
    destruct relations as [|r [|r' rest]]; cbn in Hlen; [constructor | | lia].
    apply NoDup_singleton. }
  apply Nat.leb_gt in Hlen.
  pose (pair := fun r : Relation => (head_entity_id r, tail_entity_id r)).
  set (G := fold_left (fun groups relation =>
                         dict_append groups
                           (head_entity_id relation, tail_entity_id relation) relation)
                      relations []).
  destruct (mapM_values
              (fun group => match group with
                            | [_] => Ok group
                            | _ => best_of_each_type group
                            end)
              (fun k (g kept : list Relation) =>
                 g = List.filter (fun x => bool_decide (pair x = k)) relations
                 /\ Forall (fun r => r ∈ g) kept
                 /\ NoDup (map relation_type kept)
                 /\ forall r, r ∈ g ->
                      exists r', r' ∈ kept /\ relation_type r' = relation_type r) G)
    as (kepts & Hkepts & HF).
  { intros k g Hin. apply (grouped_items pair) in Hin as [Hg _].
    destruct (best_of_each_type_spec g) as (kept & Hb & Hsub & Hnd & Hcov).
    destruct g as [|r0 [|r1 g]].
    - exists kept. repeat split; assumption.
    - exists [r0]. split; [reflexivity|]. split; [exact Hg|]. split; [|split].
      + constructor; [left | constructor].
      + apply NoDup_singleton.
      + intros r Hr. exists r. split; [assumption | reflexivity].
    - exists kept. repeat split; assumption. }
  rewrite Hkepts. cbn [mbind result_bind].
  exists (concat kepts). split; [reflexivity|].
  assert (Hmem : forall kept r, kept ∈ kepts -> r ∈ kept ->
                   exists k, k ∈ dict_keys G /\ pair r = k /\ r ∈ relations).
  { intros kept r Hkept Hr. apply list_elem_of_lookup_1 in Hkept as [i Hi].
    destruct (Forall2_lookup_r _ _ _ _ _ HF Hi) as ([k g] & Hkv & Hg & Hsub & _).
    cbn [fst snd] in *. rewrite Forall_forall in Hsub. specialize (Hsub r Hr).
    rewrite Hg in Hsub. apply list_elem_of_In, filter_In in Hsub as [Hin Hk].
    apply bool_decide_eq_true in Hk. exists k. split; [|split].
    - apply list_elem_of_fmap. exists (k, g). split; [reflexivity|].
      eapply list_elem_of_lookup_2, Hkv.
    - exact Hk.
    - apply list_elem_of_In, Hin. }
  split; [|split; [|split]].
  - intros r Hr. apply list_elem_of_In, in_concat in Hr as (kept & Hkept & Hr).
    apply list_elem_of_In in Hkept, Hr.
    destruct (Hmem kept r Hkept Hr) as (k & _ & _ & Hin). exact Hin.
  - apply (kept_triples_NoDup G); [|apply grouped_keys_NoDup; constructor].
    eapply Forall2_impl; [exact HF|]. intros [k g] kept (Hg & Hsub & Hnd & _).
    cbn [fst snd] in *. split; [|exact Hnd].
    intros r Hr. rewrite Forall_forall in Hsub. specialize (Hsub r Hr).
    rewrite Hg in Hsub. apply list_elem_of_In, filter_In in Hsub as [_ Hk].
    apply bool_decide_eq_true in Hk. exact Hk.
  - intros r Hr.
    assert (Hk : pair r ∈ dict_keys G).
    { apply grouped_keys. exists r. split; [assumption | reflexivity]. }
    apply list_elem_of_fmap in Hk as ([k g] & Hk & Hkv). cbn [fst] in Hk.
    apply list_elem_of_lookup_1 in Hkv as [i Hi].
    destruct (Forall2_lookup_l _ _ _ _ _ HF Hi) as (kept & Hkept & Hg & Hsub & _ & Hcov).
    cbn [fst snd] in *.
    destruct (Hcov r) as (r' & Hr' & Hty).
    { rewrite Hg. apply list_elem_of_In, filter_In.
      split; [apply list_elem_of_In, Hr | apply bool_decide_eq_true; congruence]. }
    exists r'. split.
    + apply list_elem_of_In, in_concat. exists kept.
      split; apply list_elem_of_In; [eapply list_elem_of_lookup_2, Hkept | exact Hr'].
    + rewrite Forall_forall in Hsub. specialize (Hsub r' Hr').
      rewrite Hg in Hsub. apply list_elem_of_In, filter_In in Hsub as [_ Hk'].
      apply bool_decide_eq_true in Hk'. unfold triple_of. unfold pair in Hk', Hk.
      congruence.
  - intros Hle. lia.
Qed.

End RedundancyFacts.

(** ** Counting into a dictionary *)

Lemma list_sum_step (a : nat) (l : list nat) : list_sum (a :: l) = a + list_sum l.
Proof. reflexivity. Qed.

Lemma dict_incr_total {K : Type} `{EqDecision K} (counts : pydict K nat) (key : K) :
  RelationFusionSpec.total_count (dict_incr counts key)
  = RelationFusionSpec.total_count counts + 1.
Proof.
  unfold RelationFusionSpec.total_count, dict_incr, dict_values.
  induction counts as [|[k0 v0] counts IH]; [reflexivity|].
  cbn [dict_get dict_set]. destruct (decide (k0 = key)) as [->|Hne]; cbn [default].
  - cbn [map snd id]. rewrite !list_sum_step. lia.
  - cbn [map snd]. rewrite !list_sum_step, IH. lia.
Qed.

(** ** relation_fusion.py and entity_fusion.py: statistics *)

Module StatisticsFacts.
Import RelationFusionSpec.

Lemma relation_counts_fold (results : list RelationFusion.RelationFusionResult) :
  forall stats total,
    let st := fold_left RelationFusion.count_result results (stats, total) in
    RelationFusion.total_fusions (fst st) = RelationFusion.total_fusions stats
    /\ RelationFusion.single_relation_count (fst st)
       = RelationFusion.single_relation_count stats
         + length (List.filter
                     (fun r => length (RelationFusion.source_relations r) =? 1) results)
    /\ RelationFusion.multi_relation_count (fst st)
       = RelationFusion.multi_relation_count stats
         + length (List.filter
                     (fun r => negb (length (RelationFusion.source_relations r) =? 1))
                     results)
    /\ RelationFusion.high_confidence_count (fst st)
       = RelationFusion.high_confidence_count stats
         + length (List.filter
                     (fun r => (0.8 <? RelationFusion.result_confidence r)%float) results)
    /\ total_count (RelationFusion.source_distribution (fst st))
       = total_count (RelationFusion.source_distribution stats) + length results
    /\ total_count (RelationFusion.relation_type_distribution (fst st))
       = total_count (RelationFusion.relation_type_distribution stats) + length results
    /\ RelationFusion.average_confidence (fst st) = RelationFusion.average_confidence stats.
Proof.
  induction results as [|r results IH]; intros stats total; cbn [fold_left].
  - cbn [fst List.filter length]. rewrite !Nat.add_0_r. repeat split.
  - cbn zeta in IH |- *. unfold RelationFusion.count_result at 2 4 6 8 10 12 14.
    match goal with |- context [fold_left _ results (?s, ?t)] =>
      specialize (IH s t) end.
    destruct IH as (H1 & H2 & H3 & H4 & H5 & H6 & H7).
    rewrite H1, H2, H3, H4, H5, H6, H7.
    cbn [RelationFusion.total_fusions RelationFusion.single_relation_count
         RelationFusion.multi_relation_count RelationFusion.high_confidence_count
         RelationFusion.source_distribution RelationFusion.relation_type_distribution
         RelationFusion.average_confidence List.filter length].
    rewrite !dict_incr_total.
    destruct (length (RelationFusion.source_relations r) =? 1);
      destruct (0.8 <? RelationFusion.result_confidence r)%float;
      cbn [negb length]; repeat split; try lia; reflexivity.
Qed.

Lemma filter_split_length {A : Type} (f : A -> bool) (l : list A) :
  length (List.filter f l) + length (List.filter (fun x => negb (f x)) l) = length l.
Proof.
  induction l as [|x l IH]; [reflexivity|].
  cbn [List.filter]. destruct (f x); cbn [negb length]; lia.
Qed.

(** X9. The counts of [RelationFusion.get_fusion_statistics] add up:
    [total_fusions] is the number of results; the results with one source and
    those with several make up all of them; the results of high confidence
    are no more than all; the counts per number of sources, and the counts
    per relation type, sum to the number of results; and without results the
    average confidence stays 0.0. *)
Theorem relation_statistics_add_up (fusion_results : list RelationFusion.RelationFusionResult) :
  RelationFusion.total_fusions (RelationFusion.get_fusion_statistics fusion_results)
  = length fusion_results
  /\ RelationFusion.single_relation_count (RelationFusion.get_fusion_statistics fusion_results)
     + RelationFusion.multi_relation_count (RelationFusion.get_fusion_statistics fusion_results)
     = length fusion_results
  /\ RelationFusion.single_relation_count (RelationFusion.get_fusion_statistics fusion_results)
     = length (List.filter
                 (fun r => length (RelationFusion.source_relations r) =? 1) fusion_results)
  /\ RelationFusion.high_confidence_count (RelationFusion.get_fusion_statistics fusion_results)
     <= length fusion_results
  /\ total_count
       (RelationFusion.source_distribution (RelationFusion.get_fusion_statistics fusion_results))
     = length fusion_results
  /\ total_count
       (RelationFusion.relation_type_distribution
          (RelationFusion.get_fusion_statistics fusion_results))
     = length fusion_results
  /\ RelationFusion.average_confidence (RelationFusion.get_fusion_statistics [])
     = 0%float.
Proof.
  unfold RelationFusion.get_fusion_statistics.
  pose proof (relation_counts_fold fusion_results
                (RelationFusion.mkFusionStatistics (length fusion_results) 0 0 0 0 [] [])
                0%float) as H.
  cbn zeta in H.
  destruct (fold_left RelationFusion.count_result fusion_results _) as [stats total].
  cbn [fst RelationFusion.total_fusions RelationFusion.single_relation_count
       RelationFusion.multi_relation_count RelationFusion.high_confidence_count
       RelationFusion.source_distribution RelationFusion.relation_type_distribution
       RelationFusion.average_confidence] in H.
  destruct H as (H1 & H2 & H3 & H4 & H5 & H6 & H7).
  pose proof (filter_split_length
                (fun r => length (RelationFusion.source_relations r) =? 1) fusion_results).
  pose proof (SeedScanFacts.filter_length_le
                (fun r => (0.8 <? RelationFusion.result_confidence r)%float) fusion_results).
  unfold total_count in *. cbn [dict_values map] in H5, H6.
  change (list_sum []) with 0 in H5, H6.
  destruct fusion_results as [|r0 rest];
    cbn [RelationFusion.total_fusions RelationFusion.single_relation_count
         RelationFusion.multi_relation_count RelationFusion.high_confidence_count
         RelationFusion.source_distribution RelationFusion.relation_type_distribution
         RelationFusion.average_confidence];
    repeat split; try lia; try reflexivity.
Qed.

Lemma entity_counts_fold (results : list EntityFusion.FusionResult) :
  forall stats total,
    let st := fold_left EntityFusion.count_result results (stats, total) in
    EntityFusion.total_fusions (fst st) = EntityFusion.total_fusions stats
    /\ EntityFusion.single_entity_count (fst st)
       = EntityFusion.single_entity_count stats
         + length (List.filter
                     (fun r => length (EntityFusion.source_entities r) =? 1) results)
    /\ EntityFusion.multi_entity_count (fst st)
       = EntityFusion.multi_entity_count stats
         + length (List.filter
                     (fun r => negb (length (EntityFusion.source_entities r) =? 1))
                     results)
    /\ EntityFusion.high_confidence_count (fst st)
       = EntityFusion.high_confidence_count stats
         + length (List.filter
                     (fun r => (0.8 <? EntityFusion.result_confidence r)%float) results)
    /\ total_count (EntityFusion.source_distribution (fst st))
       = total_count (EntityFusion.source_distribution stats) + length results
    /\ EntityFusion.average_confidence (fst st) = EntityFusion.average_confidence stats.
Proof.
  induction results as [|r results IH]; intros stats total; cbn [fold_left].
  - cbn [fst List.filter length]. rewrite !Nat.add_0_r. repeat split.
  - cbn zeta in IH |- *. unfold EntityFusion.count_result at 2 4 6 8 10 12.
    match goal with |- context [fold_left _ results (?s, ?t)] =>
      specialize (IH s t) end.
    destruct IH as (H1 & H2 & H3 & H4 & H5 & H7).
    rewrite H1, H2, H3, H4, H5, H7.
    cbn [EntityFusion.total_fusions EntityFusion.single_entity_count
         EntityFusion.multi_entity_count EntityFusion.high_confidence_count
         EntityFusion.source_distribution
         EntityFusion.average_confidence List.filter length].
    rewrite !dict_incr_total.
    destruct (length (EntityFusion.source_entities r) =? 1);
      destruct (0.8 <? EntityFusion.result_confidence r)%float;
      cbn [negb length]; repeat split; try lia; reflexivity.
Qed.

(** X10. The counts of [EntityFusion.get_fusion_statistics] add up:
    [total_fusions] is the number of results; the results with one source and
    those with several make up all of them; the results of high confidence
    are no more than all; the counts per number of sources sum to the number
    of results; and without results the average confidence stays 0.0. *)
Theorem entity_statistics_add_up (fusion_results : list EntityFusion.FusionResult) :
  EntityFusion.total_fusions (EntityFusion.get_fusion_statistics fusion_results)
  = length fusion_results
  /\ EntityFusion.single_entity_count (EntityFusion.get_fusion_statistics fusion_results)
     + EntityFusion.multi_entity_count (EntityFusion.get_fusion_statistics fusion_results)
     = length fusion_results
  /\ EntityFusion.single_entity_count (EntityFusion.get_fusion_statistics fusion_results)
     = length (List.filter
                 (fun r => length (EntityFusion.source_entities r) =? 1) fusion_results)
  /\ EntityFusion.high_confidence_count (EntityFusion.get_fusion_statistics fusion_results)
     <= length fusion_results
  /\ total_count
       (EntityFusion.source_distribution (EntityFusion.get_fusion_statistics fusion_results))
     = length fusion_results
  /\ EntityFusion.average_confidence (EntityFusion.get_fusion_statistics [])
     = 0%float.
Proof.
  unfold EntityFusion.get_fusion_statistics.
  pose proof (entity_counts_fold fusion_results
                (EntityFusion.mkFusionStatistics (length fusion_results) 0 0 0 0 [])
                0%float) as H.
  cbn zeta in H.
  destruct (fold_left EntityFusion.count_result fusion_results _) as [stats total].
  cbn [fst EntityFusion.total_fusions EntityFusion.single_entity_count
       EntityFusion.multi_entity_count EntityFusion.high_confidence_count
       EntityFusion.source_distribution
       EntityFusion.average_confidence] in H.
  destruct H as (H1 & H2 & H3 & H4 & H5 & H7).
  pose proof (filter_split_length
                (fun r => length (EntityFusion.source_entities r) =? 1) fusion_results).
  pose proof (SeedScanFacts.filter_length_le
                (fun r => (0.8 <? EntityFusion.result_confidence r)%float) fusion_results).
  unfold total_count in *. cbn [dict_values map] in H5.
  change (list_sum []) with 0 in H5.
  destruct fusion_results as [|r0 rest];
    cbn [EntityFusion.total_fusions EntityFusion.single_entity_count
         EntityFusion.multi_entity_count EntityFusion.high_confidence_count
         EntityFusion.source_distribution
         EntityFusion.average_confidence];
    repeat split; try lia; try reflexivity.
Qed.

End StatisticsFacts.

(** ** The groups of the dedup pass cover the input *)

Lemma concat_omap_lookup {A : Type} (xs : list A) (groups : list (list nat)) :
  concat (map (fun g => omap (fun i => xs !! i) g) groups)
  = omap (fun i => xs !! i) (concat groups).
Proof.
  induction groups as [|g groups IH]; [reflexivity|].
  cbn [map concat]. rewrite IH, omap_app. reflexivity.
Qed.

Lemma omap_lookup_seq {A : Type} (xs : list A) : forall pre : list A,
  omap (fun i => (pre ++ xs) !! i) (seq (length pre) (length xs)) = xs.
Proof.
  induction xs as [|x xs IH]; intros pre; [reflexivity|].
  cbn [length seq omap list_omap].
  rewrite list_lookup_middle by reflexivity.
  f_equal. specialize (IH (pre ++ [x])).
  rewrite <- app_assoc, length_app in IH. cbn [app length] in IH.
  rewrite Nat.add_1_r in IH. exact IH.
Qed.

Lemma filter_split_perm {A : Type} (f : A -> bool) (l : list A) :
  List.filter f l ++ List.filter (fun x => negb (f x)) l ≡ₚ l.
Proof.
  induction l as [|x l IH]; [reflexivity|].
  cbn [List.filter]. destruct (f x); cbn [negb app].
  - rewrite IH. reflexivity.
  - rewrite <- Permutation_middle, IH. reflexivity.
Qed.

Lemma concat_perm {A : Type} (l l' : list (list A)) : l ≡ₚ l' -> concat l ≡ₚ concat l'.
Proof.
  induction 1 as [|x l l' _ IH|x y l|l l' l'' _ IH1 _ IH2]; cbn [concat].
  - reflexivity.
  - rewrite IH. reflexivity.
  - rewrite !app_assoc. apply Permutation_app_tail, Permutation_app_comm.
  - etransitivity; eassumption.
Qed.

Lemma omap_perm {A B : Type} (f : A -> option B) (l l' : list A) :
  l ≡ₚ l' -> omap f l ≡ₚ omap f l'.
Proof.
  induction 1 as [|x l l' _ IH|x y l|l l' l'' _ IH1 _ IH2]; cbn [omap list_omap].
  - reflexivity.
  - destruct (f x); [rewrite IH|]; [reflexivity | exact IH].
  - destruct (f x), (f y); try reflexivity. apply Permutation_swap.
  - etransitivity; eassumption.
Qed.

Lemma groups_cover {A : Type} (xs : list A) (similar : nat -> nat -> bool) :
  concat (map (fun g => omap (fun i => xs !! i) g)
              (multi (seed_single_link similar (seq 0 (length xs)))
               ++ singles (seed_single_link similar (seq 0 (length xs)))))
  ≡ₚ xs.
Proof.
  set (G := seed_single_link similar (seq 0 (length xs))).
  rewrite concat_omap_lookup.
  pose proof (omap_lookup_seq xs []) as Hseq. cbn [app length] in Hseq.
  apply (Permutation_trans (l' := omap (fun i => xs !! i) (seq 0 (length xs))));
    [apply omap_perm | rewrite Hseq; reflexivity].
  assert (Hsingles : singles G = List.filter (fun g => negb (1 <? length g)) G).
  { unfold singles. apply SeedScanFacts.filter_ext_In. intros g Hg.
    pose proof (SeedScanFacts.ssl_seeded similar (seq 0 (length xs))) as Hs.
    rewrite Forall_forall in Hs. destruct (Hs g) as (seed & members & -> & _).
    { apply list_elem_of_In, Hg. }
    cbn [length]. destruct members; reflexivity. }
  rewrite Hsingles. unfold multi.
  rewrite (concat_perm _ _ (filter_split_perm (fun g => 1 <? length g) G)).
  apply NoDup_Permutation.
  - apply NoDup_ListNoDup, SeedScanFacts.ssl_NoDup, List.seq_NoDup.
  - apply NoDup_seq.
  - intros i. rewrite !list_elem_of_In. apply SeedScanFacts.ssl_members.
Qed.

(** ** relation_fusion.py: what a fused relation is made of *)

Module FusedRelationFacts.
Import RelationFusion SeedScanFacts.

Lemma _select_representative_relation_elem (relations : list Relation) (r : Relation) :
  _select_representative_relation relations = Ok r -> r ∈ relations.
Proof.
  unfold _select_representative_relation.
  assert (Hgen : (scores ← mapM (fun relation => score ← relation_score relation;
                                                  Ok (relation, score)) relations;
                  first_max scores) = Ok r -> r ∈ relations).
  { unfold mbind at 1, result_bind at 1.
    destruct (mapM _ relations) as [scores|e] eqn:Hs; [|discriminate].
    intros Hmax. apply first_max_elem in Hmax as [s Hin].
    apply mapM_result_Forall2 in Hs.
    apply list_elem_of_lookup_1 in Hin as [i Hi].
    destruct (Forall2_lookup_r _ _ _ _ _ Hs Hi) as (r' & Hr' & Hsc).
    cbn beta in Hsc. destruct (relation_score r'); [|discriminate].
    injection Hsc as <- _. eapply list_elem_of_lookup_2, Hr'. }
  destruct relations as [|r0 [|r1 rest]]; [exact Hgen | | exact Hgen].
  intros [= <-]. left.
Qed.

Section WithSelf.
Variable similarity_threshold : float.
Variable fusion_rules : FusionRules.
Variable context_similarity : PyValue -> PyValue -> float.
Variable uuid : nat -> string.
Variable merge_properties :
  list (pydict string PyValue) -> result (pydict string PyValue).

(** X11. A relation that [_create_fused_relation] returns has the type, head and
    tail of one of the source relations, the fused confidence of the
    sources, the second of two identifiers drawn, and a [fusion_info]
    property that lists the sources. *)
Theorem fused_relation_from_source (relations : list Relation) (k : nat)
  (fused : Relation) (k' : nat) :
  _create_fused_relation fusion_rules uuid merge_properties relations k = Ok (fused, k') ->
  (exists representative,
      representative ∈ relations
      /\ relation_type fused = relation_type representative
      /\ head_entity_id fused = head_entity_id representative
      /\ tail_entity_id fused = tail_entity_id representative)
  /\ _calculate_fusion_confidence fusion_rules relations = Ok (confidence fused)
  /\ relation_id fused = uuid (S k)
  /\ k' = S (S k)
  /\ dict_get (relation_properties fused) "fusion_info"
     = Some (VDict [("source_count", VInt (Z.of_nat (length relations)));
                    ("source_ids", VList (map (fun rel => VStr (relation_id rel)) relations));
                    ("fusion_timestamp", VStr (uuid k))]).
Proof.
  unfold _create_fused_relation, mbind, M_bind, lift, draw_uuid, mret, M_ret.
  destruct (_select_representative_relation relations) as [rep|e] eqn:Hrep; [|discriminate].
  destruct (_calculate_fusion_confidence fusion_rules relations) as [c|e]; [|discriminate].
  destruct (_fuse_relation_properties merge_properties _) as [props|e]; [|discriminate].
  intros [= <- <-]. cbn [relation_type head_entity_id tail_entity_id confidence
                        relation_id relation_properties].
  split; [|split; [reflexivity|split; [reflexivity|split; [reflexivity|]]]].
  - exists rep. split; [apply _select_representative_relation_elem, Hrep|]. auto.
  - rewrite dict_get_set. destruct (decide ("fusion_info" = "fusion_info")); congruence.
Qed.

Lemma cluster_relations_groups (relations : list Relation) k clusters k' :
  cluster_relations similarity_threshold fusion_rules context_similarity uuid relations k
  = Ok (clusters, k') ->
  map RelationFusion.relations clusters
  = map (group_relations relations)
        (multi (seed_single_link
                  (duplicate_at similarity_threshold fusion_rules context_similarity relations)
                  (seq 0 (length relations)))
         ++ singles (seed_single_link
                  (duplicate_at similarity_threshold fusion_rules context_similarity relations)
                  (seq 0 (length relations)))).
Proof.
  unfold cluster_relations.
  rewrite (SingletonFacts.identify_duplicate_relations_spec).
  set (G := seed_single_link _ (seq 0 (length relations))).
  unfold mbind at 1, M_bind at 1.
  destruct (forM (multi G) _ k) as [[clusters1 k1]|e] eqn:H1; [|discriminate].
  unfold mbind at 1, M_bind at 1.
  destruct (forM (group_relations relations (unclustered (length relations) (multi G))) _ k1)
    as [[clusters2 k2]|e] eqn:H2; [|discriminate].
  cbn [mret M_ret]. intros [= <- _].
  rewrite !map_app. f_equal.
  - apply forM_inv in H1. eapply Forall2_map_eq; [exact H1|].
    intros g c (ka & kb & Hc). cbn beta in Hc.
    unfold mbind, M_bind, draw_uuid, lift, mret, M_ret in Hc.
    destruct (_calculate_cluster_confidence _ _ _); [|discriminate].
    destruct (_select_representative_relation (group_relations relations g));
      [|discriminate].
    injection Hc as <- _. reflexivity.
  - apply forM_inv in H2.
    rewrite (Forall2_map_eq _ (fun r => [r]) RelationFusion.relations _ _ H2).
    2:{ intros r c (ka & kb & Hc). cbn beta in Hc.
        unfold mbind, M_bind, draw_uuid, mret, M_ret in Hc.
        injection Hc as <- _. reflexivity. }
    unfold group_relations, unclustered.
    change (fun i => negb (bool_decide (i ∈ (list_to_set (concat (multi G)) : gset nat))))
      with (outside (multi G)).
    unfold G. rewrite unclustered_singles by apply List.seq_NoDup. fold G.
    rewrite omap_lookup_singletons.
    + rewrite singles_singletons. reflexivity.
    + apply Forall_forall. intros i Hi. apply list_elem_of_In in Hi.
      assert (Hin : In i (concat G)).
      { revert Hi. unfold singles. generalize G. intros G0.
        induction G0 as [|g G0 IH]; cbn [List.filter concat]; [tauto|].
        destruct (length g =? 1); cbn [concat]; rewrite !in_app_iff; tauto. }
      apply ssl_members, in_seq in Hin. lia.
Qed.

Lemma fuse_relation_cluster_sources cluster k res k' :
  fuse_relation_cluster fusion_rules uuid merge_properties cluster k = Ok (res, k') ->
  source_relations res = RelationFusion.relations cluster.
Proof.
  unfold fuse_relation_cluster.
  destruct (RelationFusion.relations cluster) as [|r0 [|r1 rest]] eqn:Hrs;
    unfold mbind, M_bind, mret, M_ret, lift.
  - destruct (_create_fused_relation _ _ _ [] k) as [[fused k1]|]; [|discriminate].
    destruct (_calculate_fusion_confidence _ []); [|discriminate].
    intros [= <- _]. reflexivity.
  - intros [= <- _]. reflexivity.
  - destruct (_create_fused_relation _ _ _ (r0 :: r1 :: rest) k) as [[fused k1]|];
      [|discriminate].
    destruct (_calculate_fusion_confidence _ (r0 :: r1 :: rest)); [|discriminate].
    intros [= <- _]. reflexivity.
Qed.

(** X12. When [batch_fuse_relations] returns, the sources of its results are the
    relations of the input, each in exactly one result: nothing is lost and
    nothing is fused twice. *)
Theorem relation_sources_partition (relations : list Relation) (k : nat)
  (results : list RelationFusionResult) (k' : nat) :
  batch_fuse_relations similarity_threshold fusion_rules context_similarity uuid
    merge_properties relations k = Ok (results, k') ->
  concat (map source_relations results) ≡ₚ relations.
Proof.
  unfold batch_fuse_relations, mbind, M_bind.
  destruct (cluster_relations _ _ _ _ relations k) as [[clusters k1]|e] eqn:Hc; [|discriminate].
  intros Hf. apply forM_inv in Hf.
  assert (Hsrc : map source_relations results = map RelationFusion.relations clusters).
  { eapply Forall2_map_eq; [exact Hf|].
    intros c r (ka & kb & Hr). eapply fuse_relation_cluster_sources, Hr. }
  rewrite Hsrc, (cluster_relations_groups _ _ _ _ Hc).
  apply groups_cover.
Qed.

End WithSelf.

Lemma fused_relation_witness :
  exists fused,
    _create_fused_relation _build_fusion_rules (fun n => "id") (fun _ => Ok [])
      [mkRelation "r1" "founder_of" "h" "t" [] 0.9;
       mkRelation "r2" "founder_of" "h" "t" [] 0.95] 0 = Ok (fused, 2)
    /\ relation_id fused = "id"
    /\ _calculate_fusion_confidence _build_fusion_rules
         [mkRelation "r1" "founder_of" "h" "t" [] 0.9;
          mkRelation "r2" "founder_of" "h" "t" [] 0.95] = Ok (confidence fused).
Proof.
  eexists. split; [vm_compute; reflexivity|].
  refine (let H := fused_relation_from_source _build_fusion_rules (fun n => "id")
                     (fun _ => Ok [])
                     [mkRelation "r1" "founder_of" "h" "t" [] 0.9;
                      mkRelation "r2" "founder_of" "h" "t" [] 0.95] 0 _ 2 _ in _).
  - split; [exact (proj1 (proj2 (proj2 H))) | exact (proj1 (proj2 H))].
  Unshelve. vm_compute. reflexivity.
Defined.

Lemma relation_sources_partition_witness :
  exists results,
    batch_fuse_relations 0.8 _build_fusion_rules (fun _ _ => 0%float) (fun n => "id")
      (fun _ => Ok [])
      [mkRelation "r1" "founder_of" "h" "t" [] 0.9;
       mkRelation "r2" "works_for" "h" "t" [] 0.95] 0 = Ok (results, 2)
    /\ concat (map source_relations results)
       ≡ₚ [mkRelation "r1" "founder_of" "h" "t" [] 0.9;
           mkRelation "r2" "works_for" "h" "t" [] 0.95].
Proof.
  eexists. split; [vm_compute; reflexivity|].
  apply (relation_sources_partition 0.8 _build_fusion_rules (fun _ _ => 0%float)
           (fun n => "id") (fun _ => Ok []) _ 0 _ 2).
  vm_compute. reflexivity.
Defined.

End FusedRelationFacts.

(** ** entity_fusion.py: the sources of a batch *)

Module EntitySourceFacts.
Import EntityFusion.

Section WithSelf.
Variable similarity_threshold : float.
Variable entity_similarity : EntityDict -> EntityDict -> float.
Variable uuid : nat -> string.
Variable py_float : PyValue -> result float.
Variable _create_fused_entity : list Entity -> M Entity.

(** X13. When [batch_fuse_entities] returns, the sources of its results are the
    entities of the input, each in exactly one result. *)
Theorem entity_sources_partition (entities : list Entity) (k : nat)
  (results : list FusionResult) (k' : nat) :
  batch_fuse_entities similarity_threshold entity_similarity uuid py_float
    _create_fused_entity entities k = Ok (results, k') ->
  concat (map source_entities results) ≡ₚ entities.
Proof.
  intros H.
  rewrite (EntityFusionFacts.batch_fuse_entities_sources _ _ _ _ _ _ _ _ _ H).
  apply groups_cover.
Qed.

End WithSelf.

Lemma entity_sources_partition_witness :
  exists results,
    batch_fuse_entities 0.7 FusionSpec.name_similarity (fun n => "id")
      (fun _ => Raise TypeError) (fun es k => Ok (mkEntity "f" "abcde" "Company" [] [], k))
      FusionSpec.chain_entities 0 = Ok (results, 2)
    /\ concat (map source_entities results) ≡ₚ FusionSpec.chain_entities.
Proof.
  eexists. split; [vm_compute; reflexivity|].
  apply (entity_sources_partition 0.7 FusionSpec.name_similarity (fun n => "id")
           (fun _ => Raise TypeError)
           (fun es k => Ok (mkEntity "f" "abcde" "Company" [] [], k)) _ 0 _ 2).
  vm_compute. reflexivity.
Defined.

End EntitySourceFacts.

(** ** Dictionaries: items *)

Section PyDictItems.
Context {K V : Type} `{EqDecision K}.
Implicit Types (d : pydict K V) (k : K) (v : V).

Lemma dict_set_item d k v k' v' :
  (k', v') ∈ dict_set d k v -> (k' = k /\ v' = v) \/ (k', v') ∈ d.
Proof.
  induction d as [|[k0 v0] d IH]; cbn [dict_set].
  - intros Hin. apply list_elem_of_singleton in Hin. injection Hin as -> ->. left. auto.
  - destruct (decide (k0 = k)) as [->|Hne]; intros Hin;
      apply elem_of_cons in Hin as [Heq|Hin].
    + injection Heq as -> ->. left. auto.
    + right. right. exact Hin.
    + right. rewrite Heq. left.
    + destruct (IH Hin) as [H'|H']; [left; exact H' | right; right; exact H'].
Qed.

Lemma dict_set_fresh d k v : dict_mem d k = false -> dict_set d k v = d ++ [(k, v)].
Proof.
  unfold dict_mem. induction d as [|[k0 v0] d IH]; cbn [dict_get dict_set app]; [reflexivity|].
  destruct (decide (k0 = k)); [discriminate|]. intros H'. rewrite IH by exact H'. reflexivity.
Qed.

Lemma dict_get_item d k v : dict_get d k = Some v -> (k, v) ∈ d.
Proof.
  induction d as [|[k0 v0] d IH]; cbn [dict_get]; [discriminate|].
  destruct (decide (k0 = k)) as [->|Hne].
  - intros [= ->]. left.
  - intros H'. right. apply IH, H'.
Qed.

(** Putting the values of a dictionary back under their keys rebuilds it. *)
Lemma dict_rebuild (key : V -> K) (d : pydict K V) : forall acc : pydict K V,
  NoDup (dict_keys (acc ++ d)) ->
  (forall k v, (k, v) ∈ d -> key v = k) ->
  fold_left (fun a v => dict_set a (key v) v) (dict_values d) acc = acc ++ d.
Proof.
  unfold dict_values. induction d as [|[k v] d IH]; intros acc Hnd Hkey; cbn [map snd fold_left].
  - rewrite app_nil_r. reflexivity.
  - rewrite (Hkey k v) by left.
    rewrite dict_set_fresh.
    + rewrite IH.
      * rewrite <- app_assoc. reflexivity.
      * rewrite <- app_assoc. exact Hnd.
      * intros k' v' Hin. apply Hkey. right. exact Hin.
    + destruct (dict_mem acc k) eqn:Hm; [|reflexivity]. exfalso.
      apply dict_mem_keys in Hm. unfold dict_keys in Hnd, Hm.
      rewrite map_app in Hnd. apply NoDup_app in Hnd as (_ & Hdisj & _).
      apply (Hdisj k Hm). left.
Qed.

End PyDictItems.

(** ** knowledge_graph.py: every reachable store is consistent *)

Module ReachFacts.
Import KnowledgeGraph StoreSpec ReachSpec.

Lemma keyed_by_set {V : Type} (id_of : V -> string) (d : pydict string V) (v : V) :
  keyed_by id_of d -> keyed_by id_of (dict_set d (id_of v) v).
Proof.
  intros Hk k' v' Hin. apply dict_set_item in Hin as [[-> ->]|Hin]; [reflexivity|].
  apply Hk, Hin.
Qed.

Lemma add_node_nodes graph n attrs k :
  dict_mem (nodes (add_node graph n attrs)) k
  = if decide (n = k) then true else dict_mem (nodes graph) k.
Proof. unfold add_node. cbn [nodes]. apply dict_mem_set. Qed.

Lemma add_node_consistent graph n attrs :
  distinct_keys (nodes graph) -> graph_closed graph ->
  distinct_keys (nodes (add_node graph n attrs)) /\ graph_closed (add_node graph n attrs).
Proof.
  intros Hnd Hc. split.
  - unfold add_node. cbn [nodes]. apply dict_keys_set_NoDup, Hnd.
  - intros e He. cbn [add_node edges] in He. destruct (Hc e He) as [Hh Ht].
    rewrite !add_node_nodes, Hh, Ht.
    destruct (decide (n = edge_head e)), (decide (n = edge_tail e)); auto.
Qed.

Lemma add_edge_consistent graph u v attrs :
  distinct_keys (nodes graph) -> graph_closed graph ->
  distinct_keys (nodes (add_edge graph u v attrs)) /\ graph_closed (add_edge graph u v attrs)
  /\ forall k, dict_mem (nodes graph) k = true ->
               dict_mem (nodes (add_edge graph u v attrs)) k = true.
Proof.
  intros Hnd Hc.
  destruct (add_node_consistent graph u [] Hnd Hc) as [Hnd1 Hc1].
  destruct (add_node_consistent (add_node graph u []) v [] Hnd1 Hc1) as [Hnd2 Hc2].
  unfold add_edge. cbn [nodes edges]. split; [exact Hnd2|]. split.
  - intros e He. cbn [nodes]. apply elem_of_app in He as [He|He].
    + apply Hc2, He.
    + apply list_elem_of_singleton in He. subst e. cbn [edge_head edge_tail].
      rewrite !add_node_nodes.
      destruct (decide (v = u)), (decide (u = u)), (decide (v = v)); try congruence; auto.
  - intros k Hk. rewrite !add_node_nodes, Hk.
    destruct (decide (v = k)), (decide (u = k)); reflexivity.
Qed.

Lemma add_entity_consistent self entity : consistent self -> consistent (add_entity self entity).
Proof.
  intros (He & Hek & Hr & Hrk & Hn & Hg & Hen).
  destruct (add_node_consistent (graph self) (entity_id entity) (node_attrs entity) Hn Hg)
    as [Hn' Hg'].
  unfold consistent. cbn [add_entity entities relations graph].
  split; [apply dict_keys_set_NoDup, He|]. split; [apply keyed_by_set, Hek|].
  split; [exact Hr|]. split; [exact Hrk|]. split; [exact Hn'|]. split; [exact Hg'|].
  intros id. rewrite dict_mem_set, add_node_nodes.
  destruct (decide (entity_id entity = id)); [reflexivity | apply Hen].
Qed.

Lemma add_relation_relations self relation :
  relations (fst (add_relation self relation))
  = dict_set (relations self) (relation_id relation) relation.
Proof.
  unfold add_relation. cbn [entities relations].
  destruct (negb _ || negb _); reflexivity.
Qed.

Lemma add_relation_consistent self relation :
  consistent self -> consistent (fst (add_relation self relation)).
Proof.
  intros (He & Hek & Hr & Hrk & Hn & Hg & Hen).
  unfold consistent.
  rewrite add_relation_relations, (proj1 (IndexFacts.add_relation_keeps_entities self relation)).
  split; [exact He|]. split; [exact Hek|].
  split; [apply dict_keys_set_NoDup, Hr|]. split; [apply keyed_by_set, Hrk|].
  unfold add_relation. cbn [entities].
  destruct (negb _ || negb _); cbn [fst graph]; [auto|].
  destruct (add_edge_consistent (graph self) (head_entity_id relation)
              (tail_entity_id relation) (edge_attrs_of relation) Hn Hg) as (Hn' & Hg' & Hmono).
  split; [exact Hn'|]. split; [exact Hg'|]. intros id Hid. apply Hmono, Hen, Hid.
Qed.

Lemma init_consistent : consistent init.
Proof.
  unfold consistent, distinct_keys, keyed_by, graph_closed.
  cbn [init entities relations graph empty_graph nodes edges dict_keys map].
  split; [constructor|]. split; [intros k v Hin; inversion Hin|].
  split; [constructor|]. split; [intros k v Hin; inversion Hin|].
  split; [constructor|]. split; [intros e Hin; inversion Hin|].
  intros id Hid. discriminate.
Qed.

Section Merge.
Variable batch_fuse_entities : list Entity -> M (list EntityFusion.FusionResult).
Variable batch_fuse_relations :
  list Relation -> M (list RelationFusion.RelationFusionResult).

Lemma clear_entities_consistent self : consistent self -> consistent (clear_entities self).
Proof.
  intros (He & Hek & Hr & Hrk & Hn & Hg & Hen).
  unfold consistent. cbn [clear_entities entities relations graph].
  split; [constructor|]. split; [intros k v H; inversion H|].
  split; [exact Hr|]. split; [exact Hrk|]. split; [exact Hn|]. split; [exact Hg|].
  intros id H. discriminate.
Qed.

Lemma add_fused_consistent results : forall self mapping,
  consistent self -> consistent (fst (fold_left add_fused results (self, mapping))).
Proof.
  induction results as [|r results IH]; intros self mapping Hc; cbn [fold_left]; [exact Hc|].
  unfold add_fused at 2. apply IH, add_entity_consistent, Hc.
Qed.

Lemma add_nodes_fold (es : list Entity) : forall g,
  distinct_keys (nodes g) -> edges g = [] ->
  let g' := fold_left (fun g entity => add_node g (entity_id entity) (node_attrs entity)) es g in
  distinct_keys (nodes g') /\ edges g' = []
  /\ forall id, dict_mem (nodes g) id = true \/ id ∈ map entity_id es ->
                dict_mem (nodes g') id = true.
Proof.
  induction es as [|e es IH]; intros g Hn Hedges; cbn [fold_left map].
  - split; [exact Hn|]. split; [exact Hedges|]. intros id [H|H]; [exact H | inversion H].
  - specialize (IH (add_node g (entity_id e) (node_attrs e))).
    destruct IH as (Hn' & He' & Hmem).
    + unfold add_node. cbn [nodes]. apply dict_keys_set_NoDup, Hn.
    + exact Hedges.
    + split; [exact Hn'|]. split; [exact He'|].
      intros id Hid. apply Hmem. rewrite add_node_nodes.
      destruct (decide (entity_id e = id)) as [Heq|Hne]; [left; reflexivity|].
      destruct Hid as [Hid|Hid]; [left; exact Hid|].
      apply elem_of_cons in Hid as [Hid|Hid]; [congruence | right; exact Hid].
Qed.

Lemma reset_relations_consistent self : consistent self -> consistent (reset_relations self).
Proof.
  intros (He & Hek & Hr & Hrk & Hn & Hg & Hen).
  destruct (add_nodes_fold (dict_values (entities self)) empty_graph)
    as (Hn' & He' & Hmem); [constructor | reflexivity |].
  unfold consistent. cbn [reset_relations entities relations graph].
  split; [exact He|]. split; [exact Hek|]. split; [constructor|].
  split; [intros k v H; inversion H|]. split; [exact Hn'|]. split.
  - intros e Hin. rewrite He' in Hin. inversion Hin.
  - intros id Hid. apply Hmem. right.
    unfold dict_mem in Hid. destruct (dict_get (entities self) id) as [e|] eqn:Hget;
      [|discriminate].
    apply dict_get_item in Hget. apply list_elem_of_fmap. exists e. split.
    + symmetry. apply (Hek id e Hget).
    + unfold dict_values. apply list_elem_of_fmap. exists (id, e). split; [reflexivity|exact Hget].
Qed.

Lemma add_all_relations_consistent rels : forall self,
  consistent self -> consistent (fst (add_all_relations self rels)).
Proof.
  induction rels as [|r rels IH]; intros self Hc; cbn [add_all_relations]; [exact Hc|].
  pose proof (add_relation_consistent self r Hc) as Hc'.
  destruct (add_relation self r) as [self' [[]|e]]; cbn [fst] in *; [apply IH, Hc' | exact Hc'].
Qed.

Lemma merge_consistent self other_kg k :
  consistent self ->
  consistent (fst (merge_knowledge_graph batch_fuse_entities batch_fuse_relations
                     self other_kg k)).
Proof.
  intros Hc. unfold merge_knowledge_graph.
  destruct (batch_fuse_entities _ k) as [[results k1]|e]; [|exact Hc].
  destruct (fold_left add_fused results (clear_entities self, []))
    as [self1 mapping] eqn:Hfold.
  assert (Hc1 : consistent self1).
  { change self1 with (fst (self1, mapping)). rewrite <- Hfold.
    apply add_fused_consistent, clear_entities_consistent, Hc. }
  destruct (batch_fuse_relations _ k1) as [[rresults k2]|e]; [|exact Hc1].
  apply add_all_relations_consistent, reset_relations_consistent, Hc1.
Qed.

End Merge.

Lemma run_consistent self op : consistent self -> consistent (run self op).
Proof.
  intros Hc. destruct op as [entity|relation|fe fr other_kg k|]; cbn [run].
  - apply add_entity_consistent, Hc.
  - apply add_relation_consistent, Hc.
  - apply merge_consistent, Hc.
  - apply init_consistent.
Qed.

Lemma reachable_consistent self : reachable self -> consistent self /\ index_sound self.
Proof.
  induction 1 as [|self op _ [Hc Hs]].
  - split; [apply init_consistent | apply (IndexFacts.clear_sound init)].
  - split; [apply run_consistent, Hc | apply IndexFacts.run_sound, Hs].
Qed.

End ReachFacts.

(** ** knowledge_graph.py: lookups *)

Module LookupFacts.
Import KnowledgeGraph StoreSpec ReachSpec ReachFacts.

(** X14. An entity that was added is found under its id, and under its name and
    each of its aliases unless its id is the empty string, which
    [get_entity_by_name] takes for a missing entry; the other ids still give
    what they gave. *)
Theorem added_entity_is_found (self : KnowledgeGraph) (entity : Entity) :
  get_entity (add_entity self entity) (entity_id entity) = Some entity
  /\ (forall name, name ∈ names_of entity ->
        get_entity_by_name (add_entity self entity) name
        = if SimilarityCalculator.is_empty (entity_id entity) then None else Some entity)
  /\ (forall id, id <> entity_id entity ->
        get_entity (add_entity self entity) id = get_entity self id).
Proof.
  unfold get_entity, get_entity_by_name. split; [|split].
  - cbn [add_entity entities]. rewrite dict_get_set.
    destruct (decide (entity_id entity = entity_id entity)); congruence.
  - intros name Hname. rewrite IndexFacts.name_index_add_entity.
    rewrite bool_decide_eq_true_2 by exact Hname.
    destruct (SimilarityCalculator.is_empty (entity_id entity)); cbn [negb]; [reflexivity|].
    cbn [add_entity entities]. rewrite dict_get_set.
    destruct (decide (entity_id entity = entity_id entity)); congruence.
  - intros id Hne. cbn [add_entity entities]. rewrite dict_get_set.
    destruct (decide (entity_id entity = id)); congruence.
Qed.

Lemma lookup_all {V : Type} (d : pydict string V) (ids : gset string) :
  (forall id, id ∈ ids -> dict_mem d id = true) ->
  exists vs, mapM (fun id => dict_get d id) (elements ids) = Some vs
             /\ forall v, v ∈ vs <-> exists id, id ∈ ids /\ dict_get d id = Some v.
Proof.
  intros Hall.
  destruct (mapM_is_Some_2 (fun id => dict_get d id) (elements ids)) as [vs Hvs].
  { apply Forall_forall. intros id Hid. apply elem_of_elements in Hid.
    specialize (Hall id Hid). unfold dict_mem in Hall. cbn.
    destruct (dict_get d id); [eauto | discriminate]. }
  exists vs. split; [exact Hvs|].
  apply mapM_Some_1 in Hvs. intros v. split.
  - intros Hv. apply list_elem_of_lookup_1 in Hv as [i Hi].
    destruct (Forall2_lookup_r _ _ _ _ _ Hvs Hi) as (id & Hid & Hget).
    exists id. split; [|exact Hget]. apply elem_of_elements. eapply list_elem_of_lookup_2, Hid.
  - intros (id & Hid & Hget). apply elem_of_elements, list_elem_of_lookup_1 in Hid as [i Hi].
    destruct (Forall2_lookup_l _ _ _ _ _ Hvs Hi) as (v' & Hv' & Hget').
    rewrite Hget in Hget'. injection Hget' as <-. eapply list_elem_of_lookup_2, Hv'.
Qed.

(** X15. On a reachable store [get_entities_by_type] and [get_relations_by_type]
    never meet a missing id.  What they return is live; every live entity of
    the type is returned (an entity overwritten under another type may be
    returned as well). *)
Theorem typed_lookups_return (self : KnowledgeGraph) (ty : string) :
  reachable self ->
  exists es rs,
    get_entities_by_type self ty = Some es
    /\ get_relations_by_type self ty = Some rs
    /\ (forall e, e ∈ es -> get_entity self (entity_id e) = Some e)
    /\ (forall id e, get_entity self id = Some e -> entity_type e = ty -> e ∈ es)
    /\ (forall r, r ∈ rs -> get_relation self (relation_id r) = Some r).
Proof.
  intros Hreach. apply reachable_consistent in Hreach as [Hc Hs].
  destruct Hc as (He & Hek & Hr & Hrk & _). destruct Hs as (H1 & H2 & _ & H4).
  destruct (lookup_all (entities self) (index_get (entity_type_index self) ty))
    as (es & Hes & Hmem); [apply H2|].
  destruct (lookup_all (relations self) (index_get (relation_type_index self) ty))
    as (rs & Hrs & Hmemr); [apply H4|].
  exists es, rs. unfold get_entities_by_type, get_relations_by_type, get_entity, get_relation.
  split; [exact Hes|]. split; [exact Hrs|]. split; [|split].
  - intros e Hin. apply Hmem in Hin as (id & _ & Hget).
    rewrite (Hek id e (dict_get_item _ _ _ Hget)). exact Hget.
  - intros id e Hget Hty. apply Hmem. exists id. split; [|exact Hget].
    rewrite <- Hty. apply H1, Hget.
  - intros r Hin. apply Hmemr in Hin as (id & _ & Hget).
    rewrite (Hrk id r (dict_get_item _ _ _ Hget)). exact Hget.
Qed.

Lemma typed_lookups_witness :
  exists es rs,
    get_entities_by_type (run init (OpAddEntity tencent)) "Company" = Some es
    /\ get_relations_by_type (run init (OpAddEntity tencent)) "Company" = Some rs
    /\ (forall e, e ∈ es ->
          get_entity (run init (OpAddEntity tencent)) (entity_id e) = Some e)
    /\ (forall id e, get_entity (run init (OpAddEntity tencent)) id = Some e ->
                     entity_type e = "Company" -> e ∈ es)
    /\ (forall r, r ∈ rs ->
          get_relation (run init (OpAddEntity tencent)) (relation_id r) = Some r).
Proof.
  apply (typed_lookups_return (run init (OpAddEntity tencent)) "Company").
  apply reachable_run, reachable_init.
Defined.

End LookupFacts.

(** ** knowledge_graph.py: neighbours *)

Module NeighborFacts.
Import KnowledgeGraph StoreSpec ReachSpec ReachFacts.

Lemma first_occurrences_elem (l : list string) (x : string) :
  x ∈ first_occurrences l <-> x ∈ l.
Proof.
  unfold first_occurrences.
  assert (Hgen : forall seen, x ∈ fold_left (fun seen x => if bool_decide (x ∈ seen) then seen
                                                            else seen ++ [x]) l seen
                              <-> x ∈ seen \/ x ∈ l).
  { induction l as [|y l IH]; intros seen; cbn [fold_left].
    - split; [auto | intros [H|H]; [exact H | inversion H]].
    - rewrite IH, elem_of_cons. destruct (bool_decide (y ∈ seen)) eqn:Hy.
      + apply bool_decide_eq_true in Hy. split; [tauto|].
        intros [H|[->|H]]; auto.
      + rewrite elem_of_app, list_elem_of_singleton. tauto. }
  rewrite Hgen. split; [intros [H|H]; [inversion H | exact H] | auto].
Qed.

Lemma out_neighbor graph relation_type u v :
  v ∈ List.filter (fun neighbor =>
                     existsb (edge_matches relation_type) (get_edge_data graph u neighbor))
                  (successors graph u)
  <-> exists e, e ∈ edges graph /\ edge_head e = u /\ edge_tail e = v
                /\ edge_matches relation_type (edge_attrs e) = true.
Proof.
  rewrite list_elem_of_In, filter_In, <- list_elem_of_In.
  unfold successors, get_edge_data. rewrite first_occurrences_elem, existsb_exists. split.
  - intros [_ (attrs & Hin & Hm)]. apply in_map_iff in Hin as (e & <- & He).
    apply filter_In in He as [He Hends]. apply andb_true_iff in Hends as [Hh Ht].
    apply String.eqb_eq in Hh, Ht.
    exists e. split; [apply list_elem_of_In, He | auto].
  - intros (e & He & Hh & Ht & Hm). apply list_elem_of_In in He. split.
    + apply list_elem_of_fmap. exists e. split; [auto|].
      apply list_elem_of_In, filter_In. split; [exact He | apply String.eqb_eq, Hh].
    + exists (edge_attrs e). split; [|exact Hm].
      apply in_map, filter_In. split; [exact He|].
      apply andb_true_iff. split; apply String.eqb_eq; assumption.
Qed.

Lemma in_neighbor graph relation_type u v :
  v ∈ List.filter (fun neighbor =>
                     existsb (edge_matches relation_type) (get_edge_data graph neighbor u))
                  (predecessors graph u)
  <-> exists e, e ∈ edges graph /\ edge_head e = v /\ edge_tail e = u
                /\ edge_matches relation_type (edge_attrs e) = true.
Proof.
  rewrite list_elem_of_In, filter_In, <- list_elem_of_In.
  unfold predecessors, get_edge_data. rewrite first_occurrences_elem, existsb_exists. split.
  - intros [_ (attrs & Hin & Hm)]. apply in_map_iff in Hin as (e & <- & He).
    apply filter_In in He as [He Hends]. apply andb_true_iff in Hends as [Hh Ht].
    apply String.eqb_eq in Hh, Ht.
    exists e. split; [apply list_elem_of_In, He | auto].
  - intros (e & He & Hh & Ht & Hm). apply list_elem_of_In in He. split.
    + apply list_elem_of_fmap. exists e. split; [auto|].
      apply list_elem_of_In, filter_In. split; [exact He | apply String.eqb_eq, Ht].
    + exists (edge_attrs e). split; [|exact Hm].
      apply in_map, filter_In. split; [exact He|].
      apply andb_true_iff. split; apply String.eqb_eq; assumption.
Qed.

Lemma get_neighbors_spec self u relation_type v :
  v ∈ get_neighbors self u relation_type
  <-> dict_mem (nodes (graph self)) u = true
      /\ exists e, e ∈ edges (graph self)
                   /\ edge_matches relation_type (edge_attrs e) = true
                   /\ ((edge_head e = u /\ edge_tail e = v)
                       \/ (edge_head e = v /\ edge_tail e = u)).
Proof.
  unfold get_neighbors. destruct (dict_mem (nodes (graph self)) u); cbn [negb].
  - rewrite elem_of_list_to_set, elem_of_app, out_neighbor, in_neighbor. split.
    + intros [(e & He & Hh & Ht & Hm)|(e & He & Hh & Ht & Hm)];
        (split; [reflexivity|]); exists e; auto.
    + intros [_ (e & He & Hm & [[Hh Ht]|[Hh Ht]])]; [left | right]; exists e; auto.
  - split; [intros H; inversion H | intros [H _]; discriminate].
Qed.

(** X16. On a reachable store being a neighbour is mutual, whatever the relation
    type asked for; a neighbour for a relation type is a neighbour for every
    type; and every neighbour is a node of the graph. *)
Theorem neighbors_are_mutual (self : KnowledgeGraph) (u v : string)
  (relation_type : option string) :
  reachable self ->
  (v ∈ get_neighbors self u relation_type <-> u ∈ get_neighbors self v relation_type)
  /\ (v ∈ get_neighbors self u relation_type -> v ∈ get_neighbors self u None)
  /\ (v ∈ get_neighbors self u relation_type -> dict_mem (nodes (graph self)) v = true).
Proof.
  intros Hreach. apply reachable_consistent in Hreach as [Hc _].
  destruct Hc as (_ & _ & _ & _ & _ & Hg & _).
  assert (Hnode : forall a b, a ∈ get_neighbors self b relation_type ->
                              dict_mem (nodes (graph self)) a = true).
  { intros a b Hab. apply get_neighbors_spec in Hab as [_ (e & He & _ & Hends)].
    destruct (Hg e He) as [Hh Ht]. destruct Hends as [[_ <-]|[<- _]]; assumption. }
  split; [|split].
  - split; intros H; pose proof (Hnode _ _ H) as Hn;
      apply get_neighbors_spec in H as [_ (e & He & Hm & Hends)];
      apply get_neighbors_spec; (split; [exact Hn|]); exists e; tauto.
  - intros H. apply get_neighbors_spec in H as [Hn (e & He & _ & Hends)].
    apply get_neighbors_spec. split; [exact Hn|]. exists e. auto.
  - apply Hnode.
Qed.

Lemma neighbors_are_mutual_witness :
  "t" ∈ get_neighbors two_relations "h" (Some "founder_of")
  /\ ("t" ∈ get_neighbors two_relations "h" (Some "founder_of")
      <-> "h" ∈ get_neighbors two_relations "t" (Some "founder_of"))
  /\ ("t" ∈ get_neighbors two_relations "h" (Some "founder_of") ->
      "t" ∈ get_neighbors two_relations "h" None)
  /\ ("t" ∈ get_neighbors two_relations "h" (Some "founder_of") ->
      dict_mem (nodes (graph two_relations)) "t" = true).
Proof.
  split.
  - apply (proj1 (bool_decide_eq_true _)). vm_compute. reflexivity.
  - apply (neighbors_are_mutual two_relations "h" "t" (Some "founder_of")).
    unfold two_relations, two_entities. repeat apply reachable_run. apply reachable_init.
Defined.

(** X17. After an accepted [add_relation] the head and the tail are neighbours of
    each other, for the type of the relation and for no type asked. *)
Theorem added_relation_links (self : KnowledgeGraph) (relation : Relation) :
  endpoints_present self relation = true ->
  tail_entity_id relation
    ∈ get_neighbors (fst (add_relation self relation)) (head_entity_id relation)
        (Some (relation_type relation))
  /\ head_entity_id relation
       ∈ get_neighbors (fst (add_relation self relation)) (tail_entity_id relation)
           (Some (relation_type relation))
  /\ tail_entity_id relation
       ∈ get_neighbors (fst (add_relation self relation)) (head_entity_id relation) None
  /\ head_entity_id relation
       ∈ get_neighbors (fst (add_relation self relation)) (tail_entity_id relation) None.
Proof.
  intros Hok.
  assert (Hgraph : graph (fst (add_relation self relation))
                   = add_edge (graph self) (head_entity_id relation)
                       (tail_entity_id relation) (edge_attrs_of relation)).
  { unfold endpoints_present in Hok. unfold add_relation. cbn [entities].
    rewrite <- negb_andb, Hok. reflexivity. }
  set (e := {| edge_head := head_entity_id relation;
               edge_tail := tail_entity_id relation;
               edge_attrs := edge_attrs_of relation |}).
  assert (He : e ∈ edges (graph (fst (add_relation self relation)))).
  { rewrite Hgraph. unfold add_edge. cbn [edges]. apply elem_of_app. right. left. }
  assert (Hm : forall rt, rt = None \/ rt = Some (relation_type relation) ->
                          edge_matches rt (edge_attrs e) = true).
  { intros rt [->| ->]; [reflexivity|].
    unfold edge_matches, e, edge_attrs_of. cbn [edge_attrs dict_get].
    destruct (decide ("relation_id" = "relation_type")) as [Heq|_]; [discriminate|].
    destruct (decide ("relation_type" = "relation_type")) as [_|Hne]; [|congruence].
    apply String.eqb_refl. }
  assert (Hn : dict_mem (nodes (graph (fst (add_relation self relation))))
                        (head_entity_id relation) = true
               /\ dict_mem (nodes (graph (fst (add_relation self relation))))
                           (tail_entity_id relation) = true).
  { rewrite Hgraph. unfold add_edge. cbn [nodes]. rewrite !add_node_nodes.
    destruct (decide (tail_entity_id relation = head_entity_id relation)),
             (decide (head_entity_id relation = head_entity_id relation)),
             (decide (tail_entity_id relation = tail_entity_id relation));
      try congruence; auto. }
  repeat split; apply get_neighbors_spec; (split; [apply Hn|]); exists e;
    (split; [exact He|]); (split; [apply Hm; auto|]); cbn [e edge_head edge_tail]; auto.
Qed.

Lemma added_relation_links_witness :
  "t" ∈ get_neighbors (fst (add_relation two_entities founder_h_t)) "h" (Some "founder_of")
  /\ "h" ∈ get_neighbors (fst (add_relation two_entities founder_h_t)) "t" (Some "founder_of")
  /\ "t" ∈ get_neighbors (fst (add_relation two_entities founder_h_t)) "h" None
  /\ "h" ∈ get_neighbors (fst (add_relation two_entities founder_h_t)) "t" None.
Proof. apply (added_relation_links two_entities founder_h_t). reflexivity. Defined.

End NeighborFacts.

(** ** knowledge_graph.py: statistics, export and load *)

Module ExportFacts.
Import KnowledgeGraph StoreSpec ReachSpec ReachFacts RelationFusionSpec.

Lemma counted_total {A K : Type} `{EqDecision K} (f : A -> K) (l : list A) :
  forall counts : pydict K nat,
    total_count (fold_left (fun counts x => dict_incr counts (f x)) l counts)
    = total_count counts + length l.
Proof.
  induction l as [|x l IH]; intros counts; cbn [fold_left length]; [lia|].
  rewrite IH, dict_incr_total. lia.
Qed.

Lemma load_entities_fold (l : list EntityData) : forall self,
  entities (fold_left (fun self entity_data => add_entity self (load_entity entity_data))
                      l self)
  = fold_left (fun d entity_data =>
                 dict_set d (entity_id (load_entity entity_data)) (load_entity entity_data))
              l (entities self).
Proof.
  induction l as [|x l IH]; intros self; cbn [fold_left]; [reflexivity|].
  rewrite IH. reflexivity.
Qed.

Lemma load_relations_fold (l : list RelationData) : forall self,
  entities (fold_left (fun self relation_data =>
                         fst (add_relation self (load_relation relation_data))) l self)
  = entities self
  /\ relations (fold_left (fun self relation_data =>
                             fst (add_relation self (load_relation relation_data))) l self)
     = fold_left (fun d relation_data =>
                    dict_set d (relation_id (load_relation relation_data))
                             (load_relation relation_data))
                 l (relations self).
Proof.
  induction l as [|x l IH]; intros self; cbn [fold_left]; [split; reflexivity|].
  destruct (IH (fst (add_relation self (load_relation x)))) as [He Hr].
  rewrite He, Hr, add_relation_relations,
    (proj1 (IndexFacts.add_relation_keeps_entities self (load_relation x))).
  split; reflexivity.
Qed.

Lemma fold_left_fmap {A B C : Type} (f : A -> C -> A) (g : B -> C) (l : list B) :
  forall a, fold_left f (map g l) a = fold_left (fun a x => f a (g x)) l a.
Proof. induction l as [|x l IH]; intros a; cbn [map fold_left]; [reflexivity | apply IH]. Qed.

Lemma fold_left_pointwise {A B : Type} (f g : A -> B -> A) (l : list B) :
  (forall a x, f a x = g a x) -> forall a, fold_left f l a = fold_left g l a.
Proof.
  intros Hfg. induction l as [|x l IH]; intros a; cbn [fold_left]; [reflexivity|].
  rewrite Hfg. apply IH.
Qed.

Section Statistics.
Variable number_weakly_connected_components : MultiDiGraph -> nat.
Variable nx_density : MultiDiGraph -> float.

Abbreviation export := (export_to_json number_weakly_connected_components nx_density).
Abbreviation statistics := (get_statistics number_weakly_connected_components nx_density).

(** X18. What [export_to_json] writes of a reachable store, [load_from_json]
    reads back into any store: the entities and the relations are those of
    the exported store, in the same order, the relations whose endpoints
    are missing included.  Without the two keys the store is left empty. *)
Theorem load_restores_export (self target : KnowledgeGraph) :
  reachable self ->
  entities (load_from_json target (export self)) = entities self
  /\ relations (load_from_json target (export self)) = relations self
  /\ load_from_json target (mkJsonData None None None) = init.
Proof.
  intros Hreach. apply reachable_consistent in Hreach as [Hc _].
  destruct Hc as (He & Hek & Hr & Hrk & _).
  unfold load_from_json, clear.
  cbn [export_to_json json_entities json_relations default id].
  split; [|split; [|reflexivity]].
  - rewrite (proj1 (load_relations_fold _ _)), load_entities_fold, fold_left_fmap.
    cbn [init entities].
    rewrite <- (dict_rebuild entity_id (entities self) []) at 2;
      [|exact He | exact Hek].
    apply fold_left_pointwise. intros d [id name ty props aliases]. reflexivity.
  - rewrite (proj2 (load_relations_fold _ _)), fold_left_fmap.
    assert (Hinit : forall l, relations
                      (fold_left (fun self entity_data =>
                                    add_entity self (load_entity entity_data)) l init) = []).
    { assert (Hgen : forall l self, relations
                       (fold_left (fun self entity_data =>
                                     add_entity self (load_entity entity_data)) l self)
                       = relations self).
      { induction l as [|x l IH]; intros s; cbn [fold_left]; [reflexivity|].
        rewrite IH. reflexivity. }
      intros l. apply Hgen. }
    rewrite Hinit.
    rewrite <- (dict_rebuild relation_id (relations self) []) at 2;
      [|exact Hr | exact Hrk].
    apply fold_left_pointwise. intros d [id ty h t props conf]. reflexivity.
Qed.

(** X19. The counts of [get_statistics] add up: the entities per type sum to the
    number of entities, the relations per type to the number of relations
    (refused relations that stayed in the map included); on a reachable
    store there are at least as many nodes as entities; without nodes the
    average degree is 0. *)
Theorem store_statistics_add_up (self : KnowledgeGraph) :
  reachable self ->
  entity_count (statistics self) = length (entities self)
  /\ relation_count (statistics self) = length (relations self)
  /\ total_count (entity_types (statistics self)) = entity_count (statistics self)
  /\ total_count (relation_types (statistics self)) = relation_count (statistics self)
  /\ entity_count (statistics self) <= length (nodes (graph self))
  /\ (nodes (graph self) = [] -> avg_degree (statistics self) = 0%float).
Proof.
  intros Hreach. apply reachable_consistent in Hreach as [Hc _].
  destruct Hc as (He & _ & _ & _ & Hn & _ & Hen).
  unfold get_statistics.
  cbn [entity_count relation_count entity_types relation_types avg_degree].
  split; [reflexivity|]. split; [reflexivity|].
  split; [|split; [|split]].
  - rewrite counted_total. unfold dict_values. rewrite length_map. reflexivity.
  - rewrite counted_total. unfold dict_values. rewrite length_map. reflexivity.
  - rewrite <- (length_map fst (entities self)), <- (length_map fst (nodes (graph self))).
    apply NoDup_incl_length; [apply NoDup_ListNoDup, He|].
    intros k Hk. apply list_elem_of_In in Hk. apply list_elem_of_In.
    apply dict_mem_keys, Hen, dict_mem_keys, Hk.
  - intros ->. reflexivity.
Qed.

End Statistics.

Lemma load_restores_export_witness :
  entities (load_from_json init (export_to_json no_components no_density one_relation))
  = entities one_relation
  /\ relations (load_from_json init (export_to_json no_components no_density one_relation))
     = relations one_relation
  /\ load_from_json init (mkJsonData None None None) = init.
Proof.
  apply (load_restores_export no_components no_density one_relation init).
  apply reachable_run, reachable_run, reachable_run, reachable_init.
Defined.

Lemma store_statistics_witness :
  entity_count (get_statistics no_components no_density two_entities)
  = length (entities two_entities)
  /\ relation_count (get_statistics no_components no_density two_entities)
     = length (relations two_entities)
  /\ total_count (entity_types (get_statistics no_components no_density two_entities))
     = entity_count (get_statistics no_components no_density two_entities)
  /\ total_count (relation_types (get_statistics no_components no_density two_entities))
     = relation_count (get_statistics no_components no_density two_entities)
  /\ entity_count (get_statistics no_components no_density two_entities)
     <= length (nodes (graph two_entities))
  /\ (nodes (graph two_entities) = [] ->
      avg_degree (get_statistics no_components no_density two_entities) = 0%float).
Proof.
  apply (store_statistics_add_up no_components no_density two_entities).
  apply reachable_run, reachable_run, reachable_init.
Defined.

End ExportFacts.

(** ** conflict_resolution.py: conflicts between entities *)

Module EntityConflictFacts.
Import ConflictResolver ConflictSpec ReachSpec.

Lemma with_key_NoDup {A K : Type} `{EqDecision K} (f : A -> K) (k : K) (l : list A) :
  NoDup (map f l) -> length (List.filter (fun x => bool_decide (f x = k)) l) <= 1.
Proof.
  induction l as [|x l IH]; intros Hnd; cbn [List.filter map] in *; [cbn; lia|].
  apply NoDup_cons in Hnd as [Hx Hnd]. specialize (IH Hnd).
  destruct (bool_decide (f x = k)) eqn:Hk; [|exact IH].
  apply bool_decide_eq_true in Hk. cbn [length].
  destruct (List.filter _ l) as [|y rest] eqn:Hf; [cbn; lia|]. exfalso.
  assert (Hy : In y (List.filter (fun x => bool_decide (f x = k)) l))
    by (rewrite Hf; left; reflexivity).
  apply filter_In in Hy as [Hy Hky]. apply bool_decide_eq_true in Hky.
  apply Hx. rewrite Hk, <- Hky. apply list_elem_of_fmap. exists y.
  split; [reflexivity | apply list_elem_of_In, Hy].
Qed.

Lemma flat_map_nil {A B : Type} (f : A -> list B) (l : list A) :
  (forall x, x ∈ l -> f x = []) -> flat_map f l = [].
Proof.
  induction l as [|x l IH]; intros Hall; cbn [flat_map]; [reflexivity|].
  rewrite (Hall x) by left. apply IH. intros y Hy. apply Hall. right. exact Hy.
Qed.

Lemma size_list_to_set_le (l : list string) : size (list_to_set l : gset string) <= length l.
Proof.
  induction l as [|x l IH]; cbn [list_to_set length].
  - rewrite size_empty. lia.
  - pose proof (size_union_alt ({[ x ]} : gset string) (list_to_set l)) as Hu.
    pose proof (subseteq_size (list_to_set l ∖ {[ x ]}) (list_to_set l : gset string)
                  ltac:(set_solver)) as Hd.
    rewrite size_singleton in Hu. lia.
Qed.

Section Detection.
Variable py_str : PyValue -> string.

(** Groups of one entity are not examined: without a larger group
    [detect_entity_conflicts] reports nothing. *)
Lemma singleton_groups_no_conflict (entities : list Entity) :
  (forall id, length (List.filter (fun e => bool_decide (entity_id e = id)) entities) <= 1) ->
  detect_entity_conflicts py_str entities = [].
Proof.
  intros Hone. unfold detect_entity_conflicts.
  apply flat_map_nil. intros [id group] Hin.
  apply (grouped_items entity_id) in Hin as [Hg _].
  unfold entity_group_conflicts.
  pose proof (Hone id) as Hlen. rewrite <- Hg in Hlen.
  apply Nat.leb_le in Hlen. rewrite Hlen. reflexivity.
Qed.

(** X20. Entities with pairwise distinct ids are never in conflict:
    [detect_entity_conflicts] reports nothing for them. *)
Theorem distinct_ids_no_conflict (entities : list Entity) :
  NoDup (map entity_id entities) -> detect_entity_conflicts py_str entities = [].
Proof.
  intros Hnd. apply singleton_groups_no_conflict.
  intros id. exact (with_key_NoDup entity_id id entities Hnd).
Qed.

(** What a conflict between entities looks like: at least two items, and
    for every item the confidence 1.0. *)
Lemma entity_conflict_shape (entities : list Entity) (c : Conflict) :
  c ∈ detect_entity_conflicts py_str entities ->
  2 <= length (conflicting_items c)
  /\ confidence_scores c = repeat 1%float (length (conflicting_items c))
  /\ (conflict_type c = ENTITY_NAME_CONFLICT \/ conflict_type c = ENTITY_TYPE_CONFLICT
      \/ conflict_type c = PROPERTY_VALUE_CONFLICT).
Proof.
  unfold detect_entity_conflicts. intros Hin.
  apply list_elem_of_In, in_flat_map in Hin as ([id group] & _ & Hin).
  unfold entity_group_conflicts in Hin.
  destruct (length group <=? 1) eqn:Hlen; [destruct Hin|]. apply Nat.leb_gt in Hlen.
  apply in_app_iff in Hin as [Hin|Hin]; [|apply in_app_iff in Hin as [Hin|Hin]].
  - destruct (1 <? size _); [|destruct Hin]. destruct Hin as [<-|[]].
    unfold full_confidence. cbn [new_conflict conflicting_items confidence_scores
                                 conflict_type description].
    rewrite !length_map. split; [lia|]. split; [reflexivity | auto].
  - destruct (1 <? size _); [|destruct Hin]. destruct Hin as [<-|[]].
    unfold full_confidence. cbn [new_conflict conflicting_items confidence_scores
                                 conflict_type description].
    rewrite !length_map. split; [lia|]. split; [reflexivity | auto].
  - unfold _detect_property_conflicts in Hin.
    apply in_flat_map in Hin as ([key values] & _ & Hin).
    destruct (1 <? size _) eqn:Hsize; [|destruct Hin]. destruct Hin as [<-|[]].
    apply Nat.ltb_lt in Hsize.
    pose proof (size_list_to_set_le (map py_str values)) as Hle. rewrite length_map in Hle.
    unfold full_confidence. cbn [new_conflict conflicting_items confidence_scores
                                 conflict_type description].
    rewrite !length_map. split; [lia|]. split; [reflexivity | auto].
Qed.

End Detection.

Lemma distinct_ids_witness :
  detect_entity_conflicts (fun _ => "") [StoreSpec.tencent; person_h] = [].
Proof.
  apply (distinct_ids_no_conflict (fun _ => "") [StoreSpec.tencent; person_h]).
  cbn [map entity_id StoreSpec.tencent person_h].
  apply NoDup_cons. split; [|apply NoDup_singleton].
  intros H. apply list_elem_of_singleton in H. discriminate.
Defined.

Section Resolution.
Variable py_str : PyValue -> string.
Variable py_str_item : Item -> string.
Variable py_float : Item -> result float.
Variable list_of_set : list PyValue -> result (list PyValue).

Abbreviation resolve := (resolve_conflict py_str_item py_float list_of_set).

Lemma index_of_max_ones (n : nat) : index_of_max (repeat 1%float (S n)) = Ok 0.
Proof.
  cbn [repeat index_of_max].
  assert (Hgen : forall m i, fold_left
                   (fun '(best_i, best, i) y =>
                      if (best <? y)%float then (i, y, S i) else (best_i, best, S i))
                   (repeat 1%float m) (0, 1%float, i) = (0, 1%float, m + i)).
  { induction m as [|m IH]; intros i; cbn [repeat fold_left]; [reflexivity|].
    replace (1 <? 1)%float with false by reflexivity. rewrite IH. f_equal. lia. }
  rewrite Hgen. reflexivity.
Qed.

(** X21. A conflict of names or of property values that
    [detect_entity_conflicts] reports is resolved by the default strategy,
    [highest_confidence], to its first item with confidence 1.0: all the
    confidences are 1.0, so the first is the highest. *)
Theorem entity_conflict_resolves_to_first (self : ConflictResolver)
  (entities : list Entity) (c : Conflict) :
  default_strategies self ->
  c ∈ detect_entity_conflicts py_str entities ->
  conflict_type c <> ENTITY_TYPE_CONFLICT ->
  exists first rest,
    conflicting_items c = first :: rest
    /\ rest <> []
    /\ resolve self c None
       = Ok ({| resolution_strategies := resolution_strategies self;
                conflict_history :=
                  conflict_history self
                  ++ [set_resolution (set_strategy c "highest_confidence") (Some first) 1] |},
             set_resolution (set_strategy c "highest_confidence") (Some first) 1).
Proof.
  intros Hdef Hin Hty.
  destruct (entity_conflict_shape py_str entities c Hin) as (Hlen & Hscores & Htype).
  destruct (conflicting_items c) as [|first [|second rest]] eqn:Hitems;
    cbn [length] in Hlen; [lia | lia |].
  exists first, (second :: rest). split; [reflexivity|]. split; [discriminate|].
  unfold resolve_conflict, choose_strategy. rewrite Hdef.
  assert (Hhc : highest_confidence (set_strategy c "highest_confidence")
                = Ok (set_resolution (set_strategy c "highest_confidence") (Some first) 1)).
  { unfold highest_confidence. cbn [set_strategy confidence_scores conflicting_items].
    rewrite Hscores, Hitems. cbn [length]. rewrite index_of_max_ones. reflexivity. }
  destruct Htype as [Ht|[Ht|Ht]]; [|congruence|]; rewrite Ht;
    cbn [_build_resolution_strategies head default id];
    unfold dispatch; cbn [set_strategy conflict_type]; rewrite Ht.
  - unfold _resolve_name_conflict. rewrite String.eqb_refl.
    fold (set_strategy c "highest_confidence"). rewrite Hhc. reflexivity.
  - unfold _resolve_property_conflict. rewrite String.eqb_refl.
    fold (set_strategy c "highest_confidence"). rewrite Hhc. reflexivity.
Qed.

End Resolution.

Lemma entity_conflict_witness :
  exists first rest,
    conflicting_items
      (new_conflict "name_conflict_e1" ENTITY_NAME_CONFLICT
         "实体 e1 有多个不同的名称"
         [IValue (VStr "Tencent"); IValue (VStr "Tencent Holdings")] [1%float; 1%float])
    = first :: rest
    /\ rest <> []
    /\ resolve_conflict (fun _ => "") (fun _ => Raise TypeError) (fun _ => Raise TypeError)
         init
         (new_conflict "name_conflict_e1" ENTITY_NAME_CONFLICT
            "实体 e1 有多个不同的名称"
            [IValue (VStr "Tencent"); IValue (VStr "Tencent Holdings")] [1%float; 1%float])
         None
       = Ok ({| resolution_strategies := _build_resolution_strategies;
                conflict_history :=
                  [] ++ [set_resolution
                           (set_strategy
                              (new_conflict "name_conflict_e1" ENTITY_NAME_CONFLICT
                                 "实体 e1 有多个不同的名称"
                                 [IValue (VStr "Tencent"); IValue (VStr "Tencent Holdings")]
                                 [1%float; 1%float]) "highest_confidence")
                           (Some first) 1] |},
             set_resolution
               (set_strategy
                  (new_conflict "name_conflict_e1" ENTITY_NAME_CONFLICT
                     "实体 e1 有多个不同的名称"
                     [IValue (VStr "Tencent"); IValue (VStr "Tencent Holdings")]
                     [1%float; 1%float]) "highest_confidence")
               (Some first) 1).
Proof.
  apply (entity_conflict_resolves_to_first (fun _ => "") (fun _ => "")
           (fun _ => Raise TypeError) (fun _ => Raise TypeError) init
           [StoreSpec.tencent; StoreSpec.tencent_renamed]).
  - reflexivity.
  - left.
  - discriminate.
Defined.

End EntityConflictFacts.

(** ** knowledge_graph.py: the conflicts of a store *)

Module StoreConflictFacts.
Import ConflictResolver ConflictSpec KnowledgeGraph ReachSpec ReachFacts.

Lemma relation_conflict_shape (relations : list Relation) (c : Conflict) :
  c ∈ detect_relation_conflicts relations ->
  (conflict_type c = RELATION_TYPE_CONFLICT \/ conflict_type c = CONTRADICTORY_RELATIONS)
  /\ length (conflicting_items c) = length (confidence_scores c)
  /\ 2 <= length (confidence_scores c).
Proof.
  unfold detect_relation_conflicts. intros Hin.
  apply list_elem_of_In, in_flat_map in Hin as ([[head_id tail_id] group] & _ & Hin).
  unfold group_conflicts in Hin.
  destruct (length group <=? 1) eqn:Hlen; [destruct Hin|]. apply Nat.leb_gt in Hlen.
  destruct (1 <? size _); [|destruct Hin].
  destruct (_are_contradictory_relations _); destruct Hin as [<-|[]];
    cbn [new_conflict conflicting_items confidence_scores conflict_type];
    rewrite !length_map; (split; [auto|]); split; lia.
Qed.

Lemma index_of_max_lt (scores : list float) :
  scores <> [] -> exists i, index_of_max scores = Ok i /\ i < length scores.
Proof.
  destruct scores as [|x t]; [congruence|]. intros _. cbn [index_of_max length].
  assert (Hgen : forall l best_i best i, best_i < i ->
             let st := fold_left
                         (fun '(best_i, best, i) y =>
                            if (best <? y)%float then (i, y, S i) else (best_i, best, S i))
                         l (best_i, best, i) in
             fst (fst st) < i + length l).
  { induction l as [|y l IH]; intros best_i best i Hlt; cbn [fold_left length fst]; [lia|].
    destruct (best <? y)%float.
    - specialize (IH i y (S i) ltac:(lia)). cbn zeta in IH. lia.
    - specialize (IH best_i best (S i) ltac:(lia)). cbn zeta in IH. lia. }
  eexists. split; [reflexivity|]. specialize (Hgen t 0 x 1 ltac:(lia)). cbn zeta in Hgen. lia.
Qed.

Section Resolution.
Variable py_str : PyValue -> string.
Variable py_str_item : Item -> string.
Variable py_float : Item -> result float.
Variable list_of_set : list PyValue -> result (list PyValue).

Lemma relation_conflict_resolves (self : ConflictResolver) (c : Conflict) :
  default_strategies self ->
  conflict_type c = RELATION_TYPE_CONFLICT \/ conflict_type c = CONTRADICTORY_RELATIONS ->
  length (conflicting_items c) = length (confidence_scores c) ->
  2 <= length (confidence_scores c) ->
  exists resolved,
    resolved_by_highest c resolved
    /\ resolve_conflict py_str_item py_float list_of_set self c None
       = Ok ({| resolution_strategies := resolution_strategies self;
                conflict_history := conflict_history self ++ [resolved] |}, resolved).
Proof.
  intros Hdef Hty Hlen Hlen2.
  destruct (index_of_max_lt (confidence_scores c)) as (i & Hi & Hlt).
  { destruct (confidence_scores c); [cbn in Hlen2; lia | discriminate]. }
  destruct (lookup_lt_is_Some_2 (conflicting_items c) i ltac:(lia)) as [item Hitem].
  destruct (lookup_lt_is_Some_2 (confidence_scores c) i Hlt) as [conf Hconf].
  exists (set_resolution (set_strategy c "highest_confidence") (Some item) conf).
  split; [exists i, item, conf; auto|].
  assert (Hhc : highest_confidence (set_strategy c "highest_confidence")
                = Ok (set_resolution (set_strategy c "highest_confidence") (Some item) conf)).
  { unfold highest_confidence, lookup_or_raise.
    cbn [set_strategy confidence_scores conflicting_items].
    rewrite Hi. cbn [mbind result_bind]. rewrite Hitem, Hconf. reflexivity. }
  unfold resolve_conflict, choose_strategy. rewrite Hdef.
  destruct Hty as [Ht|Ht]; rewrite Ht;
    cbn [_build_resolution_strategies head default id];
    unfold dispatch; cbn [set_strategy conflict_type]; rewrite Ht.
  - unfold _resolve_relation_type_conflict. rewrite String.eqb_refl.
    fold (set_strategy c "highest_confidence"). rewrite Hhc. reflexivity.
  - unfold _resolve_contradictory_relations. rewrite String.eqb_refl.
    fold (set_strategy c "highest_confidence"). rewrite Hhc. reflexivity.
Qed.

Lemma batch_loop_resolves (conflicts : list Conflict) : forall self done,
  default_strategies self ->
  Forall (fun c =>
            (conflict_type c = RELATION_TYPE_CONFLICT
             \/ conflict_type c = CONTRADICTORY_RELATIONS)
            /\ length (conflicting_items c) = length (confidence_scores c)
            /\ 2 <= length (confidence_scores c)) conflicts ->
  exists resolved,
    Forall2 resolved_by_highest conflicts resolved
    /\ batch_loop py_str_item py_float list_of_set self conflicts None done
       = Ok ({| resolution_strategies := resolution_strategies self;
                conflict_history := conflict_history self ++ resolved |},
             done ++ resolved).
Proof.
  induction conflicts as [|c conflicts IH]; intros self done Hdef Hall.
  - exists []. split; [constructor|]. cbn [batch_loop]. rewrite !app_nil_r.
    destruct self. reflexivity.
  - apply Forall_cons in Hall as [(Hty & Hlen & Hlen2) Hall].
    destruct (relation_conflict_resolves self c Hdef Hty Hlen Hlen2) as (c' & Hc' & Hres).
    cbn [batch_loop]. rewrite Hres. cbn [mbind result_bind].
    destruct (IH {| resolution_strategies := resolution_strategies self;
                    conflict_history := conflict_history self ++ [c'] |}
                 (done ++ [c']) Hdef Hall) as (resolved & HF & Hloop).
    exists (c' :: resolved). split; [constructor; assumption|].
    rewrite Hloop. cbn [resolution_strategies conflict_history].
    rewrite <- !app_assoc. reflexivity.
Qed.


End Resolution.


End StoreConflictFacts.

(** ** conflict_resolution.py: statistics *)

Module ConflictStatisticsFacts.
Import ConflictResolver RelationFusionSpec.

Lemma conflict_counts_fold (conflicts : list Conflict) :
  forall stats total,
    let st := fold_left count_conflict conflicts (stats, total) in
    total_conflicts (fst st) = total_conflicts stats
    /\ total_count (by_type (fst st)) = total_count (by_type stats) + length conflicts
    /\ resolved_count (fst st)
       = resolved_count stats + length (List.filter is_resolved conflicts)
    /\ high_confidence_resolutions (fst st)
       = high_confidence_resolutions stats
         + length (List.filter
                     (fun c => is_resolved c && (0.8 <? resolution_confidence c)%float)
                     conflicts)
    /\ average_resolution_confidence (fst st) = average_resolution_confidence stats.
Proof.
  induction conflicts as [|c conflicts IH]; intros stats total; cbn [fold_left].
  - cbn [fst List.filter length]. rewrite !Nat.add_0_r. repeat split.
  - cbn zeta in IH |- *. unfold count_conflict at 2 4 6 8 10.
    match goal with |- context [fold_left _ conflicts (?s, ?t)] =>
      specialize (IH s t) end.
    destruct IH as (H1 & H2 & H3 & H4 & H5).
    rewrite H1, H2, H3, H4, H5.
    cbn [total_conflicts by_type resolved_count high_confidence_resolutions
         average_resolution_confidence List.filter length].
    rewrite dict_incr_total.
    destruct (is_resolved c); destruct (0.8 <? resolution_confidence c)%float;
      cbn [andb length]; repeat split; try lia; reflexivity.
Qed.

Lemma filter_both_le {A : Type} (f g : A -> bool) (l : list A) :
  length (List.filter (fun x => f x && g x) l) <= length (List.filter f l).
Proof.
  induction l as [|x l IH]; [reflexivity|].
  cbn [List.filter]. destruct (f x), (g x); cbn [andb length]; lia.
Qed.

(** X23. The counts of [get_conflict_statistics] add up: the conflicts per type
    sum to the number of conflicts, the resolved ones are those whose resolved
    value is not [None], the highly confident ones are among them, and with
    nothing resolved the average stays 0.0. *)
Theorem conflict_statistics_add_up (conflicts : list Conflict) :
  total_conflicts (get_conflict_statistics conflicts) = length conflicts
  /\ total_count (by_type (get_conflict_statistics conflicts)) = length conflicts
  /\ resolved_count (get_conflict_statistics conflicts)
     = length (List.filter is_resolved conflicts)
  /\ high_confidence_resolutions (get_conflict_statistics conflicts)
     <= resolved_count (get_conflict_statistics conflicts)
  /\ resolved_count (get_conflict_statistics conflicts) <= length conflicts
  /\ (List.filter is_resolved conflicts = [] ->
      average_resolution_confidence (get_conflict_statistics conflicts) = 0%float).
Proof.
  unfold get_conflict_statistics.
  pose proof (conflict_counts_fold conflicts
                (mkConflictStatistics (length conflicts) [] 0 0 0) 0%float) as H.
  cbn zeta in H.
  destruct (fold_left count_conflict conflicts _) as [stats total].
  cbn [fst total_conflicts by_type resolved_count high_confidence_resolutions
       average_resolution_confidence] in H.
  destruct H as (H1 & H2 & H3 & H4 & H5).
  pose proof (filter_both_le is_resolved
                (fun c => (0.8 <? resolution_confidence c)%float) conflicts) as Hle.
  pose proof (SeedScanFacts.filter_length_le is_resolved conflicts) as Hle2.
  unfold total_count in *. cbn [dict_values map] in H2.
  change (list_sum []) with 0 in H2.
  destruct (0 <? resolved_count stats) eqn:Hpos;
    cbn [total_conflicts by_type resolved_count high_confidence_resolutions
         average_resolution_confidence];
    (split; [lia|]); (split; [lia|]); (split; [lia|]); (split; [lia|]); (split; [lia|]).
  - intros Hnone. rewrite Hnone in H3. cbn in H3. apply Nat.ltb_lt in Hpos. lia.
  - intros _. exact H5.
Qed.

End ConflictStatisticsFacts.

(** ** [max] with a key, and counting in a dictionary *)

Section FirstGreatest.
Context {A : Type} (key : A -> nat).
Import VoteSpec.

Lemma fold_max_split (t : list A) : forall pre best mid,
  (forall y, y ∈ pre -> key y < key best) ->
  (forall y, y ∈ mid -> key y <= key best) ->
  exists pre' post',
    pre ++ best :: mid ++ t
    = pre' ++ fold_left (fun best y => if key best <? key y then y else best) t best :: post'
    /\ (forall y, y ∈ pre' ->
          key y < key (fold_left (fun best y => if key best <? key y then y else best) t best))
    /\ (forall y, y ∈ post' ->
          key y <= key (fold_left (fun best y => if key best <? key y then y else best) t best)).
Proof.
  induction t as [|z t IH]; intros pre best mid Hpre Hmid; cbn [fold_left].
  - exists pre, mid. rewrite app_nil_r. auto.
  - destruct (key best <? key z) eqn:Hlt.
    + apply Nat.ltb_lt in Hlt.
      destruct (IH (pre ++ best :: mid) z []) as (pre' & post' & Heq & H1 & H2).
      * intros y Hy. apply elem_of_app in Hy as [Hy|Hy]; [specialize (Hpre y Hy); lia|].
        apply elem_of_cons in Hy as [->|Hy]; [exact Hlt | specialize (Hmid y Hy); lia].
      * intros y Hy. inversion Hy.
      * exists pre', post'. split; [|auto].
        rewrite <- Heq. cbn [app]. rewrite <- !app_assoc. reflexivity.
    + apply Nat.ltb_ge in Hlt.
      destruct (IH pre best (mid ++ [z])) as (pre' & post' & Heq & H1 & H2).
      * exact Hpre.
      * intros y Hy. apply elem_of_app in Hy as [Hy|Hy]; [exact (Hmid y Hy)|].
        apply list_elem_of_singleton in Hy as ->. exact Hlt.
      * exists pre', post'. split; [|auto].
        rewrite <- Heq. rewrite <- !app_assoc. reflexivity.
Qed.

Lemma py_max_by_first (x : A) (t : list A) :
  exists r, py_max_by key (x :: t) = Ok r /\ first_greatest key (x :: t) r.
Proof.
  cbn [py_max_by]. eexists. split; [reflexivity|].
  destruct (fold_max_split t [] x []) as (pre' & post' & Heq & H1 & H2).
  - intros y Hy. inversion Hy.
  - intros y Hy. inversion Hy.
  - exists pre', post'. cbn [app] in Heq. auto.
Qed.

Lemma find_first (f : A -> bool) (pre post : list A) (x : A) :
  (forall y, y ∈ pre -> f y = false) -> f x = true -> find f (pre ++ x :: post) = Some x.
Proof.
  intros Hpre Hx. induction pre as [|y pre IH]; cbn [app find].
  - rewrite Hx. reflexivity.
  - rewrite (Hpre y) by left. apply IH. intros z Hz. apply Hpre. right. exact Hz.
Qed.

End FirstGreatest.

Section Counting.
Context {K : Type} `{EqDecision K}.
Import VoteSpec.

Lemma counted_get (xs : list K) : forall (acc : pydict K nat) k,
  dict_get (fold_left dict_incr xs acc) k
  = match dict_get acc k with
    | Some c => Some (c + occurrences k xs)
    | None => if occurrences k xs =? 0 then None else Some (occurrences k xs)
    end.
Proof.
  unfold occurrences.
  induction xs as [|x xs IH]; intros acc k; cbn [fold_left List.filter].
  - cbn [length]. destruct (dict_get acc k); [f_equal; lia | reflexivity].
  - rewrite IH. unfold dict_incr at 1. rewrite dict_get_set.
    destruct (decide (x = k)) as [->|Hne].
    + rewrite bool_decide_eq_true_2 by reflexivity. cbn [length].
      destruct (dict_get acc k) as [c|]; cbn [default id].
      * f_equal. lia.
      * replace (0 + 1 + _) with (S (length (List.filter (fun y => bool_decide (y = k)) xs)))
          by lia.
        reflexivity.
    + rewrite bool_decide_eq_false_2 by exact Hne. reflexivity.
Qed.

Lemma counted_keys_NoDup (xs : list K) : forall acc : pydict K nat,
  NoDup (dict_keys acc) -> NoDup (dict_keys (fold_left dict_incr xs acc)).
Proof.
  induction xs as [|x xs IH]; intros acc Hacc; cbn [fold_left]; [assumption|].
  apply IH, dict_keys_set_NoDup, Hacc.
Qed.

Lemma occurrences_pos (k : K) (xs : list K) : 0 < occurrences k xs <-> k ∈ xs.
Proof.
  unfold occurrences. induction xs as [|x xs IH]; cbn [List.filter length].
  - split; [lia | intros H'; inversion H'].
  - rewrite elem_of_cons. destruct (decide (x = k)) as [->|Hne].
    + rewrite bool_decide_eq_true_2 by reflexivity. cbn [length]. split; [auto | lia].
    + rewrite bool_decide_eq_false_2 by exact Hne. rewrite IH.
      split; [auto | intros [->|H']; [contradiction | exact H']].
Qed.

Lemma counted_keys_elem (xs : list K) (acc : pydict K nat) k :
  k ∈ dict_keys (fold_left dict_incr xs acc) <-> k ∈ dict_keys acc \/ k ∈ xs.
Proof.
  rewrite <- !dict_mem_keys, <- occurrences_pos. unfold dict_mem.
  rewrite counted_get. destruct (dict_get acc k).
  - split; auto.
  - destruct (occurrences k xs =? 0) eqn:H0.
    + apply Nat.eqb_eq in H0. split; [discriminate | intros [H'|H']; [discriminate | lia]].
    + apply Nat.eqb_neq in H0. split; [intros _; right; lia | reflexivity].
Qed.

Lemma counted_item (xs : list K) k c :
  (k, c) ∈ fold_left dict_incr xs [] -> c = occurrences k xs.
Proof.
  intros Hin. apply ConflictResolverFacts.dict_get_of_item in Hin.
  - rewrite counted_get in Hin. cbn [dict_get] in Hin.
    destruct (occurrences k xs =? 0); [discriminate|]. injection Hin as <-. reflexivity.
  - apply counted_keys_NoDup. apply NoDup_nil. exact I.
Qed.

Lemma counted_keys_prefix (xs : list K) : forall acc : pydict K nat,
  exists rest, dict_keys (fold_left dict_incr xs acc) = dict_keys acc ++ rest.
Proof.
  induction xs as [|x xs IH]; intros acc; cbn [fold_left].
  - exists []. rewrite app_nil_r. reflexivity.
  - destruct (IH (dict_incr acc x)) as [rest Heq]. rewrite Heq.
    unfold dict_incr. rewrite dict_keys_set. destruct (dict_mem acc x).
    + exists rest. reflexivity.
    + exists (x :: rest). rewrite <- app_assoc. reflexivity.
Qed.

Lemma prefix_before (l : list K) : forall rest pre t post,
  l ++ rest = pre ++ t :: post -> t ∉ l -> forall y, y ∈ l -> y ∈ pre.
Proof.
  induction l as [|a l IH]; intros rest pre t post Heq Ht y Hy; [inversion Hy|].
  destruct pre as [|b pre]; cbn [app] in Heq.
  - injection Heq as -> _. exfalso. apply Ht. left.
  - injection Heq as -> Heq. apply elem_of_cons in Hy as [->|Hy]; [left|].
    right. apply (IH rest pre t post Heq); [|exact Hy].
    intros H'. apply Ht. right. exact H'.
Qed.

Lemma counted_keys_split (xs : list K) : forall (acc : pydict K nat) pre' t post',
  dict_keys (fold_left dict_incr xs acc) = pre' ++ t :: post' ->
  t ∉ dict_keys acc ->
  exists pre post,
    xs = pre ++ t :: post
    /\ (forall y, y ∈ pre -> y ∈ pre')
    /\ (forall y, y ∈ post -> y ∈ pre' ++ t :: post').
Proof.
  induction xs as [|x xs IH]; intros acc pre' t post' Heq Ht; cbn [fold_left] in Heq.
  - exfalso. apply Ht. rewrite Heq. apply elem_of_app. right. left.
  - destruct (decide (x = t)) as [->|Hne].
    + exists [], xs. split; [reflexivity|]. split; [intros y Hy; inversion Hy|].
      intros y Hy. rewrite <- Heq. apply counted_keys_elem. right. exact Hy.
    + assert (Ht' : t ∉ dict_keys (dict_incr acc x)).
      { unfold dict_incr. rewrite dict_keys_set. destruct (dict_mem acc x); [exact Ht|].
        intros H'. apply elem_of_app in H' as [H'|H']; [exact (Ht H')|].
        apply list_elem_of_singleton in H'. congruence. }
      destruct (IH _ _ _ _ Heq Ht') as (pre & post & -> & H1 & H2).
      exists (x :: pre), post. split; [reflexivity|]. split; [|exact H2].
      intros y Hy. apply elem_of_cons in Hy as [->|Hy]; [|exact (H1 y Hy)].
      destruct (counted_keys_prefix (pre ++ t :: post) (dict_incr acc x)) as [rest Hrest].
      rewrite Hrest in Heq.
      apply (prefix_before _ _ _ _ _ Heq Ht').
      apply dict_mem_keys. unfold dict_incr. rewrite dict_mem_set.
      destruct (decide (x = x)); congruence.
Qed.

(** The first key of greatest rank among the keys counted is the first
    item of greatest rank among the items counted. *)
Lemma counted_keys_first (key : K -> nat) (xs : list K) (t : K) :
  first_greatest key (dict_keys (fold_left dict_incr xs [])) t -> first_greatest key xs t.
Proof.
  intros (pre' & post' & Heq & H1 & H2).
  destruct (counted_keys_split xs [] pre' t post' Heq) as (pre & post & -> & Hpre & Hpost).
  - intros H'. inversion H'.
  - exists pre, post. split; [reflexivity|]. split.
    + intros y Hy. apply H1, Hpre, Hy.
    + intros y Hy. specialize (Hpost y Hy).
      apply elem_of_app in Hpost as [Hy'|Hy']; [specialize (H1 y Hy'); lia|].
      apply elem_of_cons in Hy' as [->|Hy']; [lia | exact (H2 y Hy')].
Qed.

(** The first item of greatest count is the first of the most frequent
    keys. *)
Lemma counted_items_first (xs : list K) (item : K * nat) :
  first_greatest snd (fold_left dict_incr xs []) item ->
  first_greatest (fun k => occurrences k xs) xs (fst item).
Proof.
  intros (pre' & post' & Heq & H1 & H2).
  apply counted_keys_first. exists (map fst pre'), (map fst post').
  assert (Hocc : forall k c, (k, c) ∈ fold_left dict_incr xs [] -> c = occurrences k xs)
    by (intros k c; apply counted_item).
  assert (Hitem : snd item = occurrences (fst item) xs).
  { destruct item as [k c]. apply Hocc. rewrite Heq. apply elem_of_app. right. left. }
  split; [|split].
  - unfold dict_keys. rewrite Heq, map_app. reflexivity.
  - intros y Hy. apply list_elem_of_fmap in Hy as ([k c] & -> & Hin). cbn [fst].
    rewrite <- Hitem, <- (Hocc k c).
    + exact (H1 (k, c) Hin).
    + rewrite Heq. apply elem_of_app. left. exact Hin.
  - intros y Hy. apply list_elem_of_fmap in Hy as ([k c] & -> & Hin). cbn [fst].
    rewrite <- Hitem, <- (Hocc k c).
    + exact (H2 (k, c) Hin).
    + rewrite Heq. apply elem_of_app. right. right. exact Hin.
Qed.

End Counting.

Module VoteFacts.
Import VoteSpec.

(** X24. [_fuse_types]: no types give "Unknown"; otherwise the result is one of
    the types: under the strategy [most_specific] the first of the longest
    names, under every other strategy the first of the most frequent. *)
Theorem fused_type_is_first_best (strategy : string) :
  EntityFusion._fuse_types strategy [] = Ok "Unknown"
  /\ forall ty rest,
       let types := ty :: rest in
       exists t,
         EntityFusion._fuse_types strategy types = Ok t
         /\ if String.eqb strategy "most_specific"
            then first_greatest String.length types t
            else first_greatest (fun u => occurrences u types) types t.
Proof.
  split; [reflexivity|]. intros ty rest types.
  assert (Hne : exists item items, fold_left dict_incr types [] = item :: items).
  { destruct (fold_left dict_incr types []) as [|item items] eqn:Hc; [|eauto].
    exfalso. assert (Hin : ty ∈ dict_keys (fold_left dict_incr types [])).
    { apply counted_keys_elem. right. left. }
    rewrite Hc in Hin. inversion Hin. }
  destruct Hne as (item & items & Hc).
  assert (Hvote : exists t,
             (item ← py_max_by snd (fold_left dict_incr types []); Ok (fst item)) = Ok t
             /\ first_greatest (fun u => occurrences u types) types t).
  { rewrite Hc. destruct (py_max_by_first snd item items) as (r & -> & Hr).
    exists (fst r). split; [reflexivity|]. apply counted_items_first. rewrite Hc. exact Hr. }
  unfold EntityFusion._fuse_types. fold types. cbv zeta.
  change (match types with [] => Ok "Unknown" | _ :: _ => ?x end) with x.
  destruct (String.eqb strategy "vote") eqn:Hv.
  - apply String.eqb_eq in Hv. subst strategy. exact Hvote.
  - destruct (String.eqb strategy "most_specific"); [|exact Hvote].
    unfold dict_keys at 1. rewrite Hc. cbn [map].
    destruct (py_max_by_first String.length (fst item) (map fst items)) as (r & -> & Hr).
    exists r. split; [reflexivity|]. apply counted_keys_first.
    unfold dict_keys. rewrite Hc. exact Hr.
Qed.

(** X25. [_merge_property_values_vote] raises [ValueError] on no values;
    otherwise it returns the first of the values whose string is the most
    frequent one. *)
Theorem vote_returns_first_most_frequent (py_str : PyValue -> string) :
  RelationFusion._merge_property_values_vote py_str [] = Raise ValueError
  /\ forall value rest,
       let values := value :: rest in
       exists v,
         RelationFusion._merge_property_values_vote py_str values = Ok v
         /\ first_greatest (fun w => occurrences (py_str w) (map py_str values)) values v.
Proof.
  split; [reflexivity|]. intros value rest values.
  unfold RelationFusion._merge_property_values_vote.
  assert (Hmap : forall (l : list PyValue) acc,
             fold_left (fun counts value => dict_incr counts (py_str value)) l acc
             = fold_left dict_incr (map py_str l) acc).
  { induction l as [|x l IH]; intros acc; cbn [fold_left map]; [reflexivity | apply IH]. }
  rewrite Hmap.
  destruct (fold_left dict_incr (map py_str values) []) as [|item items] eqn:Hc.
  { exfalso. assert (Hin : py_str value ∈ dict_keys (fold_left dict_incr (map py_str values) [])).
    { apply counted_keys_elem. right. left. }
    rewrite Hc in Hin. inversion Hin. }
  destruct (py_max_by_first snd item items) as (r & -> & Hr). cbn [mbind result_bind].
  rewrite <- Hc in Hr. apply counted_items_first in Hr.
  destruct Hr as (pre_s & post_s & Heq & H1 & H2).
  apply map_eq_app in Heq as (pre & tl & Hv & Hpre & Htl).
  apply map_eq_cons in Htl as (v & post & -> & Hstr & Hpost).
  assert (Hfound : find (fun value => String.eqb (py_str value) (fst r)) values = Some v).
  { rewrite Hv. apply find_first.
    - intros y Hy. apply String.eqb_neq. intros Hy'.
      assert (Hlt := H1 (py_str y)). rewrite Hy' in Hlt.
      assert (Hin : fst r ∈ pre_s).
      { rewrite <- Hpre, <- Hy'. apply list_elem_of_fmap. exists y. auto. }
      specialize (Hlt Hin). lia.
    - apply String.eqb_eq. exact Hstr. }
  rewrite Hfound. exists v. split; [reflexivity|].
  exists pre, post. split; [exact Hv|]. rewrite Hstr. split.
  - intros y Hy. apply H1. rewrite <- Hpre. apply list_elem_of_fmap. exists y. auto.
  - intros y Hy. apply H2. rewrite <- Hpost. apply list_elem_of_fmap. exists y. auto.
Qed.

End VoteFacts.

(** ** ontology.py and the validation of the store *)

Lemma filter_nil_iff {A : Type} (f : A -> bool) (l : list A) :
  List.filter f l = [] <-> forall x, x ∈ l -> f x = false.
Proof.
  induction l as [|a l IH]; cbn [List.filter].
  - split; [intros _ x Hx; inversion Hx | reflexivity].
  - destruct (f a) eqn:Ha.
    + split; [discriminate|]. intros H'. specialize (H' a). rewrite Ha in H'.
      discriminate H'. left.
    + rewrite IH. split.
      * intros H' x Hx. apply elem_of_cons in Hx as [->|Hx]; [exact Ha | exact (H' x Hx)].
      * intros H' x Hx. apply H'. right. exact Hx.
Qed.

Module OntologyFacts.
Import Ontology OntologySpec.

Lemma built_init : built init.
Proof.
  unfold init, initialize_default_ontology. cbn [fold_left].
  repeat (first [apply built_relation_type | apply built_entity_type]). apply built_empty.
Qed.

Lemma built_distinct (self : Ontology) :
  built self -> NoDup (dict_keys (relation_types self)).
Proof.
  induction 1 as [|self entity_type _ IH|self relation_type _ IH]; cbn [relation_types].
  - apply NoDup_nil. exact I.
  - exact IH.
  - unfold add_relation_type. cbn [relation_types]. apply dict_keys_set_NoDup, IH.
Qed.

(** X26. In an ontology built by its own methods, [get_possible_relations]
    lists exactly the relation names that [validate_relation] accepts
    between the two types. *)
Theorem possible_relations_are_valid (self : Ontology) (head_type tail_type name : string) :
  built self ->
  name ∈ get_possible_relations self head_type tail_type
  <-> validate_relation self name head_type tail_type = true.
Proof.
  intros Hb. apply built_distinct in Hb.
  unfold get_possible_relations, validate_relation, get_relation_type. split.
  - intros Hin. apply list_elem_of_fmap in Hin as ([n rt] & -> & Hin).
    apply list_elem_of_In, filter_In in Hin as [Hin Hok]. apply list_elem_of_In in Hin.
    cbn [fst]. rewrite (ConflictResolverFacts.dict_get_of_item _ _ _ Hb Hin). exact Hok.
  - destruct (dict_get (relation_types self) name) as [rt|] eqn:Hget; [|discriminate].
    intros Hok. apply list_elem_of_fmap. exists (name, rt). split; [reflexivity|].
    apply list_elem_of_In, filter_In. split; [|exact Hok].
    apply list_elem_of_In, dict_get_item, Hget.
Qed.

Lemma possible_relations_witness :
  "works_for" ∈ get_possible_relations init "Person" "Organization"
  <-> validate_relation init "works_for" "Person" "Organization" = true.
Proof.
  apply (possible_relations_are_valid init "Person" "Organization" "works_for").
  exact built_init.
Defined.

End OntologyFacts.

Module ValidationFacts.
Import KnowledgeGraph OntologySpec.

Section Statistics.
Variable number_weakly_connected_components : MultiDiGraph -> nat.
Variable nx_density : MultiDiGraph -> float.

Abbreviation validate :=
  (validate_knowledge_graph number_weakly_connected_components nx_density).

Lemma relation_checks (ontology : Ontology.Ontology) (self : KnowledgeGraph) (r : Relation) :
  is_orphaned self r = false /\ violates_ontology ontology self r = false
  <-> well_typed ontology self r.
Proof.
  unfold is_orphaned, violates_ontology, well_typed, dict_mem.
  destruct (dict_get (entities self) (head_entity_id r)) as [h|];
    destruct (dict_get (entities self) (tail_entity_id r)) as [t|]; cbn [negb orb].
  - split.
    + intros [_ Hv]. apply negb_false_iff in Hv. eauto.
    + intros (h' & t' & [= <-] & [= <-] & Hv). rewrite Hv. auto.
  - split; [intros [H' _]; discriminate | intros (? & ? & _ & H' & _); discriminate].
  - split; [intros [H' _]; discriminate | intros (? & ? & H' & _); discriminate].
  - split; [intros [H' _]; discriminate | intros (? & ? & H' & _); discriminate].
Qed.

(** X27. [validate_knowledge_graph] declares the graph valid exactly when
    every stored relation has both its ends among the entities and is
    allowed by the ontology between their types; and it is valid exactly
    when no issue is reported. *)
Theorem valid_iff_well_typed (ontology : Ontology.Ontology) (self : KnowledgeGraph) :
  (valid (validate ontology self) = true
   <-> forall r, r ∈ dict_values (relations self) -> well_typed ontology self r)
  /\ (valid (validate ontology self) = true <-> issues (validate ontology self) = []).
Proof.
  unfold validate_knowledge_graph. cbn [valid issues].
  set (orphaned := List.filter (is_orphaned self) (dict_values (relations self))).
  set (invalid := List.filter (violates_ontology ontology self) (dict_values (relations self))).
  assert (Ho : orphaned = [] <-> forall r, r ∈ dict_values (relations self) ->
                                          is_orphaned self r = false)
    by apply filter_nil_iff.
  assert (Hi : invalid = [] <-> forall r, r ∈ dict_values (relations self) ->
                                         violates_ontology ontology self r = false)
    by apply filter_nil_iff.
  split.
  - split.
    + intros Hv r Hr. apply relation_checks.
      destruct orphaned; [|discriminate Hv]. destruct invalid; [|discriminate Hv].
      split; [apply Ho | apply Hi]; auto.
    + intros Hall.
      assert (Ho' : orphaned = []).
      { apply Ho. intros r Hr. apply (relation_checks ontology), Hall, Hr. }
      assert (Hi' : invalid = []).
      { apply Hi. intros r Hr. apply (relation_checks ontology), Hall, Hr. }
      rewrite Ho', Hi'. reflexivity.
  - destruct orphaned, invalid; cbn [map negb andb app];
      split; first [reflexivity | discriminate].
Qed.

(** X28. A relation that [add_relation] refuses stays in the store, and the
    store it leaves is not valid: [validate_knowledge_graph] reports
    orphaned relations. *)
Theorem refused_relation_invalidates (ontology : Ontology.Ontology) (self : KnowledgeGraph)
  (relation : Relation) :
  snd (add_relation self relation) = Raise ValueError ->
  valid (validate ontology (fst (add_relation self relation))) = false
  /\ exists n rest,
       0 < n
       /\ issues (validate ontology (fst (add_relation self relation)))
          = ("发现 " +:+ str_of_nat n +:+ " 个孤立关系") :: rest.
Proof.
  unfold add_relation. cbn [entities].
  destruct (negb (dict_mem (entities self) (head_entity_id relation))
            || negb (dict_mem (entities self) (tail_entity_id relation))) eqn:Ho;
    [|discriminate].
  intros _. cbn [fst]. unfold validate_knowledge_graph. cbn [valid issues relations entities].
  set (self' := {| entities := entities self;
                   relations := dict_set (relations self) (relation_id relation) relation;
                   graph := graph self;
                   entity_type_index := entity_type_index self;
                   relation_type_index := relation_type_index self;
                   entity_name_index := entity_name_index self |}).
  destruct (List.filter (is_orphaned self')
              (dict_values (dict_set (relations self) (relation_id relation) relation)))
    as [|r0 l] eqn:Hf.
  - exfalso. pose proof (proj1 (filter_nil_iff _ _) Hf relation) as Hrel.
    unfold is_orphaned in Hrel. cbn [entities self'] in Hrel. rewrite Ho in Hrel.
    discriminate Hrel.
    apply list_elem_of_fmap. exists (relation_id relation, relation). split; [reflexivity|].
    apply dict_get_item. rewrite dict_get_set.
    destruct (decide (relation_id relation = relation_id relation)); congruence.
  - split; [reflexivity|]. cbn [map negb andb app length].
    rewrite length_map. eexists (S (length l)), _. split; [lia|]. reflexivity.
Qed.

End Statistics.

Lemma refused_relation_witness :
  snd (add_relation init ReachSpec.founder_h_t) = Raise ValueError
  /\ valid (validate_knowledge_graph ReachSpec.no_components ReachSpec.no_density
              Ontology.init (fst (add_relation init ReachSpec.founder_h_t))) = false.
Proof.
  split; [reflexivity|].
  apply (refused_relation_invalidates ReachSpec.no_components ReachSpec.no_density
           Ontology.init init ReachSpec.founder_h_t).
  reflexivity.
Defined.

End ValidationFacts.

(** ** knowledge_graph.py: subgraphs *)

Module SubgraphFacts.
Import KnowledgeGraph StoreSpec ReachSpec SubgraphSpec.

Section Subgraph.
Variable iter_set : gset string -> list string.
Hypothesis iter_set_elements : forall s, iter_set s ≡ₚ elements s.

Lemma iter_set_elem (s : gset string) (x : string) : x ∈ iter_set s <-> x ∈ s.
Proof. rewrite (iter_set_elements s). apply elem_of_elements. Qed.

Lemma expand_elem (self : KnowledgeGraph) (s : gset string) (x : string) :
  x ∈ expand iter_set self s
  <-> x ∈ s \/ exists y, y ∈ s /\ x ∈ get_neighbors self y None.
Proof.
  unfold expand. rewrite elem_of_union, elem_of_union_list. split.
  - intros [H|(X & HX & Hx)]; [left; exact H|]. right.
    apply list_elem_of_fmap in HX as (y & -> & Hy). exists y.
    split; [apply iter_set_elem, Hy | exact Hx].
  - intros [H|(y & Hy & Hx)]; [left; exact H|]. right.
    exists (get_neighbors self y None). split; [|exact Hx].
    apply list_elem_of_fmap. exists y. split; [reflexivity | apply iter_set_elem, Hy].
Qed.

Lemma subgraph_entities_requested (self : KnowledgeGraph) (entity_ids : list string)
  (depth : nat) (id : string) :
  id ∈ entity_ids -> id ∈ subgraph_entities iter_set self entity_ids depth.
Proof.
  intros Hid. unfold subgraph_entities. induction depth as [|depth IH]; cbn [Nat.iter].
  - apply elem_of_list_to_set, Hid.
  - apply expand_elem. left. exact IH.
Qed.

Lemma subgraph_entities_neighbors (self : KnowledgeGraph) (entity_ids : list string)
  (depth : nat) (id n : string) :
  0 < depth -> id ∈ entity_ids -> n ∈ get_neighbors self id None ->
  n ∈ subgraph_entities iter_set self entity_ids depth.
Proof.
  intros Hd Hid Hn. destruct depth as [|depth]; [lia|].
  unfold subgraph_entities. cbn [Nat.iter]. apply expand_elem. right. exists id.
  split; [|exact Hn]. apply subgraph_entities_requested, Hid.
Qed.

(** The entities of the subgraph before any relation is added. *)
Lemma copied_entities (self : KnowledgeGraph) (ids : list string) :
  keyed_by entity_id (entities self) ->
  forall subgraph id,
    dict_get (entities (fold_left (fun subgraph entity_id =>
                                     match dict_get (entities self) entity_id with
                                     | Some entity => add_entity subgraph entity
                                     | None => subgraph
                                     end) ids subgraph)) id
    = if bool_decide (id ∈ ids)
      then match dict_get (entities self) id with
           | Some entity => Some entity
           | None => dict_get (entities subgraph) id
           end
      else dict_get (entities subgraph) id.
Proof.
  intros Hk. induction ids as [|x ids IH]; intros subgraph id; cbn [fold_left].
  - rewrite bool_decide_eq_false_2; [reflexivity | intros H'; inversion H'].
  - rewrite IH.
    assert (Hstep : dict_get (entities match dict_get (entities self) x with
                                        | Some entity => add_entity subgraph entity
                                        | None => subgraph
                                        end) id
                    = if decide (x = id)
                      then match dict_get (entities self) id with
                           | Some entity => Some entity
                           | None => dict_get (entities subgraph) id
                           end
                      else dict_get (entities subgraph) id).
    { destruct (dict_get (entities self) x) as [e|] eqn:Hx.
      - unfold add_entity. cbn [entities]. rewrite dict_get_set.
        rewrite (Hk x e (dict_get_item _ _ _ Hx)).
        destruct (decide (x = id)) as [<-|Hne]; [rewrite Hx|]; reflexivity.
      - destruct (decide (x = id)) as [<-|Hne]; [rewrite Hx|]; reflexivity. }
    rewrite Hstep.
    destruct (decide (x = id)) as [<-|Hne].
    + rewrite (bool_decide_eq_true_2 (x ∈ x :: ids)) by left.
      destruct (bool_decide (x ∈ ids)); [|reflexivity].
      destruct (dict_get (entities self) x); reflexivity.
    + destruct (bool_decide (id ∈ ids)) eqn:Hin.
      * apply bool_decide_eq_true in Hin.
        rewrite (bool_decide_eq_true_2 (id ∈ x :: ids)) by (right; exact Hin). reflexivity.
      * apply bool_decide_eq_false in Hin.
        rewrite (bool_decide_eq_false_2 (id ∈ x :: ids)); [reflexivity|].
        intros H'. apply elem_of_cons in H' as [H'|H']; [congruence | exact (Hin H')].
Qed.

(** The loop over the relations: it ends with the relations within reach
    added, or raises at one of them whose end is not in the subgraph. *)
Lemma add_reached_loop (reached : gset string) (rels : list Relation) :
  forall subgraph,
    match fold_left (fun acc relation =>
                       subgraph ← acc; add_reached reached subgraph relation)
                    rels (Ok subgraph) with
    | Ok subgraph' =>
        entities subgraph' = entities subgraph
        /\ relations subgraph'
           = fold_left (fun d r => dict_set d (relation_id r) r)
                       (List.filter (within reached) rels) (relations subgraph)
        /\ (forall r, r ∈ rels -> within reached r = true ->
              dict_mem (entities subgraph) (head_entity_id r) = true
              /\ dict_mem (entities subgraph) (tail_entity_id r) = true)
    | Raise e =>
        e = ValueError
        /\ exists r, r ∈ rels /\ within reached r = true
             /\ (dict_mem (entities subgraph) (head_entity_id r) = false
                 \/ dict_mem (entities subgraph) (tail_entity_id r) = false)
    end.
Proof.
  assert (Hraise : forall (l : list Relation) e,
             fold_left (fun acc relation =>
                          subgraph ← acc; add_reached reached subgraph relation)
                       l (Raise e) = Raise e).
  { induction l as [|r l IH]; intros e; cbn [fold_left]; [reflexivity | apply IH]. }
  induction rels as [|r rels IH]; intros subgraph; cbn [fold_left List.filter].
  - split; [reflexivity|]. split; [reflexivity|]. intros r Hr. inversion Hr.
  - cbn [mbind result_bind]. unfold add_reached at 2. fold (within reached r).
    destruct (within reached r) eqn:Hw.
    + unfold add_relation. cbn [entities].
      destruct (negb (dict_mem (entities subgraph) (head_entity_id r))
                || negb (dict_mem (entities subgraph) (tail_entity_id r))) eqn:Ho.
      * cbn [mbind result_bind]. rewrite Hraise. split; [reflexivity|].
        exists r. split; [left|]. split; [exact Hw|].
        apply orb_true_iff in Ho as [Ho|Ho]; apply negb_true_iff in Ho; auto.
      * cbn [mbind result_bind]. apply orb_false_iff in Ho as [Hh Ht].
        apply negb_false_iff in Hh, Ht.
        match goal with |- context [fold_left _ rels (Ok ?sg)] => set (sg1 := sg) end.
        specialize (IH sg1).
        destruct (fold_left _ rels (Ok sg1)) as [sg'|e].
        -- destruct IH as (He & Hr & Hall). cbn [entities relations sg1] in He, Hr, Hall.
           split; [exact He|]. split; [exact Hr|].
           intros r' Hr' Hw'. apply elem_of_cons in Hr' as [->|Hr']; [auto | apply Hall; auto].
        -- destruct IH as (He & r' & Hr' & Hw' & Hmiss). cbn [entities sg1] in Hmiss.
           split; [exact He|]. exists r'. split; [right; exact Hr' | auto].
    + specialize (IH subgraph).
      destruct (fold_left _ rels (Ok subgraph)) as [sg'|e].
      * destruct IH as (He & Hr & Hall). split; [exact He|]. split; [exact Hr|].
        intros r' Hr' Hw'. apply elem_of_cons in Hr' as [->|Hr']; [congruence | auto].
      * destruct IH as (He & r' & Hr' & Hw' & Hmiss).
        split; [exact He|]. exists r'. split; [right; exact Hr' | auto].
Qed.

Lemma within_spec (reached : gset string) (r : Relation) :
  within reached r = true
  <-> head_entity_id r ∈ reached /\ tail_entity_id r ∈ reached.
Proof.
  unfold within. rewrite andb_true_iff, !bool_decide_eq_true. reflexivity.
Qed.

(** What [query_subgraph] does, in one statement. *)
Lemma query_subgraph_spec (self : KnowledgeGraph) (entity_ids : list string) (depth : nat) :
  consistent self ->
  let reached := subgraph_entities iter_set self entity_ids depth in
  match query_subgraph iter_set self entity_ids depth with
  | Ok subgraph =>
      (forall id, dict_get (entities subgraph) id
                  = if bool_decide (id ∈ reached) then dict_get (entities self) id else None)
      /\ dict_values (relations subgraph)
         = List.filter (within reached) (dict_values (relations self))
      /\ (forall r, r ∈ dict_values (relations self) -> ~ reached_orphan self reached r)
  | Raise e =>
      e = ValueError
      /\ exists r, r ∈ dict_values (relations self) /\ reached_orphan self reached r
  end.
Proof.
  intros (_ & Hek & Hr & Hrk & _) reached. unfold query_subgraph. fold reached.
  set (subgraph0 := fold_left _ (iter_set reached) init).
  assert (Hent : forall id, dict_get (entities subgraph0) id
                            = if bool_decide (id ∈ reached)
                              then dict_get (entities self) id else None).
  { intros id. unfold subgraph0. rewrite (copied_entities self _ Hek).
    cbn [init entities dict_get].
    destruct (bool_decide (id ∈ iter_set reached)) eqn:Hin.
    - apply bool_decide_eq_true, iter_set_elem in Hin.
      rewrite (bool_decide_eq_true_2 _ Hin). destruct (dict_get (entities self) id); reflexivity.
    - apply bool_decide_eq_false in Hin. rewrite iter_set_elem in Hin.
      rewrite (bool_decide_eq_false_2 _ Hin). reflexivity. }
  assert (Hmem : forall id, id ∈ reached ->
                            dict_mem (entities subgraph0) id = dict_mem (entities self) id).
  { intros id Hid. unfold dict_mem. rewrite Hent, (bool_decide_eq_true_2 _ Hid). reflexivity. }
  pose proof (add_reached_loop reached (dict_values (relations self)) subgraph0) as Hloop.
  destruct (fold_left _ (dict_values (relations self)) (Ok subgraph0)) as [subgraph|e].
  - destruct Hloop as (He & Hrel & Hall). split; [|split].
    + intros id. rewrite He. apply Hent.
    + rewrite Hrel. unfold subgraph0 at 1.
      assert (Hnone : forall (ids : list string) sg,
                 relations (fold_left (fun subgraph entity_id =>
                                         match dict_get (entities self) entity_id with
                                         | Some entity => add_entity subgraph entity
                                         | None => subgraph
                                         end) ids sg) = relations sg).
      { induction ids as [|x ids IH]; intros sg; cbn [fold_left]; [reflexivity|].
        rewrite IH. destruct (dict_get (entities self) x); reflexivity. }
      rewrite Hnone. cbn [init relations].
      set (kept := List.filter (fun kv => within reached (snd kv)) (relations self)).
      assert (Hvals : List.filter (within reached) (dict_values (relations self))
                      = dict_values kept).
      { unfold kept, dict_values. generalize (relations self) as d.
        induction d as [|[k v] d IH]; cbn [map List.filter snd]; [reflexivity|].
        destruct (within reached v); cbn [map snd]; rewrite IH; reflexivity. }
      rewrite Hvals.
      rewrite (dict_rebuild relation_id kept []); [reflexivity| |].
      * cbn [app]. unfold distinct_keys, dict_keys in Hr. unfold dict_keys, kept.
        revert Hr. generalize (relations self) as d.
        induction d as [|[k v] d IH]; cbn [map List.filter fst snd]; intros Hnd;
          [apply NoDup_nil; exact I|].
        apply NoDup_cons in Hnd as [Hk Hnd].
        destruct (within reached v); [|apply IH, Hnd].
        cbn [map fst]. apply NoDup_cons. split; [|apply IH, Hnd].
        intros Hin. apply Hk. apply list_elem_of_fmap in Hin as ([k' v'] & -> & Hin).
        apply list_elem_of_In, filter_In in Hin as [Hin _].
        apply list_elem_of_fmap. exists (k', v'). split; [reflexivity|].
        apply list_elem_of_In, Hin.
      * intros k v Hin. apply Hrk. unfold kept in Hin.
        apply list_elem_of_In, filter_In in Hin as [Hin _]. apply list_elem_of_In, Hin.
    + intros r Hin (Hh & Ht & Hmiss).
      destruct (Hall r Hin) as [Hh' Ht']; [apply within_spec; auto|].
      rewrite (Hmem _ Hh) in Hh'. rewrite (Hmem _ Ht) in Ht'.
      destruct Hmiss; congruence.
  - destruct Hloop as (He & r & Hin & Hw & Hmiss). split; [exact He|].
    exists r. split; [exact Hin|]. apply within_spec in Hw as [Hh Ht].
    rewrite (Hmem _ Hh), (Hmem _ Ht) in Hmiss. unfold reached_orphan. auto.
Qed.

(** X29. On a reachable store, [query_subgraph] raises [ValueError] exactly
    when some stored relation has both ends among the entities collected
    and one of them is not stored; otherwise it returns. *)
Theorem subgraph_raises_on_orphan (self : KnowledgeGraph) (entity_ids : list string)
  (depth : nat) :
  reachable self ->
  let reached := subgraph_entities iter_set self entity_ids depth in
  (query_subgraph iter_set self entity_ids depth = Raise ValueError
   <-> exists r, r ∈ dict_values (relations self) /\ reached_orphan self reached r)
  /\ ((exists subgraph, query_subgraph iter_set self entity_ids depth = Ok subgraph)
      <-> forall r, r ∈ dict_values (relations self) -> ~ reached_orphan self reached r).
Proof.
  intros Hreach reached. apply ReachFacts.reachable_consistent in Hreach as [Hc _].
  pose proof (query_subgraph_spec self entity_ids depth Hc) as Hspec. fold reached in Hspec.
  cbv zeta in Hspec.
  destruct (query_subgraph iter_set self entity_ids depth) as [subgraph|e].
  - destruct Hspec as (_ & _ & Hall). split; split.
    + discriminate.
    + intros (r & Hin & Ho). exfalso. exact (Hall r Hin Ho).
    + intros _. exact Hall.
    + intros _. eauto.
  - destruct Hspec as (-> & r & Hin & Ho). split; split.
    + intros _. eauto.
    + reflexivity.
    + intros [sg Hsg]. discriminate Hsg.
    + intros Hall. exfalso. exact (Hall r Hin Ho).
Qed.

(** X30. The subgraph that [query_subgraph] returns for a reachable store
    holds the stored entities among those collected, each as it is stored,
    and the stored relations with both ends collected, in their order.  The
    entities asked for are collected, and with a depth of one or more their
    neighbours. *)
Theorem subgraph_content (self : KnowledgeGraph) (entity_ids : list string) (depth : nat)
  (subgraph : KnowledgeGraph) :
  reachable self ->
  query_subgraph iter_set self entity_ids depth = Ok subgraph ->
  let reached := subgraph_entities iter_set self entity_ids depth in
  (forall id, get_entity subgraph id
              = if bool_decide (id ∈ reached) then get_entity self id else None)
  /\ dict_values (relations subgraph)
     = List.filter (within reached) (dict_values (relations self))
  /\ (forall id, id ∈ entity_ids -> id ∈ reached)
  /\ (forall id n, 0 < depth -> id ∈ entity_ids -> n ∈ get_neighbors self id None ->
                   n ∈ reached).
Proof.
  intros Hreach Hq reached. apply ReachFacts.reachable_consistent in Hreach as [Hc _].
  pose proof (query_subgraph_spec self entity_ids depth Hc) as Hspec. fold reached in Hspec.
  cbv zeta in Hspec. rewrite Hq in Hspec. destruct Hspec as (Hent & Hrel & _).
  split; [exact Hent|]. split; [exact Hrel|]. split.
  - intros id Hid. apply subgraph_entities_requested, Hid.
  - intros id n Hd Hid Hn. apply (subgraph_entities_neighbors self entity_ids depth id n); auto.
Qed.

End Subgraph.

Lemma subgraph_raises_witness :
  (query_subgraph elements (run init (OpAddRelation founder_h_t)) ["h"; "t"] 0
   = Raise ValueError
   <-> exists r,
         r ∈ dict_values (relations (run init (OpAddRelation founder_h_t)))
         /\ reached_orphan (run init (OpAddRelation founder_h_t))
              (subgraph_entities elements (run init (OpAddRelation founder_h_t))
                 ["h"; "t"] 0) r)
  /\ query_subgraph elements (run init (OpAddRelation founder_h_t)) ["h"; "t"] 0
     = Raise ValueError.
Proof.
  split; [|vm_compute; reflexivity].
  apply (subgraph_raises_on_orphan elements (fun s => reflexivity (elements s))
           (run init (OpAddRelation founder_h_t)) ["h"; "t"] 0).
  apply reachable_run, reachable_init.
Defined.

Lemma subgraph_content_witness :
  exists subgraph,
    query_subgraph elements two_relations ["h"] 1 = Ok subgraph
    /\ dict_values (relations subgraph)
       = List.filter (within (subgraph_entities elements two_relations ["h"] 1))
                     (dict_values (relations two_relations)).
Proof.
  eexists. split; [vm_compute; reflexivity|].
  apply (subgraph_content elements (fun s => reflexivity (elements s))
           two_relations ["h"] 1).
  - unfold two_relations, two_entities. repeat apply reachable_run. apply reachable_init.
  - vm_compute. reflexivity.
Defined.

End SubgraphFacts.
